(** * creat-ide workspace manager: pane tree, gestures and persistence

    A shallow embedding of [workspace-manager.py].  The PyQt widgets are
    modelled by the state the Python code reads and writes:

    - a [SplitPaneWidget] is either an unsplit pane holding a
      [ContentWidget], or a split pane holding a [QSplitter] (its
      orientation, its child panes in order and its sizes);
    - the dictionaries exchanged with [json.dump]/[json.load] are values of
      the type [json];
    - Python exceptions are the [Raise] results of [result]; the processes
      started by [subprocess.Popen] are recorded in a trace.

    Qt itself is outside the source.  [QSplitter.setSizes] is taken to
    store the list it is given and [QSplitter.sizes] to return it, one
    entry per child; a child removed by [deleteLater] leaves the splitter
    together with its entry. *)

From Stdlib Require Import List String Ascii ZArith Lia Bool Arith.
From Stdlib Require Import Sorted Permutation.
Import ListNotations.

#[local] Set Warnings "-register-all".
#[local] Open Scope string_scope.
#[local] Open Scope list_scope.

(** ** Python values *)

Module Py.

(** The values [json.load] produces.  Numbers are the integers.  A
    dictionary is the association list of its items; its keys are distinct,
    and a key is looked up from the left. *)
Inductive json : Type :=
| JNull
| JBool (b : bool)
| JNum (z : Z)
| JStr (s : string)
| JArr (items : list json)
| JObj (fields : list (string * json)).

Inductive exn : Type :=
| KeyError (key : string)
| TypeError
| ValueError (msg : string)
| JSONDecodeError
| OSError.

Inductive result (A : Type) : Type :=
| Ok (a : A)
| Raise (e : exn).
Arguments Ok {A} a.
Arguments Raise {A} e.

(** [bool(v)]: the truth value Python gives to [v] in a condition. *)
Definition truthy (v : json) : bool :=
  match v with
  | JNull => false
  | JBool b => b
  | JNum z => negb (Z.eqb z 0)
  | JStr s => negb (String.eqb s "")
  | JArr items => match items with [] => false | _ :: _ => true end
  | JObj fields => match fields with [] => false | _ :: _ => true end
  end.

(** [v == s] for a string literal [s]. *)
Definition is_str (v : json) (s : string) : bool :=
  match v with
  | JStr s' => String.eqb s' s
  | _ => false
  end.

(** [d[key]] and [d.get(key, default)] on a dictionary. *)
Fixpoint dict_lookup (key : string) (d : list (string * json)) : option json :=
  match d with
  | [] => None
  | (k, v) :: d' => if String.eqb k key then Some v else dict_lookup key d'
  end.

Definition dict_get (key : string) (default : json) (d : list (string * json)) : json :=
  match dict_lookup key d with
  | Some v => v
  | None => default
  end.

Definition dict_item (key : string) (d : list (string * json)) : result json :=
  match dict_lookup key d with
  | Some v => Ok v
  | None => Raise (KeyError key)
  end.

(** [len(v)]. *)
Definition py_len (v : json) : result nat :=
  match v with
  | JStr s => Ok (String.length s)
  | JArr items => Ok (List.length items)
  | JObj fields => Ok (List.length fields)
  | _ => Raise TypeError
  end.

(** The items a [for] loop over [v] visits: the elements of a list, the
    keys of a dictionary, the characters of a string. *)
Fixpoint chars (s : string) : list json :=
  match s with
  | EmptyString => []
  | String c s' => JStr (String c EmptyString) :: chars s'
  end.

Definition py_iter (v : json) : result (list json) :=
  match v with
  | JArr items => Ok items
  | JObj fields => Ok (map (fun kv => JStr (fst kv)) fields)
  | JStr s => Ok (chars s)
  | _ => Raise TypeError
  end.

(** A dictionary lookup that hands the value found to a continuation; the
    recursive calls of [create_from_state] go through it. *)
Section WithKey.
Context {B : Type} (key : string) (found : json -> B) (missing : B).

Fixpoint with_key (d : list (string * json)) : B :=
  match d with
  | [] => missing
  | (k, v) :: d' => if String.eqb k key then found v else with_key d'
  end.
End WithKey.

End Py.
Import Py.

(** ** Effects: launched processes and raised exceptions *)

(** [subprocess.Popen(cmd, shell=True, ...)] was called with [cmd]. *)
Inductive effect : Type :=
| Popen (cmd : json).

(** A computation returns the processes it started and either a value or
    the exception that ended it; what was started before an exception
    stays started. *)
Definition M (A : Type) : Type := (list effect * result A)%type.

Definition ret {A} (a : A) : M A := ([], Ok a).
Definition raise {A} (e : exn) : M A := ([], Raise e).
Definition emit (e : effect) : M unit := ([e], Ok tt).
Definition lift {A} (r : result A) : M A := ([], r).

Definition bind {A B} (m : M A) (f : A -> M B) : M B :=
  match m with
  | (t1, Ok a) => let (t2, r) := f a in (t1 ++ t2, r)
  | (t1, Raise e) => (t1, Raise e)
  end.

Declare Scope py_scope.
Delimit Scope py_scope with py.
Notation "x <- m ;; k" := (bind m (fun x => k))
  (at level 61, m at next level, right associativity) : py_scope.
Notation "m ;;; k" := (bind m (fun _ => k))
  (at level 61, right associativity) : py_scope.
#[local] Open Scope py_scope.

Definition trace {A} (m : M A) : list effect := fst m.
Definition outcome {A} (m : M A) : result A := snd m.

(** ** Widgets *)

(** [Qt.Horizontal] and [Qt.Vertical]. *)
Inductive Orientation : Type :=
| Horizontal
| Vertical.

(** [ContentWidget]: the fields [get_state] reads.  [app_name] is whatever
    Python value the widget was built with, [JNull] for [None]. *)
Record ContentWidget : Type := mkContent {
  content_type : string;
  app_name : json
}.

(** [ContentWidget(content_type="default", color=Qt.blue)]. *)
Definition default_content : ContentWidget :=
  {| content_type := "default"; app_name := JNull |}.

(** [ContentWidget(content_type="app", app_name=name, color=Qt.lightGray)]. *)
Definition app_content (name : json) : ContentWidget :=
  {| content_type := "app"; app_name := name |}.

(** [SplitPaneWidget].  [Pane] is a widget with [is_split = False] and its
    [content_widget]; [Splitter] is a widget with [is_split = True], its
    [split_orientation] and the [QSplitter] in its layout, given by the
    child panes in order and the splitter's sizes. *)
Inductive SplitPaneWidget : Type :=
| Pane (content_widget : ContentWidget)
| Splitter (split_orientation : Orientation)
           (children : list SplitPaneWidget)
           (sizes : list Z).

Definition is_split (self : SplitPaneWidget) : bool :=
  match self with
  | Pane _ => false
  | Splitter _ _ _ => true
  end.

(** [SplitPaneWidget()]: a new pane shows a default [ContentWidget]. *)
Definition new_pane : SplitPaneWidget := Pane default_content.

(** [ContentWidget.launch_app]: the process is started when the widget is
    an app widget with a truthy name; every exception of [Popen] is caught
    inside the method, so it always returns. *)
Definition launch_app (self : ContentWidget) : M unit :=
  if String.eqb (content_type self) "app" && truthy (app_name self)
  then emit (Popen (app_name self))
  else ret tt.

(** [SplitPaneWidget.set_pane_content]. *)
Definition set_pane_content (content_type app_name : json)
    (self : SplitPaneWidget) : M SplitPaneWidget :=
  match self with
  | Splitter _ _ _ => ret self
  | Pane _ =>
      if is_str content_type "app" && truthy app_name then
        let content_widget := app_content app_name in
        launch_app content_widget ;;;
        ret (Pane content_widget)
      else
        ret (Pane default_content)
  end.

(** [SplitPaneWidget.split].  [width] and [height] are [self.width()] and
    [self.height()]; the method returns normally in both branches. *)
Definition split (width height : Z) (orientation : Orientation)
    (self : SplitPaneWidget) : result SplitPaneWidget :=
  match self with
  | Splitter _ _ _ => Ok self
  | Pane _ =>
      let pane1 := new_pane in
      let pane2 := new_pane in
      Ok (Splitter orientation [pane1; pane2]
            match orientation with
            | Horizontal => [width / 2; width / 2]
            | Vertical => [height / 2; height / 2]
            end%Z)
  end.

(** ** Saving and loading the pane tree *)

Definition orientation_name (o : Orientation) : string :=
  match o with
  | Horizontal => "horizontal"
  | Vertical => "vertical"
  end.

(** [SplitPaneWidget.get_state]. *)
Fixpoint get_state (self : SplitPaneWidget) : json :=
  match self with
  | Pane content_widget =>
      JObj [("type", JStr "pane");
            ("content", JStr (content_type content_widget));
            ("app_name",
             if String.eqb (content_type content_widget) "app"
             then app_name content_widget else JNull)]
  | Splitter split_orientation children sizes =>
      JObj [("type", JStr "split");
            ("orientation", JStr (orientation_name split_orientation));
            ("sizes", JArr (map JNum sizes));
            ("children", JArr (map get_state children))]
  end.

(** What [QSplitter.setSizes] accepts: a list of Python ints ([bool] is a
    subclass of [int]); anything else is a [TypeError] of the binding. *)
Fixpoint qt_int_list (items : list json) : result (list Z) :=
  match items with
  | [] => Ok []
  | JNum z :: items' =>
      match qt_int_list items' with
      | Ok zs => Ok (z :: zs)
      | Raise e => Raise e
      end
  | JBool b :: items' =>
      match qt_int_list items' with
      | Ok zs => Ok ((if b then 1 else 0)%Z :: zs)
      | Raise e => Raise e
      end
  | _ :: _ => Raise TypeError
  end.

Definition setSizes (sizes : json) : result (list Z) :=
  match sizes with
  | JArr items => qt_int_list items
  | _ => Raise TypeError
  end.

(** The sizes of the splitter at the end of [create_from_state]: the
    [if sizes and len(sizes) == splitter.count()] statement, for a splitter
    that holds [count] children. *)
Definition restore_sizes (sizes : json) (count : nat) : result (list Z) :=
  let fallback :=
    if (0 <? count)%nat then Ok (repeat 1%Z count) else Ok [] in
  if truthy sizes then
    match py_len sizes with
    | Raise e => Raise e
    | Ok n => if (n =? count)%nat then setSizes sizes else fallback
    end
  else fallback.

(** The loop [for child_state in children_states] of [create_from_state]
    over a list: each child is built by [create], and added to the
    splitter when [create] returned a widget. *)
Section AddChildren.
Variable create : json -> M (option SplitPaneWidget).

Fixpoint add_children (children_states : list json)
    : M (list SplitPaneWidget) :=
  match children_states with
  | [] => ret []
  | child_state :: rest =>
      child_widget <- create child_state ;;
      added <- add_children rest ;;
      ret match child_widget with
          | Some w => w :: added
          | None => added
          end
  end.
End AddChildren.

(** The same loop over a value that is not a list.  The items of a
    dictionary or of a string are strings, and [create_from_state] of a
    string raises [TypeError] at [state["type"]]: the loop ends at its
    first item. *)
Definition add_children_of_other (children_states : json)
    : M (list SplitPaneWidget) :=
  match py_iter children_states with
  | Raise e => raise e
  | Ok [] => ret []
  | Ok (_ :: _) => raise TypeError
  end.

(** [SplitPaneWidget.create_from_state].  [None] is Python's [None]. *)
Fixpoint create_from_state (state : json) : M (option SplitPaneWidget) :=
  match state with
  | JObj d =>
      type <- lift (dict_item "type" d) ;;
      if is_str type "pane" then
        let content_type := dict_get "content" (JStr "default") d in
        let app_name := dict_get "app_name" JNull d in
        pane <- set_pane_content content_type app_name new_pane ;;
        ret (Some pane)
      else if is_str type "split" then
        o <- lift (dict_item "orientation" d) ;;
        let orientation :=
          if is_str o "horizontal" then Horizontal else Vertical in
        children <-
          with_key "children"
            (fun children_states =>
               match children_states with
               | JArr items => add_children create_from_state items
               | other => add_children_of_other other
               end)
            (ret []) d ;;
        sizes <- lift (restore_sizes (dict_get "sizes" (JArr []) d)
                         (List.length children)) ;;
        ret (Some (Splitter orientation children sizes))
      else
        ret None
  | _ => raise TypeError
  end.

(** The children loop of [create_from_state] on the value of
    [state.get("children", [])]. *)
Definition load_children (children_states : json)
    : M (list SplitPaneWidget) :=
  match children_states with
  | JArr items => add_children create_from_state items
  | other => add_children_of_other other
  end.

(** ** Closing a pane *)

(** A widget of the tree is addressed by the indices of the children on
    the way from the root pane to it. *)
Definition Path : Type := list nat.

Fixpoint widget_at (path : Path) (root : SplitPaneWidget)
    : option SplitPaneWidget :=
  match path with
  | [] => Some root
  | i :: rest =>
      match root with
      | Pane _ => None
      | Splitter _ children _ =>
          match nth_error children i with
          | Some child => widget_at rest child
          | None => None
          end
      end
  end.

Fixpoint remove_nth {A} (i : nat) (l : list A) : list A :=
  match i, l with
  | _, [] => []
  | O, _ :: l' => l'
  | S i', a :: l' => a :: remove_nth i' l'
  end.

Fixpoint set_nth {A} (i : nat) (a : A) (l : list A) : list A :=
  match i, l with
  | _, [] => []
  | O, _ :: l' => a :: l'
  | S i', b :: l' => b :: set_nth i' a l'
  end.

(** [self.deleteLater()] for the widget at the non-empty [path], whose
    parent widget is a [QSplitter]: the widget leaves that splitter.
    [None] when [path] addresses no widget. *)
Fixpoint delete_later (path : Path) (root : SplitPaneWidget)
    : option SplitPaneWidget :=
  match path, root with
  | [], _ => None
  | _ :: _, Pane _ => None
  | [i], Splitter o children sizes =>
      if (i <? List.length children)%nat
      then Some (Splitter o (remove_nth i children) (remove_nth i sizes))
      else None
  | i :: rest, Splitter o children sizes =>
      match nth_error children i with
      | Some child =>
          match delete_later rest child with
          | Some child' => Some (Splitter o (set_nth i child' children) sizes)
          | None => None
          end
      | None => None
      end
  end.

(** [SplitPaneWidget.close_pane] called on the widget at [path] of the
    tree below the window's root pane.  The parent of the root pane is the
    window's central [QWidget]; there the second test evaluates
    [self.layout()], and [self.layout] is the [QVBoxLayout] that
    [__init__] stored in the instance, which is not callable. *)
Definition close_pane (path : Path) (root : SplitPaneWidget)
    : option (result SplitPaneWidget) :=
  match path with
  | [] => Some (Raise TypeError)
  | _ :: _ => option_map Ok (delete_later path root)
  end.

(** A sequence of [close_pane] calls; a call that raises or addresses no
    widget leaves the tree as it is. *)
Fixpoint close_panes (paths : list Path) (root : SplitPaneWidget)
    : SplitPaneWidget :=
  match paths with
  | [] => root
  | path :: rest =>
      match close_pane path root with
      | Some (Ok root') => close_panes rest root'
      | _ => close_panes rest root
      end
  end.

(** [split] and [set_pane_content] called on the widget at [path]. *)
Fixpoint call_at {E} (method : SplitPaneWidget -> E * result SplitPaneWidget)
    (path : Path) (root : SplitPaneWidget)
    : option (E * result SplitPaneWidget) :=
  match path with
  | [] => Some (method root)
  | i :: rest =>
      match root with
      | Pane _ => None
      | Splitter o children sizes =>
          match nth_error children i with
          | Some child =>
              match call_at method rest child with
              | Some (e, Ok child') =>
                  Some (e, Ok (Splitter o (set_nth i child' children) sizes))
              | Some (e, Raise x) => Some (e, Raise x)
              | None => None
              end
          | None => None
          end
      end
  end.

Definition split_at (width height : Z) (orientation : Orientation)
    (path : Path) (root : SplitPaneWidget)
    : option (result SplitPaneWidget) :=
  option_map snd
    (call_at (fun self => (tt, split width height orientation self))
       path root).

(** ** The shape of a pane tree *)

(** The tree is valid: every split has at least two children and one
    positive size per child, a default pane carries no name and the name of
    an app pane is a non-empty string. *)
Definition valid_content (c : ContentWidget) : bool :=
  if String.eqb (content_type c) "default" then
    match app_name c with JNull => true | _ => false end
  else if String.eqb (content_type c) "app" then
    match app_name c with
    | JStr name => negb (String.eqb name "")
    | _ => false
    end
  else false.

Fixpoint valid_tree (t : SplitPaneWidget) : bool :=
  match t with
  | Pane c => valid_content c
  | Splitter _ children sizes =>
      (2 <=? List.length children)%nat
      && (List.length sizes =? List.length children)%nat
      && forallb (fun z => (0 <? z)%Z) sizes
      && forallb valid_tree children
  end.

(** Every split of the tree has at least two children. *)
Fixpoint splits_have_two (t : SplitPaneWidget) : bool :=
  match t with
  | Pane _ => true
  | Splitter _ children _ =>
      (2 <=? List.length children)%nat && forallb splits_have_two children
  end.

(** The names of the app panes of a tree, from left to right. *)
Fixpoint app_names (t : SplitPaneWidget) : list json :=
  match t with
  | Pane c => if String.eqb (content_type c) "app" then [app_name c] else []
  | Splitter _ children _ => flat_map app_names children
  end.

(** ** The drag gesture on the corner handle *)

#[local] Open Scope Z_scope.

Record QPoint : Type := mkPoint { px : Z; py : Z }.

(** [a - b] on points. *)
Definition point_sub (a b : QPoint) : QPoint :=
  {| px := px a - px b; py := py a - py b |}.

Record QRect : Type := mkRect {
  rect_x : Z; rect_y : Z; rect_width : Z; rect_height : Z
}.

(** [QRect.contains(p)]: the edges belong to the rectangle. *)
Definition contains (r : QRect) (p : QPoint) : bool :=
  (rect_x r <=? px p) && (px p <=? rect_x r + rect_width r - 1)
  && (rect_y r <=? py p) && (py p <=? rect_y r + rect_height r - 1).

Inductive MouseButton : Type :=
| LeftButton
| OtherButton.

Inductive CursorShape : Type :=
| CrossCursor
| SplitHCursor
| SplitVCursor.

(** The calls a mouse handler makes to the methods that change the tree or
    open the options dialog. *)
Inductive call : Type :=
| Call_split (orientation : Orientation)
| Call_open_pane_options.

(** One [SplitPaneWidget] on screen: its pane or splitter, its geometry
    and the fields of the gesture.  [mouse_grabbed] follows [grabMouse] and
    [releaseMouse], [cursor] follows [setCursor] and [unsetCursor]. *)
Record PaneWidget : Type := mkWidget {
  pane : SplitPaneWidget;
  width : Z;
  height : Z;
  split_handle_size : Z;
  split_threshold : Z;
  dragging_handle : bool;
  drag_start_pos : QPoint;
  current_drag_pos : QPoint;
  mouse_grabbed : bool;
  cursor : option CursorShape
}.

(** [SPLIT_THRESHOLD] *)
Definition SPLIT_THRESHOLD : Z := 10.

(** The widget [__init__] leaves, shown with the given size. *)
Definition init_widget (w h : Z) : PaneWidget :=
  {| pane := new_pane;
     width := w;
     height := h;
     split_handle_size := 15;
     split_threshold := SPLIT_THRESHOLD;
     dragging_handle := false;
     drag_start_pos := mkPoint 0 0;
     current_drag_pos := mkPoint 0 0;
     mouse_grabbed := false;
     cursor := None |}.

(** [SplitPaneWidget.get_handle_rect]. *)
Definition get_handle_rect (self : PaneWidget) : QRect :=
  mkRect (width self - split_handle_size self)
         (height self - split_handle_size self)
         (split_handle_size self)
         (split_handle_size self).

(** [paintEvent] draws the blue preview line under this condition. *)
Definition preview_line (self : PaneWidget) : bool :=
  dragging_handle self && negb (is_split (pane self)).

(** [SplitPaneWidget.mousePressEvent]. *)
Definition mousePressEvent (pos : QPoint) (button : MouseButton)
    (self : PaneWidget) : result (PaneWidget * list call) :=
  if negb (is_split (pane self)) && contains (get_handle_rect self) pos then
    match button with
    | LeftButton =>
        Ok (mkWidget (pane self) (width self) (height self)
              (split_handle_size self) (split_threshold self)
              true pos pos true (Some CrossCursor), [])
    | OtherButton => Ok (self, [])
    end
  else Ok (self, []).

(** [SplitPaneWidget.mouseMoveEvent]. *)
Definition mouseMoveEvent (pos : QPoint) (self : PaneWidget)
    : result (PaneWidget * list call) :=
  if dragging_handle self then
    let delta := point_sub pos (drag_start_pos self) in
    if negb (is_split (pane self))
       && ((Z.abs (px delta) >? split_threshold self)
           || (Z.abs (py delta) >? split_threshold self))
    then
      let orientation :=
        if Z.abs (px delta) >? Z.abs (py delta)
        then Horizontal else Vertical in
      match split (width self) (height self) orientation (pane self) with
      | Raise e => Raise e
      | Ok pane' =>
          Ok (mkWidget pane' (width self) (height self)
                (split_handle_size self) (split_threshold self)
                false (drag_start_pos self) pos false None,
              [Call_split orientation])
      end
    else
      Ok (mkWidget (pane self) (width self) (height self)
            (split_handle_size self) (split_threshold self)
            true (drag_start_pos self) pos (mouse_grabbed self)
            (Some (if Z.abs (px delta) >? Z.abs (py delta)
                   then SplitHCursor else SplitVCursor)),
          [])
  else if negb (is_split (pane self)) && contains (get_handle_rect self) pos
  then
    Ok (mkWidget (pane self) (width self) (height self)
          (split_handle_size self) (split_threshold self)
          (dragging_handle self) (drag_start_pos self)
          (current_drag_pos self) (mouse_grabbed self) (Some CrossCursor),
        [])
  else
    Ok (mkWidget (pane self) (width self) (height self)
          (split_handle_size self) (split_threshold self)
          (dragging_handle self) (drag_start_pos self)
          (current_drag_pos self) (mouse_grabbed self) None,
        []).

(** [SplitPaneWidget.mouseReleaseEvent]: the fields of the gesture after
    it, and whether it calls [open_pane_options].  The call itself is run
    by [mouseReleaseEvent_in_tree], for a widget in the tree. *)
Definition mouseReleaseEvent (pos : QPoint) (self : PaneWidget)
    : result (PaneWidget * list call) :=
  if dragging_handle self then
    let self' :=
      mkWidget (pane self) (width self) (height self)
        (split_handle_size self) (split_threshold self)
        false (drag_start_pos self) (current_drag_pos self) false None in
    let total_delta := point_sub pos (drag_start_pos self) in
    if negb (is_split (pane self))
       && (Z.abs (px total_delta) <? split_threshold self)
       && (Z.abs (py total_delta) <? split_threshold self)
    then Ok (self', [Call_open_pane_options])
    else Ok (self', [])
  else Ok (self, []).

Inductive MouseEvent : Type :=
| Press (pos : QPoint) (button : MouseButton)
| Move (pos : QPoint)
| Release (pos : QPoint).

Definition handle (ev : MouseEvent) (self : PaneWidget)
    : result (PaneWidget * list call) :=
  match ev with
  | Press pos button => mousePressEvent pos button self
  | Move pos => mouseMoveEvent pos self
  | Release pos => mouseReleaseEvent pos self
  end.

(** The events of a list delivered in order, and every call they made. *)
Fixpoint deliver (events : list MouseEvent) (self : PaneWidget)
    : result (PaneWidget * list call) :=
  match events with
  | [] => Ok (self, [])
  | ev :: rest =>
      match handle ev self with
      | Raise e => Raise e
      | Ok (self', calls) =>
          match deliver rest self' with
          | Raise e => Raise e
          | Ok (self'', calls') => Ok (self'', (calls ++ calls')%list)
          end
      end
  end.

(** The larger of the two distances of [pos] from [start]. *)
Definition drag_distance (start pos : QPoint) : Z :=
  Z.max (Z.abs (px pos - px start)) (Z.abs (py pos - py start)).

(** The orientation [mouseMoveEvent] gives to a drag from [start] to
    [pos]. *)
Definition drag_orientation (start pos : QPoint) : Orientation :=
  if Z.abs (px pos - px start) >? Z.abs (py pos - py start)
  then Horizontal else Vertical.

#[local] Close Scope Z_scope.

(** ** The main window: loading a workspace *)

(** [root_pane] is the attribute of the window ([None] for Python's
    [None]); [main_layout] lists the widgets the window shows. *)
Record MainWindow : Type := mkWindow {
  root_pane : option SplitPaneWidget;
  main_layout : list SplitPaneWidget
}.

(** The window [__init__] leaves. *)
Definition init_window : MainWindow :=
  {| root_pane := Some new_pane; main_layout := [new_pane] |}.

(** What [load_workspace] finds at [file_path]: no file, or a file on
    which [open] and [json.load] give a value or raise. *)
Inductive workspace_file : Type :=
| NoFile
| File (loaded : result json).

(** The message boxes [load_workspace] shows. *)
Inductive message : Type :=
| Warning_not_found
| Critical_invalid_format
| Critical_failed (e : exn).

Definition failed_to_create : exn :=
  ValueError "Failed to create pane from state data.".

(** [MainWindow.load_workspace]: the window it leaves, the processes it
    started and the messages it showed. *)
Definition load_workspace (file : workspace_file) (self : MainWindow)
    : MainWindow * list effect * list message :=
  match file with
  | NoFile => (self, [], [Warning_not_found])
  | File (Raise JSONDecodeError) => (self, [], [Critical_invalid_format])
  | File (Raise e) => (self, [], [Critical_failed e])
  | File (Ok state_data) =>
      (* clear_layout(self.main_layout); the layout is empty afterwards and
         the old root pane is dereferenced *)
      let cleared := {| root_pane := None; main_layout := [] |} in
      match create_from_state state_data with
      | (started, Raise e) =>
          (cleared, started,
           [match e with
            | JSONDecodeError => Critical_invalid_format
            | _ => Critical_failed e
            end])
      | (started, Ok None) =>
          (cleared, started, [Critical_failed failed_to_create])
      | (started, Ok (Some root)) =>
          ({| root_pane := Some root; main_layout := [root] |}, started, [])
      end
  end.

(** ** The file name of a workspace *)

Module Str.

Definition code (c : ascii) : N := N_of_ascii c.

Definition between (lo hi : N) (c : ascii) : bool :=
  (lo <=? code c)%N && (code c <=? hi)%N.

Definition is_code (n : N) (c : ascii) : bool := (code c =? n)%N.

(** [str.isalpha], [str.isdecimal], [str.isdigit] and [str.isnumeric] on
    the characters a [string] holds, the code points below 256. *)
Definition isalpha (c : ascii) : bool :=
  between 65 90 c || between 97 122 c
  || is_code 170 c || is_code 181 c || is_code 186 c
  || between 192 214 c || between 216 246 c || between 248 255 c.

Definition isdecimal (c : ascii) : bool := between 48 57 c.

Definition isdigit (c : ascii) : bool :=
  isdecimal c || is_code 178 c || is_code 179 c || is_code 185 c.

Definition isnumeric (c : ascii) : bool :=
  isdigit c || between 188 190 c.

(** [c.isalnum()] *)
Definition isalnum (c : ascii) : bool :=
  isalpha c || isdecimal c || isdigit c || isnumeric c.

(** [c.isspace()]: the characters [rstrip()] removes. *)
Definition isspace (c : ascii) : bool :=
  between 9 13 c || between 28 32 c || is_code 133 c || is_code 160 c.

(** ["".join(c for c in s if keep(c))] *)
Fixpoint join_if (keep : ascii -> bool) (s : string) : string :=
  match s with
  | EmptyString => EmptyString
  | String c s' =>
      if keep c then String c (join_if keep s') else join_if keep s'
  end.

(** [s.rstrip()] *)
Fixpoint rstrip (s : string) : string :=
  match s with
  | EmptyString => EmptyString
  | String c s' =>
      match rstrip s' with
      | EmptyString => if isspace c then EmptyString else String c EmptyString
      | t => String c t
      end
  end.

(** [s.replace(old, new)] for one-character [old] and [new]. *)
Fixpoint replace (old new : ascii) (s : string) : string :=
  match s with
  | EmptyString => EmptyString
  | String c s' =>
      String (if Ascii.eqb c old then new else c) (replace old new s')
  end.

(** [os.path.join(a, b)] on POSIX. *)
Fixpoint ends_with_slash (a : string) : bool :=
  match a with
  | EmptyString => false
  | String c EmptyString => Ascii.eqb c "/"
  | String _ a' => ends_with_slash a'
  end.

Definition os_path_join (a b : string) : string :=
  match b with
  | String "/" _ => b
  | _ =>
      if String.eqb a "" || ends_with_slash a
      then String.append a b
      else String.append a (String "/" b)
  end.

End Str.

(** The characters [get_workspace_file_path] keeps. *)
Definition kept_char (c : ascii) : bool :=
  Str.isalnum c || Ascii.eqb c " " || Ascii.eqb c "." || Ascii.eqb c "_".

(** The file name inside [get_workspace_file_path]: [f"{safe_name}.json"]. *)
Definition workspace_file_name (workspace_name : string) : string :=
  let safe_name := Str.rstrip (Str.join_if kept_char workspace_name) in
  let safe_name := Str.replace " " "_" safe_name in
  let safe_name :=
    if String.eqb safe_name "" then "untitled_workspace" else safe_name in
  String.append safe_name ".json".

(** [MainWindow.get_workspace_file_path] *)
Definition get_workspace_file_path (workspace_path workspace_name : string)
    : string :=
  Str.os_path_join workspace_path (workspace_file_name workspace_name).

(** The derivation of the file name in the words of the format
    description: keep the allowed characters, drop the white space at the
    end, write [_] for each space left, take [untitled_workspace] for an
    empty result, append [.json]. *)
Module FileNameSpec.

Definition allowed (c : ascii) : bool :=
  Str.isalnum c || existsb (Ascii.eqb c) [" "; "."; "_"]%char.

Definition keep_allowed (name : list ascii) : list ascii :=
  filter allowed name.

Fixpoint drop_leading_space (l : list ascii) : list ascii :=
  match l with
  | [] => []
  | c :: l' => if Str.isspace c then drop_leading_space l' else l
  end.

Definition strip_trailing_space (l : list ascii) : list ascii :=
  rev (drop_leading_space (rev l)).

Definition underscore_spaces (l : list ascii) : list ascii :=
  map (fun c => if Ascii.eqb c " " then "_"%char else c) l.

Definition or_untitled (l : list ascii) : list ascii :=
  match l with
  | [] => list_ascii_of_string "untitled_workspace"
  | _ :: _ => l
  end.

Definition file_name (name : string) : string :=
  string_of_list_ascii
    (or_untitled
       (underscore_spaces
          (strip_trailing_space
             (keep_allowed (list_ascii_of_string name))))
     ++ list_ascii_of_string ".json").

End FileNameSpec.

(** ** Sample trees and states *)

(** A child state whose type is neither ["pane"] nor ["split"]. *)
Definition unknown_type (child_state : json) : bool :=
  match child_state with
  | JObj d =>
      match dict_lookup "type" d with
      | Some type => negb (is_str type "pane") && negb (is_str type "split")
      | None => false
      end
  | _ => false
  end.

Definition default_pane_state : json :=
  JObj [("type", JStr "pane"); ("content", JStr "default");
        ("app_name", JNull)].

Definition bogus_state : json := JObj [("type", JStr "bogus")].

Definition split_state (sizes : list Z) (children_states : list json)
    : list (string * json) :=
  [("type", JStr "split"); ("orientation", JStr "vertical");
   ("sizes", JArr (map JNum sizes)); ("children", JArr children_states)].

(** [{"type": "app"-pane}] states with and without a name. *)
Definition app_state_named : list (string * json) :=
  [("type", JStr "pane"); ("content", JStr "app");
   ("app_name", JStr "xterm")].

Definition app_state_unnamed : list (string * json) :=
  [("type", JStr "pane"); ("content", JStr "app")].

Definition app_state_empty_name : list (string * json) :=
  [("type", JStr "pane"); ("content", JStr "app"); ("app_name", JStr "")].

Definition two_panes : SplitPaneWidget :=
  Splitter Horizontal [new_pane; new_pane] [1%Z; 1%Z].

Definition sample_tree : SplitPaneWidget :=
  Splitter Horizontal
    [Pane (app_content (JStr "xterm"));
     Splitter Vertical [new_pane; Pane (app_content (JStr "gedit"))]
       [3%Z; 5%Z]]
    [300%Z; 500%Z].

(** The calls made while a list of events was delivered. *)
Definition calls_of (r : result (PaneWidget * list call))
    : result (list call) :=
  match r with
  | Ok (_, calls) => Ok calls
  | Raise e => Raise e
  end.

(** A pane of 15 by 15: the handle covers it, so a press at the origin is
    on the handle. *)
Definition small_pane : PaneWidget := init_widget 15 15.

(** The widget while its handle is dragged from [start], [self0] being the
    widget before the press. *)
Definition dragging_from (start : QPoint) (self0 self : PaneWidget)
    : Prop :=
  dragging_handle self = true
  /\ drag_start_pos self = start
  /\ mouse_grabbed self = true
  /\ pane self = pane self0
  /\ width self = width self0
  /\ height self = height self0
  /\ split_threshold self = split_threshold self0.

(** ** Induction on pane trees *)

Section TreeInd.
Variable P : SplitPaneWidget -> Prop.
Hypothesis P_pane : forall c, P (Pane c).
Hypothesis P_splitter :
  forall o children sizes,
    Forall P children -> P (Splitter o children sizes).

Fixpoint tree_ind (t : SplitPaneWidget) : P t :=
  match t with
  | Pane c => P_pane c
  | Splitter o children sizes =>
      P_splitter o children sizes
        ((fix all (l : list SplitPaneWidget) : Forall P l :=
            match l with
            | [] => Forall_nil P
            | x :: l' => Forall_cons x (tree_ind x) (all l')
            end) children)
  end.
End TreeInd.

(** ** Editing the tree *)

(** [set_pane_content] called on the widget at [path]. *)
Definition set_pane_content_at (content_type app_name : json)
    (path : Path) (root : SplitPaneWidget)
    : option (M SplitPaneWidget) :=
  call_at (set_pane_content content_type app_name) path root.

(** The changes the window offers on a pane: the split of the drag gesture
    and the two actions of the options dialog. *)
Inductive edit : Type :=
| Edit_split (width height : Z) (orientation : Orientation) (path : Path)
| Edit_launch (app_name : json) (path : Path)
| Edit_close (path : Path).

(** One change: the tree it leaves and the processes it started.  A change
    that addresses no widget, or raises, leaves the tree as it is. *)
Definition apply_edit (e : edit) (root : SplitPaneWidget)
    : SplitPaneWidget * list effect :=
  match e with
  | Edit_split w h o path =>
      match split_at w h o path root with
      | Some (Ok root') => (root', [])
      | _ => (root, [])
      end
  | Edit_launch name path =>
      match set_pane_content_at (JStr "app") name path root with
      | Some (started, Ok root') => (root', started)
      | Some (started, Raise _) => (root, started)
      | None => (root, [])
      end
  | Edit_close path =>
      match close_pane path root with
      | Some (Ok root') => (root', [])
      | _ => (root, [])
      end
  end.

Fixpoint apply_edits (edits : list edit) (root : SplitPaneWidget)
    : SplitPaneWidget * list effect :=
  match edits with
  | [] => (root, [])
  | e :: rest =>
      let (root', started) := apply_edit e root in
      let (root'', started') := apply_edits rest root' in
      (root'', started ++ started')
  end.

(** A tree as the methods leave it: a pane shows the default content or an
    app content with a truthy name, and a splitter has one size per
    child. *)
Definition well_formed_content (c : ContentWidget) : bool :=
  (String.eqb (content_type c) "default"
   && match app_name c with JNull => true | _ => false end)
  || (String.eqb (content_type c) "app" && truthy (app_name c)).

Fixpoint well_formed (t : SplitPaneWidget) : bool :=
  match t with
  | Pane c => well_formed_content c
  | Splitter _ children sizes =>
      (List.length sizes =? List.length children)%nat
      && forallb well_formed children
  end.

(** The number of unsplit panes of a tree. *)
Fixpoint count_panes (t : SplitPaneWidget) : nat :=
  match t with
  | Pane _ => 1
  | Splitter _ children _ => list_sum (map count_panes children)
  end.

(** Induction on Python values. *)
Section JsonInd.
Variable P : json -> Prop.
Hypothesis P_null : P JNull.
Hypothesis P_bool : forall b, P (JBool b).
Hypothesis P_num : forall z, P (JNum z).
Hypothesis P_str : forall s, P (JStr s).
Hypothesis P_arr : forall items, Forall P items -> P (JArr items).
Hypothesis P_obj :
  forall fields, Forall (fun kv => P (snd kv)) fields -> P (JObj fields).

Fixpoint json_ind' (v : json) : P v :=
  match v with
  | JNull => P_null
  | JBool b => P_bool b
  | JNum z => P_num z
  | JStr s => P_str s
  | JArr items =>
      P_arr items
        ((fix all (l : list json) : Forall P l :=
            match l with
            | [] => Forall_nil P
            | x :: l' => Forall_cons x (json_ind' x) (all l')
            end) items)
  | JObj fields =>
      P_obj fields
        ((fix all (l : list (string * json))
            : Forall (fun kv => P (snd kv)) l :=
            match l with
            | [] => Forall_nil _
            | (k, x) :: l' =>
                Forall_cons (P := fun kv => P (snd kv)) (k, x)
                  (json_ind' x) (all l')
            end) fields)
  end.
End JsonInd.

(** ** Painting and the state of the gesture *)

(** What [paintEvent] draws on top of the frame. *)
Inductive drawing : Type :=
| Draw_polygon (points : list QPoint)
| Draw_line (x1 y1 x2 y2 : Z).

(** [SplitPaneWidget.paintEvent]: the red triangle of the handle on an
    unsplit pane, and the blue preview line while the handle is dragged. *)
Definition paintEvent (self : PaneWidget) : list drawing :=
  ((if negb (is_split (pane self)) then
      [Draw_polygon
         [mkPoint (width self) (height self - split_handle_size self);
          mkPoint (width self) (height self);
          mkPoint (width self - split_handle_size self) (height self)]]
    else [])
   ++
   (if dragging_handle self && negb (is_split (pane self)) then
      let delta := point_sub (current_drag_pos self) (drag_start_pos self) in
      if Z.abs (px delta) >? Z.abs (py delta) then
        let split_x :=
          width self
          - (px (drag_start_pos self) - px (current_drag_pos self)) in
        let split_x := Z.max 0 (Z.min split_x (width self)) in
        [Draw_line split_x 0 split_x (height self)]
      else
        let split_y :=
          height self
          - (py (drag_start_pos self) - py (current_drag_pos self)) in
        let split_y := Z.max 0 (Z.min split_y (height self)) in
        [Draw_line 0 split_y (width self) split_y]
    else []))%Z.

(** The mouse is grabbed exactly while the handle is dragged, and only an
    unsplit pane is dragged. *)
Definition gesture_consistent (self : PaneWidget) : Prop :=
  mouse_grabbed self = dragging_handle self
  /\ (dragging_handle self = true -> is_split (pane self) = false).

(** The event is a press of the left button on the handle of [self]. *)
Definition left_press_on_handle (self : PaneWidget) (ev : MouseEvent)
    : bool :=
  match ev with
  | Press pos LeftButton => contains (get_handle_rect self) pos
  | _ => false
  end.

Definition is_split_call (c : call) : bool :=
  match c with
  | Call_split _ => true
  | Call_open_pane_options => false
  end.

(** ** The dialogs *)

(** [s.lstrip()] and [s.strip()]. *)
Fixpoint lstrip (s : string) : string :=
  match s with
  | EmptyString => EmptyString
  | String c s' => if Str.isspace c then lstrip s' else s
  end.

Definition strip (s : string) : string := Str.rstrip (lstrip s).

(** [AppLauncherDialog.get_app_name] for the text of the input line. *)
Definition get_app_name (text : string) : string := strip text.

(** How [AppLauncherDialog.exec_()] ends: rejected, or accepted with the
    text then in the input line. *)
Inductive app_dialog : Type :=
| App_rejected
| App_accepted (text : string).

(** The dictionaries [PaneOptionsDialog] stores in [_result]. *)
Inductive action : Type :=
| Action_launch (app_name : string)
| Action_close.

Inductive dialog_code : Type :=
| Accepted
| Rejected.

(** [PaneOptionsDialog]: [_result], and how the dialog was ended, if it
    was. *)
Record PaneOptionsDialog : Type := mkDialog {
  dialog_result : option action;
  dialog_done : option dialog_code
}.

(** [PaneOptionsDialog.__init__] *)
Definition init_dialog : PaneOptionsDialog :=
  {| dialog_result := None; dialog_done := None |}.

(** [PaneOptionsDialog.on_launch_clicked], the application dialog it opens
    ending as [app]. *)
Definition on_launch_clicked (app : app_dialog) (self : PaneOptionsDialog)
    : PaneOptionsDialog :=
  match app with
  | App_accepted text =>
      let app_name := get_app_name text in
      if negb (String.eqb app_name "") then
        {| dialog_result := Some (Action_launch app_name);
           dialog_done := Some Accepted |}
      else self
  | App_rejected => self
  end.

(** [PaneOptionsDialog.on_close_clicked] *)
Definition on_close_clicked (self : PaneOptionsDialog) : PaneOptionsDialog :=
  {| dialog_result := Some Action_close; dialog_done := Some Accepted |}.

(** The clicks on the three buttons of the options dialog. *)
Inductive click : Type :=
| Click_launch (app : app_dialog)
| Click_close
| Click_cancel.

Definition on_click (c : click) (self : PaneOptionsDialog)
    : PaneOptionsDialog :=
  match c with
  | Click_launch app => on_launch_clicked app self
  | Click_close => on_close_clicked self
  | Click_cancel =>
      {| dialog_result := dialog_result self;
         dialog_done := Some Rejected |}
  end.

(** [dialog.exec_()]: the clicks are handled until one of them ends the
    dialog; a dialog left open by all of them is closed by its window
    button, which rejects it. *)
Fixpoint exec_ (clicks : list click) (self : PaneOptionsDialog)
    : dialog_code * PaneOptionsDialog :=
  match dialog_done self with
  | Some code => (code, self)
  | None =>
      match clicks with
      | [] => (Rejected, self)
      | c :: rest => exec_ rest (on_click c self)
      end
  end.

(** [SplitPaneWidget.open_pane_options] called on the widget at [path],
    the user clicking [clicks] in the dialog. *)
Definition open_pane_options (clicks : list click) (path : Path)
    (root : SplitPaneWidget) : option (M SplitPaneWidget) :=
  match widget_at path root with
  | None => None
  | Some _ =>
      match exec_ clicks init_dialog with
      | (Accepted, dialog) =>
          match dialog_result dialog with
          | Some (Action_launch app_name) =>
              if negb (String.eqb app_name "") then
                set_pane_content_at (JStr "app") (JStr app_name) path root
              else Some (ret root)
          | Some Action_close => option_map lift (close_pane path root)
          | None => Some (ret root)
          end
      | (Rejected, _) => Some (ret root)
      end
  end.

(** A click that leaves the options dialog open: the application dialog
    was cancelled, or accepted with nothing but white space. *)
Definition undecided (c : click) : bool :=
  match c with
  | Click_launch App_rejected => true
  | Click_launch (App_accepted text) => String.eqb (strip text) ""
  | _ => false
  end.

(** ** The mouse handlers of a widget in the tree *)

(** How a mouse handler of the widget at a path of the tree ends.  It
    returns, leaving the widget and the tree below the root pane as given;
    or it returns after [deleteLater] was called on the widget, which no
    later event reaches; or it raises, the widget and the tree being as
    they were when the exception was raised. *)
Inductive after_event : Type :=
| Returned (self : PaneWidget) (root : SplitPaneWidget)
| Deleted (root : SplitPaneWidget)
| Raised (e : exn) (self : PaneWidget) (root : SplitPaneWidget).

(** The widget with [p] as its pane or splitter. *)
Definition with_pane (p : SplitPaneWidget) (self : PaneWidget)
    : PaneWidget :=
  mkWidget p (width self) (height self) (split_handle_size self)
    (split_threshold self) (dragging_handle self) (drag_start_pos self)
    (current_drag_pos self) (mouse_grabbed self) (cursor self).

(** The widget is the object at its path in the tree: what a handler does
    to its pane is done there.  [put_at p path root] is the tree with [p]
    at [path]. *)
Definition put_at (p : SplitPaneWidget) (path : Path)
    (root : SplitPaneWidget) : option SplitPaneWidget :=
  match call_at (fun _ => (tt, Ok p)) path root with
  | Some (_, Ok root') => Some root'
  | _ => None
  end.

(** The options dialog is accepted with the action [close]. *)
Definition chooses_close (clicks : list click) : bool :=
  match exec_ clicks init_dialog with
  | (Accepted, dialog) =>
      match dialog_result dialog with
      | Some Action_close => true
      | _ => false
      end
  | (Rejected, _) => false
  end.

(** [SplitPaneWidget.mouseReleaseEvent] of the widget at [path], with
    [self.open_pane_options()] run where the handler calls it, the user
    clicking [clicks] in the dialog.  The drag is ended and the mouse
    released before the dialog opens, so they stay so when the dialog's
    action raises. *)
Definition mouseReleaseEvent_in_tree (clicks : list click) (pos : QPoint)
    (path : Path) (root : SplitPaneWidget) (self : PaneWidget)
    : option (list effect * after_event) :=
  if dragging_handle self then
    let self' :=
      mkWidget (pane self) (width self) (height self)
        (split_handle_size self) (split_threshold self)
        false (drag_start_pos self) (current_drag_pos self) false None in
    let total_delta := point_sub pos (drag_start_pos self) in
    if negb (is_split (pane self))
       && (Z.abs (px total_delta) <? split_threshold self)%Z
       && (Z.abs (py total_delta) <? split_threshold self)%Z
    then
      match open_pane_options clicks path root with
      | Some (started, Ok root') =>
          if chooses_close clicks then Some (started, Deleted root')
          else
            match widget_at path root' with
            | Some p => Some (started, Returned (with_pane p self') root')
            | None => None
            end
      | Some (started, Raise e) => Some (started, Raised e self' root)
      | None => None
      end
    else Some ([], Returned self' root)
  else Some ([], Returned self root).

(** One mouse event for the widget at [path]; [clicks] are the clicks in
    the options dialog, should the event open it. *)
Definition handle_in_tree (clicks : list click) (ev : MouseEvent)
    (path : Path) (root : SplitPaneWidget) (self : PaneWidget)
    : option (list effect * after_event) :=
  match ev with
  | Release pos => mouseReleaseEvent_in_tree clicks pos path root self
  | Press _ _ | Move _ =>
      match handle ev self with
      | Raise e => Some ([], Raised e self root)
      | Ok (self', _) =>
          match put_at (pane self') path root with
          | Some root' => Some ([], Returned self' root')
          | None => None
          end
      end
  end.

(** The events of a list delivered in order to the widget at [path], each
    with the clicks in the dialog it may open.  No event reaches a deleted
    widget, and none is delivered after a handler has raised. *)
Fixpoint deliver_in_tree (events : list (MouseEvent * list click))
    (path : Path) (root : SplitPaneWidget) (self : PaneWidget)
    : option (list effect * after_event) :=
  match events with
  | [] => Some ([], Returned self root)
  | (ev, clicks) :: rest =>
      match handle_in_tree clicks ev path root self with
      | Some (started, Returned self' root') =>
          match deliver_in_tree rest path root' self' with
          | Some (started', after) => Some (started ++ started', after)
          | None => None
          end
      | ended => ended
      end
  end.

(** ** Saving a workspace *)

(** The workspace files: what is found at each path, and whether a file
    can be opened for writing there.  A file holds the value [json.load]
    reads from it; [json.dump] is taken to write the value it is given. *)
Record FileSystem : Type := mkFS {
  file_at : string -> workspace_file;
  writable : string -> bool
}.

Definition write_json (path : string) (state : json) (fs : FileSystem)
    : FileSystem :=
  {| file_at := fun p => if String.eqb p path then File (Ok state)
                         else file_at fs p;
     writable := writable fs |}.

(** The message boxes of [save_workspace]. *)
Inductive save_message : Type :=
| Saved (workspace_name file_path : string)
| Save_failed (workspace_name : string).

(** [MainWindow.save_workspace], the input dialog returning
    [(workspace_name, ok)] and the workspaces living in
    [workspace_path]. *)
Definition save_workspace (workspace_path : string)
    (workspace_name : string) (ok : bool)
    (fs : FileSystem) (self : MainWindow)
    : FileSystem * list save_message :=
  if ok && negb (String.eqb workspace_name "") then
    let file_path := get_workspace_file_path workspace_path workspace_name in
    match root_pane self with
    | None => (fs, [Save_failed workspace_name])
    | Some root =>
        let current_state := get_state root in
        if writable fs file_path
        then (write_json file_path current_state fs,
              [Saved workspace_name file_path])
        else (fs, [Save_failed workspace_name])
    end
  else (fs, []).

(** The window shows its root pane and nothing else. *)
Definition window_consistent (w : MainWindow) : Prop :=
  match root_pane w with
  | Some root => main_layout w = [root] /\ well_formed root = true
  | None => main_layout w = []
  end.

(** Every character of a string satisfies [p]. *)
Fixpoint all_chars (p : ascii -> bool) (s : string) : bool :=
  match s with
  | EmptyString => true
  | String c s' => p c && all_chars p s'
  end.

(** The characters of a workspace file name. *)
Definition file_name_char (c : ascii) : bool :=
  Str.isalnum c || Ascii.eqb c "." || Ascii.eqb c "_".

(** ** The load menu and the list of executables *)

(** [sorted(l)] and [l.sort()] for the order [leb]: the items are put in
    order one by one, an item going before the items that are not smaller
    than it, which keeps equal items in their order. *)
Section Sorting.
Context {A : Type} (leb : A -> A -> bool).

Fixpoint insert_in_order (x : A) (l : list A) : list A :=
  match l with
  | [] => [x]
  | y :: l' => if leb x y then x :: l else y :: insert_in_order x l'
  end.

Fixpoint py_sorted (l : list A) : list A :=
  match l with
  | [] => []
  | x :: l' => insert_in_order x (py_sorted l')
  end.
End Sorting.

(** The order of Python on pairs of strings: by the first components, and
    by the second ones when the first are equal. *)
Definition pair_leb (a b : string * string) : bool :=
  match String.compare (fst a) (fst b) with
  | Lt => true
  | Eq => String.leb (snd a) (snd b)
  | Gt => false
  end.

(** [s.endswith(suffix)]: a tail of [s] is [suffix]. *)
Fixpoint ends_with (suffix s : string) : bool :=
  String.eqb s suffix
  || match s with
     | EmptyString => false
     | String _ s' => ends_with suffix s'
     end.

(** [s.rfind(c)], [None] for [-1]; [s[:n]] and [s[n:]]. *)
Fixpoint rfind (c : ascii) (s : string) : option nat :=
  match s with
  | EmptyString => None
  | String a s' =>
      match rfind c s' with
      | Some i => Some (S i)
      | None => if Ascii.eqb a c then Some O else None
      end
  end.

Fixpoint take (n : nat) (s : string) : string :=
  match n, s with
  | S n', String a s' => String a (take n' s')
  | _, _ => EmptyString
  end.

Fixpoint drop (n : nat) (s : string) : string :=
  match n, s with
  | S n', String _ s' => drop n' s'
  | _, _ => s
  end.

(** The loop of [os.path.splitext] that skips the leading dots of the file
    name: it looks at [steps] characters from [filenameIndex] on and stops
    at the first one that is not a dot. *)
Fixpoint finds_non_dot (p : string) (filenameIndex steps : nat) : bool :=
  match steps with
  | O => false
  | S steps' =>
      match String.get filenameIndex p with
      | Some c =>
          if negb (Ascii.eqb c ".") then true
          else finds_non_dot p (S filenameIndex) steps'
      | None => true
      end
  end.

(** [os.path.splitext(p)] on POSIX. *)
Definition splitext (p : string) : string * string :=
  let sepIndex := rfind "/" p in
  match rfind "." p with
  | None => (p, EmptyString)
  | Some dotIndex =>
      let filenameIndex :=
        match sepIndex with Some i => S i | None => O end in
      if (filenameIndex <=? dotIndex)%nat
         && finds_non_dot p filenameIndex (dotIndex - filenameIndex)
      then (take dotIndex p, drop dotIndex p)
      else (p, EmptyString)
  end.

(** The name the load menu shows for a file. *)
Definition display_name (filename : string) : string :=
  Str.replace "_" " " (fst (splitext filename)).

(** The actions of the load menu. *)
Inductive menu_action : Type :=
| Load_action (name file_path : string)
| No_workspaces_found
| Error_listing (e : exn).

(** What is seen of the workspace directory: it does not exist, or
    [os.listdir] raises or returns the names in it. *)
Definition directory : Type := option (result (list string)).

(** [MainWindow.update_load_menu]: the actions of the menu afterwards. *)
Definition update_load_menu (workspace_path : string) (dir : directory)
    : list menu_action :=
  match dir with
  | None => [No_workspaces_found]
  | Some (Raise e) => [Error_listing e]
  | Some (Ok filenames) =>
      let workspaces :=
        map (fun filename =>
               (display_name filename,
                Str.os_path_join workspace_path filename))
            (filter (ends_with ".json") filenames) in
      match workspaces with
      | [] => [No_workspaces_found]
      | _ :: _ =>
          map (fun w => Load_action (fst w) (snd w))
              (py_sorted pair_leb workspaces)
      end
  end.

(** [EXEC_PATHS] and the [common_gui_apps] of [get_executable_list]. *)
Definition EXEC_PATHS : list string :=
  ["/usr/bin"; "/bin"; "/usr/local/bin"; "/usr/sbin"; "/sbin"].

Definition common_gui_apps : list string :=
  ["firefox"; "gimp"; "inkscape"; "libreoffice"; "vlc";
   "xterm"; "gnome-terminal"; "konsole"; "nautilus";
   "dolphin"; "gedit"; "kate"; "code"; "subl"; "chromium-browser"].

(** What [get_executable_list] sees at a path: no directory, a directory
    that [os.listdir] cannot read, or the names in it, each with whether it
    is a file that may be executed. *)
Inductive dir_view : Type :=
| Not_a_directory
| Unreadable
| Entries (entries : list (string * bool)).

(** [get_executable_list].  The set is the list of its distinct
    elements. *)
Definition get_executable_list (view : string -> dir_view) : list string :=
  let executables :=
    flat_map (fun path =>
                match view path with
                | Entries entries => map fst (filter snd entries)
                | _ => []
                end) EXEC_PATHS in
  py_sorted String.leb (nodup string_dec (executables ++ common_gui_apps)).

(** A character of a plain workspace name: alphanumeric, a space or a
    dot. *)
Definition plain_char (c : ascii) : bool :=
  Str.isalnum c || Ascii.eqb c " " || Ascii.eqb c ".".

Definition is_dot (c : ascii) : bool := Ascii.eqb c ".".

(** * Properties *)

(** ** Dictionaries and the monad *)

Lemma with_key_lookup {B : Type} (key : string) (found : json -> B)
    (missing : B) (d : list (string * json)) :
  with_key key found missing d
  = match dict_lookup key d with
    | Some v => found v
    | None => missing
    end.
Proof.
  induction d as [| [k v] d IH]; simpl; [reflexivity |].
  destruct (String.eqb k key); [reflexivity | exact IH].
Qed.

Lemma bind_ret_l {A B} (a : A) (f : A -> M B) : bind (ret a) f = f a.
Proof. unfold bind, ret. destruct (f a). reflexivity. Qed.

Lemma bind_lift_ok {A B} (a : A) (f : A -> M B) : bind (lift (Ok a)) f = f a.
Proof. apply bind_ret_l. Qed.

Lemma bind_lift_raise {A B} (e : exn) (f : A -> M B) :
  bind (lift (Raise e)) f = raise e.
Proof. reflexivity. Qed.

Lemma bind_pair {A B} (t : list effect) (a : A) (f : A -> M B) :
  bind (t, Ok a) f = (t ++ fst (f a), snd (f a)).
Proof. unfold bind. destruct (f a). reflexivity. Qed.

Lemma bind_raise {A B} (t : list effect) (e : exn) (f : A -> M B) :
  bind (t, Raise e) f = (t, Raise e).
Proof. reflexivity. Qed.

(** ** What [create_from_state] does on each kind of state *)

Lemma create_from_state_not_dict (state : json) :
  (forall d, state <> JObj d) ->
  create_from_state state = raise TypeError.
Proof.
  destruct state; intros H; try reflexivity.
  exfalso. eapply H. reflexivity.
Qed.

Lemma create_from_state_no_type (d : list (string * json)) :
  dict_lookup "type" d = None ->
  create_from_state (JObj d) = raise (KeyError "type").
Proof.
  intros H. cbn [create_from_state]. unfold dict_item. rewrite H.
  reflexivity.
Qed.

Lemma create_from_state_pane (d : list (string * json)) (type : json) :
  dict_lookup "type" d = Some type ->
  is_str type "pane" = true ->
  create_from_state (JObj d)
  = (pane <- set_pane_content (dict_get "content" (JStr "default") d)
               (dict_get "app_name" JNull d) new_pane ;;
     ret (Some pane)).
Proof.
  intros H Hp. cbn [create_from_state]. unfold dict_item. rewrite H.
  rewrite bind_lift_ok, Hp. reflexivity.
Qed.

Lemma create_from_state_split (d : list (string * json)) (type o : json) :
  dict_lookup "type" d = Some type ->
  is_str type "pane" = false ->
  is_str type "split" = true ->
  dict_lookup "orientation" d = Some o ->
  create_from_state (JObj d)
  = (children <- load_children (dict_get "children" (JArr []) d) ;;
     sizes <- lift (restore_sizes (dict_get "sizes" (JArr []) d)
                      (List.length children)) ;;
     ret (Some (Splitter
                  (if is_str o "horizontal" then Horizontal else Vertical)
                  children sizes))).
Proof.
  intros H Hp Hs Ho. cbn [create_from_state]. unfold dict_item.
  rewrite H, Ho, bind_lift_ok, Hp, Hs, bind_lift_ok, with_key_lookup.
  unfold dict_get at 2.
  destruct (dict_lookup "children" d) as [v |]; reflexivity.
Qed.

Lemma create_from_state_no_orientation
    (d : list (string * json)) (type : json) :
  dict_lookup "type" d = Some type ->
  is_str type "pane" = false ->
  is_str type "split" = true ->
  dict_lookup "orientation" d = None ->
  create_from_state (JObj d) = raise (KeyError "orientation").
Proof.
  intros H Hp Hs Ho. cbn [create_from_state]. unfold dict_item.
  rewrite H, Ho, bind_lift_ok, Hp, Hs. reflexivity.
Qed.

Lemma create_from_state_other (d : list (string * json)) (type : json) :
  dict_lookup "type" d = Some type ->
  is_str type "pane" = false ->
  is_str type "split" = false ->
  create_from_state (JObj d) = ret None.
Proof.
  intros H Hp Hs. cbn [create_from_state]. unfold dict_item.
  rewrite H, bind_lift_ok, Hp, Hs. reflexivity.
Qed.

(** ** Saving and loading again *)

Lemma qt_int_list_nums (zs : list Z) : qt_int_list (map JNum zs) = Ok zs.
Proof.
  induction zs as [| z zs IH]; simpl; [reflexivity |].
  rewrite IH. reflexivity.
Qed.

Lemma restore_sizes_saved (zs : list Z) (count : nat) :
  List.length zs = count ->
  restore_sizes (JArr (map JNum zs)) count = Ok zs.
Proof.
  intros <-. destruct zs as [| z zs]; [reflexivity |].
  unfold restore_sizes.
  change (truthy (JArr (map JNum (z :: zs)))) with true.
  cbn [py_len setSizes].
  rewrite length_map, Nat.eqb_refl. apply qt_int_list_nums.
Qed.

Lemma add_children_saved (children : list SplitPaneWidget) :
  Forall (fun t => create_from_state (get_state t)
                   = (map Popen (app_names t), Ok (Some t))) children ->
  add_children create_from_state (map get_state children)
  = (map Popen (flat_map app_names children), Ok children).
Proof.
  induction 1 as [| t children Ht _ IH]; [reflexivity |].
  cbn [map add_children flat_map]. rewrite Ht, IH.
  unfold bind, ret. cbn. rewrite app_nil_r, map_app. reflexivity.
Qed.

Lemma valid_content_cases (c : ContentWidget) :
  valid_content c = true ->
  c = default_content
  \/ exists name, name <> "" /\ c = app_content (JStr name).
Proof.
  destruct c as [ct an]. unfold valid_content. cbn [content_type app_name].
  destruct (String.eqb ct "default") eqn:Hd.
  - apply String.eqb_eq in Hd. subst ct.
    destruct an; try discriminate. intros _. left. reflexivity.
  - destruct (String.eqb ct "app") eqn:Ha; [| discriminate].
    apply String.eqb_eq in Ha. subst ct.
    destruct an as [| | | name | |]; try discriminate.
    intros Hn. right. exists name. split; [| reflexivity].
    intros ->. discriminate.
Qed.

Lemma create_get_state (t : SplitPaneWidget) :
  valid_tree t = true ->
  create_from_state (get_state t) = (map Popen (app_names t), Ok (Some t)).
Proof.
  induction t as [c | o children sizes IH] using tree_ind; intros Hv.
  - cbn [valid_tree] in Hv.
    destruct (valid_content_cases c Hv) as [-> | (name & Hname & ->)].
    + reflexivity.
    + apply String.eqb_neq in Hname.
      cbn. unfold launch_app. cbn. rewrite Hname. reflexivity.
  - cbn [valid_tree] in Hv.
    apply andb_prop in Hv as [Hv Hch]. apply andb_prop in Hv as [Hv _].
    apply andb_prop in Hv as [_ Hlen]. apply Nat.eqb_eq in Hlen.
    assert (Hall : Forall (fun t => create_from_state (get_state t)
                     = (map Popen (app_names t), Ok (Some t))) children).
    { rewrite forallb_forall in Hch. rewrite Forall_forall in IH |- *.
      intros t Hin. apply IH; [exact Hin | apply Hch; exact Hin]. }
    cbn [get_state].
    rewrite (create_from_state_split _ (JStr "split")
               (JStr (orientation_name o)));
      try reflexivity.
    change (dict_get "children" (JArr []) _)
      with (JArr (map get_state children)).
    change (dict_get "sizes" (JArr []) _) with (JArr (map JNum sizes)).
    cbn [load_children]. rewrite (add_children_saved _ Hall).
    rewrite bind_pair. rewrite restore_sizes_saved by exact Hlen.
    cbn. rewrite app_nil_r. destruct o; reflexivity.
Qed.

(** C1.  Round trip of persistence: for every valid pane tree [t] (every
    split has at least two children and one positive size per child, app
    panes have a non-empty name), [create_from_state (get_state t)] returns
    [t] itself: the same shape, contents, orientations and sizes. *)
Theorem round_trip (t : SplitPaneWidget) :
  valid_tree t = true ->
  outcome (create_from_state (get_state t)) = Ok (Some t).
Proof.
  intros Hv. rewrite (create_get_state t Hv). reflexivity.
Qed.

Lemma round_trip_witness :
  valid_tree sample_tree = true
  /\ outcome (create_from_state (get_state sample_tree))
     = Ok (Some sample_tree).
Proof.
  split; [reflexivity | apply (round_trip sample_tree); reflexivity].
Defined.

(** ** A child of unknown type *)

Lemma create_from_state_unknown (child_state : json) :
  unknown_type child_state = true ->
  create_from_state child_state = ret None.
Proof.
  destruct child_state as [| | | | | d]; try discriminate.
  unfold unknown_type.
  destruct (dict_lookup "type" d) as [type |] eqn:Ht; [| discriminate].
  intros H. apply andb_prop in H as [Hp Hs].
  apply negb_true_iff in Hp, Hs.
  exact (create_from_state_other d type Ht Hp Hs).
Qed.

Lemma add_children_app (create : json -> M (option SplitPaneWidget))
    (before after : list json) :
  add_children create (before ++ after)
  = (ws1 <- add_children create before ;;
     ws2 <- add_children create after ;;
     ret (ws1 ++ ws2)).
Proof.
  induction before as [| c before IH]; cbn [app add_children].
  - rewrite bind_ret_l.
    destruct (add_children create after) as [t [ws | e]];
      cbn; rewrite ?app_nil_r; reflexivity.
  - rewrite IH. destruct (create c) as [t [w | e]]; [| reflexivity].
    destruct (add_children create before) as [t1 [ws1 | e1]];
      [| reflexivity].
    destruct (add_children create after) as [t2 [ws2 | e2]];
      cbn; rewrite ?app_nil_r, <- ?app_assoc; try destruct w; reflexivity.
Qed.

Lemma add_children_skip (before after : list json) (child_state : json) :
  unknown_type child_state = true ->
  add_children create_from_state (before ++ child_state :: after)
  = add_children create_from_state (before ++ after).
Proof.
  intros Hu. rewrite !add_children_app. cbn [add_children].
  rewrite (create_from_state_unknown _ Hu), bind_ret_l.
  destruct (add_children create_from_state before) as [t1 [ws1 | e1]];
    [| reflexivity].
  destruct (add_children create_from_state after) as [t2 [ws2 | e2]];
    cbn; rewrite ?app_nil_r; reflexivity.
Qed.

(** C2, as the code has it.  A child of a split whose type is neither
    ["pane"] nor ["split"] is skipped: [create_from_state] of such a state
    returns [None] without raising, the loop over the children does not add
    it, and the split state loads exactly as the same state without that
    child. *)
Theorem malformed_child_skipped (d : list (string * json))
    (before after : list json) (child_state : json) :
  unknown_type child_state = true ->
  dict_lookup "children" d = Some (JArr (before ++ child_state :: after)) ->
  create_from_state child_state = ret None
  /\ create_from_state (JObj d)
     = create_from_state (JObj (("children", JArr (before ++ after)) :: d)).
Proof.
  intros Hu Hc. split; [exact (create_from_state_unknown _ Hu) |].
  set (d' := ("children", JArr (before ++ after)) :: d).
  destruct (dict_lookup "type" d) as [type |] eqn:Ht.
  - destruct (is_str type "pane") eqn:Hp.
    + rewrite (create_from_state_pane d type Ht Hp).
      rewrite (create_from_state_pane d' type Ht Hp). reflexivity.
    + destruct (is_str type "split") eqn:Hs.
      * destruct (dict_lookup "orientation" d) as [o |] eqn:Ho.
        -- rewrite (create_from_state_split d type o Ht Hp Hs Ho).
           rewrite (create_from_state_split d' type o Ht Hp Hs Ho).
           change (dict_get "sizes" (JArr []) d')
             with (dict_get "sizes" (JArr []) d).
           change (dict_get "children" (JArr []) d')
             with (JArr (before ++ after)).
           unfold dict_get at 1. rewrite Hc. cbn [load_children].
           rewrite (add_children_skip before after child_state Hu).
           reflexivity.
        -- rewrite (create_from_state_no_orientation d type Ht Hp Hs Ho).
           rewrite (create_from_state_no_orientation d' type Ht Hp Hs Ho).
           reflexivity.
      * rewrite (create_from_state_other d type Ht Hp Hs).
        rewrite (create_from_state_other d' type Ht Hp Hs). reflexivity.
  - rewrite (create_from_state_no_type d Ht).
    rewrite (create_from_state_no_type d' Ht). reflexivity.
Qed.

Lemma malformed_child_skipped_witness :
  create_from_state bogus_state = ret None
  /\ create_from_state
       (JObj (split_state [1%Z; 1%Z] [default_pane_state; bogus_state]))
     = create_from_state
         (JObj (("children", JArr ([default_pane_state] ++ []))
                :: split_state [1%Z; 1%Z]
                     [default_pane_state; bogus_state])).
Proof.
  apply (malformed_child_skipped
           (split_state [1%Z; 1%Z] [default_pane_state; bogus_state])
           [default_pane_state] [] bogus_state);
    reflexivity.
Defined.

(** C2, as stated, fails: a split whose second child is
    [{"type": "bogus"}] does not fail to load; a tree is returned that
    lacks the malformed child. *)
Lemma malformed_child_returns_tree :
  create_from_state
    (JObj (split_state [1%Z; 1%Z] [default_pane_state; bogus_state]))
  = ([], Ok (Some (Splitter Vertical [new_pane] [1%Z]))).
Proof. reflexivity. Qed.

(** ** The sizes of a loaded split *)

Lemma restore_sizes_ints (zs : list Z) (count : nat) :
  restore_sizes (JArr (map JNum zs)) count
  = Ok (if negb (List.length zs =? 0)%nat
           && (List.length zs =? count)%nat
        then zs else repeat 1%Z count).
Proof.
  unfold restore_sizes. destruct zs as [| z zs].
  - cbn. destruct count; reflexivity.
  - change (truthy (JArr (map JNum (z :: zs)))) with true.
    cbn [py_len setSizes]. rewrite length_map.
    change (negb (List.length (z :: zs) =? 0)%nat) with true.
    cbn [andb].
    destruct (List.length (z :: zs) =? count)%nat.
    + apply qt_int_list_nums.
    + destruct count; reflexivity.
Qed.

(** C3, as the code has it.  When a split state is loaded, the listed
    sizes are used as they are exactly when the list is not empty and has
    one entry per child that was added to the splitter; the entries are not
    examined.  Otherwise, also when no sizes are listed, every child gets
    the size 1. *)
Theorem sizes_restored (d : list (string * json)) (o : json)
    (zs : list Z) (started : list effect)
    (children : list SplitPaneWidget) :
  dict_lookup "type" d = Some (JStr "split") ->
  dict_lookup "orientation" d = Some o ->
  dict_get "sizes" (JArr []) d = JArr (map JNum zs) ->
  load_children (dict_get "children" (JArr []) d) = (started, Ok children) ->
  create_from_state (JObj d)
  = (started,
     Ok (Some (Splitter
                 (if is_str o "horizontal" then Horizontal else Vertical)
                 children
                 (if negb (List.length zs =? 0)%nat
                     && (List.length zs =? List.length children)%nat
                  then zs
                  else repeat 1%Z (List.length children))))).
Proof.
  intros Ht Ho Hz Hc.
  rewrite (create_from_state_split d (JStr "split") o Ht eq_refl eq_refl Ho).
  rewrite Hc, Hz, bind_pair, restore_sizes_ints. cbn.
  rewrite app_nil_r. reflexivity.
Qed.

Lemma sizes_restored_witness :
  create_from_state
    (JObj (split_state [5%Z] [default_pane_state; default_pane_state]))
  = ([], Ok (Some (Splitter Vertical [new_pane; new_pane] [1%Z; 1%Z]))).
Proof.
  apply (sizes_restored
           (split_state [5%Z] [default_pane_state; default_pane_state])
           (JStr "vertical") [5%Z] [] [new_pane; new_pane]);
    reflexivity.
Defined.

(** C3, as stated, fails: listed sizes that are not positive are used as
    they are when there is one per child; the sizes are not replaced by
    [1, 1]. *)
Lemma nonpositive_sizes_kept :
  create_from_state
    (JObj (split_state [0%Z; 5%Z]
             [default_pane_state; default_pane_state]))
  = ([], Ok (Some (Splitter Vertical [new_pane; new_pane] [0%Z; 5%Z])))
  /\ create_from_state
       (JObj (split_state [0%Z; (-3)%Z]
                [default_pane_state; default_pane_state]))
     = ([], Ok (Some (Splitter Vertical [new_pane; new_pane]
                        [0%Z; (-3)%Z]))).
Proof. split; reflexivity. Qed.

(** ** App panes are launched again on load *)

Lemma set_pane_content_app (name : json) :
  set_pane_content (JStr "app") name new_pane
  = if truthy name
    then ([Popen name], Ok (Pane (app_content name)))
    else ([], Ok new_pane).
Proof.
  unfold set_pane_content, new_pane, launch_app. cbn.
  destruct (truthy name); reflexivity.
Qed.

(** C10.  Loading a ["pane"] state whose content is ["app"] starts the
    named application while the tree is built, once per app pane of a saved
    tree and in their order, so that loading a saved workspace starts every
    app pane again.  When the name is missing or empty the pane becomes a
    default pane: nothing is raised and nothing is started. *)
Theorem app_panes_launched_on_load (d : list (string * json))
    (t : SplitPaneWidget) (window : MainWindow) :
  dict_lookup "type" d = Some (JStr "pane") ->
  dict_lookup "content" d = Some (JStr "app") ->
  valid_tree t = true ->
  let name := dict_get "app_name" JNull d in
  create_from_state (JObj d)
  = (if truthy name
     then ([Popen name], Ok (Some (Pane (app_content name))))
     else ([], Ok (Some new_pane)))
  /\ (dict_lookup "app_name" d = None \/
      dict_lookup "app_name" d = Some (JStr "") ->
      create_from_state (JObj d) = ([], Ok (Some new_pane)))
  /\ load_workspace (File (Ok (get_state t))) window
     = ({| root_pane := Some t; main_layout := [t] |},
        map Popen (app_names t), []).
Proof.
  intros Ht Hc Hv name.
  assert (Hd : create_from_state (JObj d)
               = (if truthy name
                  then ([Popen name], Ok (Some (Pane (app_content name))))
                  else ([], Ok (Some new_pane)))).
  { rewrite (create_from_state_pane d (JStr "pane") Ht eq_refl).
    unfold dict_get at 1. rewrite Hc. fold name.
    rewrite set_pane_content_app. destruct (truthy name); reflexivity. }
  split; [exact Hd |]. split.
  - intros Hn. rewrite Hd. unfold name, dict_get.
    destruct Hn as [-> | ->]; reflexivity.
  - unfold load_workspace. rewrite (create_get_state t Hv). reflexivity.
Qed.

Lemma app_panes_launched_on_load_witness :
  create_from_state (JObj app_state_named)
  = ([Popen (JStr "xterm")],
     Ok (Some (Pane (app_content (JStr "xterm")))))
  /\ create_from_state (JObj app_state_unnamed) = ([], Ok (Some new_pane))
  /\ create_from_state (JObj app_state_empty_name)
     = ([], Ok (Some new_pane))
  /\ load_workspace (File (Ok (get_state sample_tree))) init_window
     = ({| root_pane := Some sample_tree; main_layout := [sample_tree] |},
        [Popen (JStr "xterm"); Popen (JStr "gedit")], []).
Proof.
  split; [| split; [| split]].
  - apply (app_panes_launched_on_load app_state_named sample_tree
             init_window); reflexivity.
  - apply (app_panes_launched_on_load app_state_unnamed sample_tree
             init_window); try reflexivity.
    left. reflexivity.
  - apply (app_panes_launched_on_load app_state_empty_name sample_tree
             init_window); try reflexivity.
    right. reflexivity.
  - apply (app_panes_launched_on_load app_state_named sample_tree
             init_window); reflexivity.
Defined.

(** ** Closing and splitting inside the tree *)

Lemma nth_error_set_nth {A} (l : list A) (i : nat) (a x : A) :
  nth_error l i = Some x -> nth_error (set_nth i a l) i = Some a.
Proof.
  revert i. induction l as [| b l IH]; intros [| i] H; try discriminate.
  - reflexivity.
  - cbn in *. apply IH. exact H.
Qed.

Lemma set_nth_same {A} (l : list A) (i : nat) (x : A) :
  nth_error l i = Some x -> set_nth i x l = l.
Proof.
  revert i. induction l as [| b l IH]; intros [| i] H; try discriminate.
  - cbn in *. congruence.
  - cbn in *. f_equal. apply IH. exact H.
Qed.

Lemma length_set_nth {A} (l : list A) (i : nat) (a : A) :
  List.length (set_nth i a l) = List.length l.
Proof.
  revert i. induction l as [| b l IH]; intros [| i]; cbn; try reflexivity.
  rewrite IH. reflexivity.
Qed.

Lemma nth_error_set_nth_other {A} (l : list A) (i k : nat) (a : A) :
  k <> i -> nth_error (set_nth i a l) k = nth_error l k.
Proof.
  revert i k. induction l as [| b l IH]; intros i k H.
  - destruct i; reflexivity.
  - destruct i as [| i], k as [| k]; cbn; try reflexivity; [lia |].
    apply IH. lia.
Qed.

Lemma length_remove_nth {A} (l : list A) (i : nat) :
  (i < List.length l)%nat ->
  S (List.length (remove_nth i l)) = List.length l.
Proof.
  revert i. induction l as [| b l IH]; intros i H; cbn in H; [lia |].
  destruct i as [| i]; cbn; [reflexivity |].
  rewrite IH by lia. reflexivity.
Qed.

Lemma delete_later_cons (j : nat) (rest : Path) (i : nat)
    (o : Orientation) (children : list SplitPaneWidget) (sizes : list Z) :
  delete_later (j :: rest ++ [i]) (Splitter o children sizes)
  = match nth_error children j with
    | Some child =>
        match delete_later (rest ++ [i]) child with
        | Some child' => Some (Splitter o (set_nth j child' children) sizes)
        | None => None
        end
    | None => None
    end.
Proof.
  cbn [delete_later]. destruct (rest ++ [i]) eqn:E; [| reflexivity].
  destruct rest; discriminate.
Qed.

Lemma delete_later_parent (path : Path) :
  forall (root : SplitPaneWidget) (i : nat) (o : Orientation)
         (children : list SplitPaneWidget) (sizes : list Z),
    widget_at path root = Some (Splitter o children sizes) ->
    (i < List.length children)%nat ->
    exists root',
      delete_later (path ++ [i]) root = Some root'
      /\ widget_at path root'
         = Some (Splitter o (remove_nth i children) (remove_nth i sizes)).
Proof.
  induction path as [| j rest IH]; intros root i o children sizes Hw Hi.
  - cbn in Hw. injection Hw as ->. cbn [app delete_later].
    apply Nat.ltb_lt in Hi. rewrite Hi. eexists. split; reflexivity.
  - cbn [widget_at] in Hw.
    destruct root as [c | o0 ch0 sz0]; [discriminate |].
    destruct (nth_error ch0 j) as [child |] eqn:Hj; [| discriminate].
    destruct (IH child i o children sizes Hw Hi) as (child' & Hd & Hw').
    cbn [app]. rewrite delete_later_cons, Hj, Hd.
    eexists. split; [reflexivity |].
    cbn [widget_at]. rewrite (nth_error_set_nth _ _ _ _ Hj). exact Hw'.
Qed.

Lemma nth_error_remove_nth_before {A} (l : list A) (i k : nat) :
  (k < i)%nat -> nth_error (remove_nth i l) k = nth_error l k.
Proof.
  revert i k. induction l as [| b l IH]; intros i k H.
  - destruct i; reflexivity.
  - destruct i as [| i]; [lia |]. destruct k as [| k]; [reflexivity |].
    cbn. apply IH. lia.
Qed.

Lemma nth_error_remove_nth_after {A} (l : list A) (i k : nat) :
  (i <= k)%nat -> nth_error (remove_nth i l) k = nth_error l (S k).
Proof.
  revert i k. induction l as [| b l IH]; intros i k H.
  - destruct i, k; reflexivity.
  - destruct i as [| i]; [reflexivity |]. destruct k as [| k]; [lia |].
    cbn [remove_nth nth_error]. apply IH. lia.
Qed.

(** The widgets on the way from the root pane to the parent of a deleted
    widget keep their orientation, their sizes and all their children but
    the one on the way. *)
Lemma delete_later_ancestors (path : Path) :
  forall (root root' : SplitPaneWidget) (i : nat),
    delete_later (path ++ [i]) root = Some root' ->
    forall (q : Path) (j : nat) (r : Path),
      path = q ++ j :: r ->
      exists o ch ch' sz,
        widget_at q root = Some (Splitter o ch sz)
        /\ widget_at q root' = Some (Splitter o ch' sz)
        /\ List.length ch' = List.length ch
        /\ forall k, k <> j -> nth_error ch' k = nth_error ch k.
Proof.
  induction path as [| j0 rest IH]; intros root root' i Hd q j r Hq.
  - destruct q; discriminate.
  - cbn [app] in Hd. destruct root as [c | o0 ch0 sz0].
    + cbn in Hd. destruct (rest ++ [i]); discriminate.
    + rewrite delete_later_cons in Hd.
      destruct (nth_error ch0 j0) as [child |] eqn:Hj; [| discriminate].
      destruct (delete_later (rest ++ [i]) child) as [child' |] eqn:Hc;
        [| discriminate].
      injection Hd as <-.
      destruct q as [| j1 q]; cbn [app] in Hq; injection Hq as <- Hr.
      * exists o0, ch0, (set_nth j0 child' ch0), sz0.
        split; [reflexivity |]. split; [reflexivity |].
        split; [apply length_set_nth |].
        intros k Hk. apply nth_error_set_nth_other. exact Hk.
      * destruct (IH child child' i Hc q j r Hr)
          as (o & ch & ch' & sz & H1 & H2 & H3 & H4).
        exists o, ch, ch', sz. cbn [widget_at].
        rewrite (nth_error_set_nth _ _ _ _ Hj), Hj.
        repeat split; assumption.
Qed.

(** A widget that is neither in the parent of a deleted widget nor on the
    way to it is where it was and as it was. *)
Lemma delete_later_elsewhere (path : Path) :
  forall (root root' : SplitPaneWidget) (i : nat) (q : Path),
    delete_later (path ++ [i]) root = Some root' ->
    (forall r, q <> path ++ r) ->
    (forall r, path <> q ++ r) ->
    widget_at q root' = widget_at q root.
Proof.
  induction path as [| j0 rest IH]; intros root root' i q Hd Hin Hup.
  - exfalso. apply (Hin q). reflexivity.
  - cbn [app] in Hd. destruct root as [c | o0 ch0 sz0].
    + cbn in Hd. destruct (rest ++ [i]); discriminate.
    + rewrite delete_later_cons in Hd.
      destruct (nth_error ch0 j0) as [child |] eqn:Hj; [| discriminate].
      destruct (delete_later (rest ++ [i]) child) as [child' |] eqn:Hc;
        [| discriminate].
      injection Hd as <-.
      destruct q as [| k q].
      * exfalso. apply (Hup (j0 :: rest)). reflexivity.
      * cbn [widget_at]. destruct (Nat.eq_dec k j0) as [-> | Hk].
        -- rewrite (nth_error_set_nth _ _ _ _ Hj), Hj.
           apply (IH child child' i q Hc).
           ++ intros r E. apply (Hin r). cbn [app]. rewrite E. reflexivity.
           ++ intros r E. apply (Hup r). cbn [app]. rewrite E. reflexivity.
        -- rewrite (nth_error_set_nth_other _ _ _ _ Hk). reflexivity.
Qed.

(** C4, as the code has it.  [close_pane] on a pane inside a split takes
    that pane, with its size, out of the split and changes nothing else:
    the split stays where it is with one child fewer, also when one child
    or none is left, and no split is replaced by its remaining child.  The
    children and sizes before the closed pane keep their places and those
    after it move down by one; every widget on the way from the root pane
    to the split keeps its orientation, its sizes and its other children;
    every widget that is neither in the split nor on the way to it is
    where it was and as it was. *)
Theorem close_removes_pane_only (path : Path) (root : SplitPaneWidget)
    (i : nat) (o : Orientation) (children : list SplitPaneWidget)
    (sizes : list Z) :
  widget_at path root = Some (Splitter o children sizes) ->
  (i < List.length children)%nat ->
  exists root',
    close_pane (path ++ [i]) root = Some (Ok root')
    /\ widget_at path root'
       = Some (Splitter o (remove_nth i children) (remove_nth i sizes))
    /\ S (List.length (remove_nth i children)) = List.length children
    /\ (forall k,
          ((k < i)%nat ->
           nth_error (remove_nth i children) k = nth_error children k
           /\ nth_error (remove_nth i sizes) k = nth_error sizes k)
          /\ ((i <= k)%nat ->
              nth_error (remove_nth i children) k = nth_error children (S k)
              /\ nth_error (remove_nth i sizes) k = nth_error sizes (S k)))
    /\ (forall (q : Path) (j : nat) (r : Path),
          path = q ++ j :: r ->
          exists o' ch ch' sz,
            widget_at q root = Some (Splitter o' ch sz)
            /\ widget_at q root' = Some (Splitter o' ch' sz)
            /\ List.length ch' = List.length ch
            /\ forall k, k <> j -> nth_error ch' k = nth_error ch k)
    /\ (forall q : Path,
          (forall r, q <> path ++ r) ->
          (forall r, path <> q ++ r) ->
          widget_at q root' = widget_at q root).
Proof.
  intros Hw Hi.
  destruct (delete_later_parent path root i o children sizes Hw Hi)
    as (root' & Hd & Hw').
  exists root'. split; [| split; [| split; [| split; [| split]]]].
  - unfold close_pane. destruct (path ++ [i]) eqn:E.
    + destruct path; discriminate.
    + rewrite Hd. reflexivity.
  - exact Hw'.
  - apply length_remove_nth. exact Hi.
  - intros k. split; intros Hk.
    + split; apply nth_error_remove_nth_before; exact Hk.
    + split; apply nth_error_remove_nth_after; exact Hk.
  - intros q j r Hq. exact (delete_later_ancestors path root root' i Hd q j r Hq).
  - intros q Hin Hup.
    exact (delete_later_elsewhere path root root' i q Hd Hin Hup).
Qed.

Lemma close_removes_pane_only_witness :
  exists root',
    close_pane ([1] ++ [0]) sample_tree = Some (Ok root')
    /\ widget_at [1] root'
       = Some (Splitter Vertical
                 (remove_nth 0 [new_pane; Pane (app_content (JStr "gedit"))])
                 (remove_nth 0 [3%Z; 5%Z]))
    /\ S (List.length
            (remove_nth 0 [new_pane; Pane (app_content (JStr "gedit"))]))
       = List.length [new_pane; Pane (app_content (JStr "gedit"))]
    /\ (forall k,
          ((k < 0)%nat ->
           nth_error
             (remove_nth 0 [new_pane; Pane (app_content (JStr "gedit"))]) k
           = nth_error [new_pane; Pane (app_content (JStr "gedit"))] k
           /\ nth_error (remove_nth 0 [3%Z; 5%Z]) k
              = nth_error [3%Z; 5%Z] k)
          /\ ((0 <= k)%nat ->
              nth_error
                (remove_nth 0 [new_pane; Pane (app_content (JStr "gedit"))])
                k
              = nth_error [new_pane; Pane (app_content (JStr "gedit"))]
                  (S k)
              /\ nth_error (remove_nth 0 [3%Z; 5%Z]) k
                 = nth_error [3%Z; 5%Z] (S k)))
    /\ (forall (q : Path) (j : nat) (r : Path),
          [1%nat] = q ++ j :: r ->
          exists o' ch ch' sz,
            widget_at q sample_tree = Some (Splitter o' ch sz)
            /\ widget_at q root' = Some (Splitter o' ch' sz)
            /\ List.length ch' = List.length ch
            /\ forall k, k <> j -> nth_error ch' k = nth_error ch k)
    /\ (forall q : Path,
          (forall r, q <> [1%nat] ++ r) ->
          (forall r, [1%nat] <> q ++ r) ->
          widget_at q root' = widget_at q sample_tree).
Proof.
  apply (close_removes_pane_only [1] sample_tree 0 Vertical
           [new_pane; Pane (app_content (JStr "gedit"))] [3%Z; 5%Z]).
  - reflexivity.
  - cbn. lia.
Defined.

(** C4, as stated, fails: closing one of the two panes of a valid tree
    leaves a split with a single child in the tree. *)
Lemma close_leaves_single_child :
  valid_tree two_panes = true
  /\ close_pane [0%nat] two_panes
     = Some (Ok (Splitter Horizontal [new_pane] [1%Z]))
  /\ splits_have_two (close_panes [[0%nat]] two_panes) = false.
Proof. repeat split. Qed.

(** C5, on the code.  A load whose state cannot be built into a tree has
    already emptied the window: the layout holds no widget and [root_pane]
    is [None] when the error message is shown.  Only a file that is not
    JSON leaves the window as it was. *)
Theorem failed_load_empties_window :
  load_workspace (File (Ok bogus_state)) init_window
  = ({| root_pane := None; main_layout := [] |}, [],
     [Critical_failed failed_to_create])
  /\ load_workspace (File (Ok (JObj []))) init_window
     = ({| root_pane := None; main_layout := [] |}, [],
        [Critical_failed (KeyError "type")])
  /\ load_workspace (File (Raise JSONDecodeError)) init_window
     = (init_window, [], [Critical_invalid_format]).
Proof. repeat split. Qed.

Lemma call_at_ok {E} (method : SplitPaneWidget -> E * result SplitPaneWidget)
    (path : Path) :
  forall (root node node' : SplitPaneWidget) (e : E),
    widget_at path root = Some node ->
    method node = (e, Ok node') ->
    exists root',
      call_at method path root = Some (e, Ok root')
      /\ widget_at path root' = Some node'
      /\ (node' = node -> root' = root).
Proof.
  induction path as [| j rest IH]; intros root node node' e Hw Hm.
  - cbn in Hw. injection Hw as ->. cbn. rewrite Hm.
    exists node'. repeat split. intros H. exact H.
  - cbn [widget_at] in Hw.
    destruct root as [c | o ch sz]; [discriminate |].
    destruct (nth_error ch j) as [child |] eqn:Hj; [| discriminate].
    destruct (IH child node node' e Hw Hm) as (child' & Hc & Hw' & Hsame).
    cbn [call_at]. rewrite Hj, Hc. eexists. split; [reflexivity |]. split.
    + cbn [widget_at]. rewrite (nth_error_set_nth _ _ _ _ Hj). exact Hw'.
    + intros H. rewrite (Hsame H), (set_nth_same _ _ _ Hj). reflexivity.
Qed.




(** ** The drag gesture *)

Section Gesture.
#[local] Open Scope Z_scope.

Lemma deliver_silent (ev : MouseEvent) (rest : list MouseEvent)
    (self self' : PaneWidget) :
  handle ev self = Ok (self', []) ->
  deliver (ev :: rest) self = deliver rest self'.
Proof.
  intros H. cbn [deliver]. rewrite H.
  destruct (deliver rest self') as [[s c] | e]; reflexivity.
Qed.

Lemma below_threshold (start pos : QPoint) (threshold : Z) :
  drag_distance start pos <= threshold ->
  (Z.abs (px (point_sub pos start)) >? threshold)
  || (Z.abs (py (point_sub pos start)) >? threshold) = false.
Proof.
  unfold drag_distance, point_sub. cbn [px py]. intros H.
  apply orb_false_iff. rewrite !Z.gtb_ltb. split; apply Z.ltb_ge; lia.
Qed.

Lemma above_threshold (start pos : QPoint) (threshold : Z) :
  threshold < drag_distance start pos ->
  (Z.abs (px (point_sub pos start)) >? threshold)
  || (Z.abs (py (point_sub pos start)) >? threshold) = true.
Proof.
  unfold drag_distance, point_sub. cbn [px py]. intros H.
  apply orb_true_iff. rewrite !Z.gtb_ltb, !Z.ltb_lt. lia.
Qed.

Lemma press_on_handle (self : PaneWidget) (start : QPoint) :
  is_split (pane self) = false ->
  contains (get_handle_rect self) start = true ->
  exists self1,
    handle (Press start LeftButton) self = Ok (self1, [])
    /\ dragging_from start self self1.
Proof.
  intros Hs Hc. cbn [handle]. unfold mousePressEvent.
  rewrite Hs, Hc. cbn [negb andb].
  eexists. split; [reflexivity |]. repeat split.
Qed.

Lemma moves_below_threshold (self0 : PaneWidget) (start : QPoint)
    (moves : list QPoint) :
  is_split (pane self0) = false ->
  Forall (fun q => drag_distance start q <= split_threshold self0) moves ->
  forall self,
    dragging_from start self0 self ->
    exists self',
      dragging_from start self0 self'
      /\ forall rest,
           deliver (map Move moves ++ rest) self = deliver rest self'.
Proof.
  intros Hs. induction 1 as [| q moves Hq _ IH]; intros self Hd.
  - exists self. split; [exact Hd | reflexivity].
  - destruct Hd as (Hdr & Hst & Hg & Hp & Hw & Hh & Ht).
    assert (Hm : exists self1,
               handle (Move q) self = Ok (self1, [])
               /\ dragging_from start self0 self1).
    { cbn [handle]. unfold mouseMoveEvent.
      rewrite Hdr, Hst, Ht, (below_threshold _ _ _ Hq), andb_false_r.
      eexists. split; [reflexivity |]. repeat split; assumption. }
    destruct Hm as (self1 & Hm & Hd1).
    destruct (IH self1 Hd1) as (self' & Hd' & Hrest).
    exists self'. split; [exact Hd' |]. intros rest.
    cbn [map app]. rewrite (deliver_silent _ _ _ _ Hm). apply Hrest.
Qed.

(** A widget that is split and not dragged ignores the mouse. *)
Lemma split_widget_ignores (events : list MouseEvent) :
  forall self,
    is_split (pane self) = true ->
    dragging_handle self = false ->
    mouse_grabbed self = false ->
    exists self',
      deliver events self = Ok (self', [])
      /\ pane self' = pane self
      /\ dragging_handle self' = false
      /\ mouse_grabbed self' = false.
Proof.
  induction events as [| ev events IH]; intros self Hs Hd Hg.
  - exists self. repeat split; assumption.
  - assert (H1 : exists self1,
               handle ev self = Ok (self1, [])
               /\ pane self1 = pane self
               /\ dragging_handle self1 = false
               /\ mouse_grabbed self1 = false).
    { destruct ev as [pos button | pos | pos]; cbn [handle].
      - unfold mousePressEvent. rewrite Hs. cbn [negb andb].
        exists self. repeat split; assumption.
      - unfold mouseMoveEvent. rewrite Hd, Hs. cbn [negb andb].
        eexists. split; [reflexivity |]. repeat split; assumption.
      - unfold mouseReleaseEvent. rewrite Hd.
        exists self. repeat split; assumption. }
    destruct H1 as (self1 & H1 & Hp1 & Hd1 & Hg1).
    rewrite <- Hp1 in Hs.
    destruct (IH self1 Hs Hd1 Hg1) as (self' & H' & Hp' & Hd' & Hg').
    exists self'. rewrite (deliver_silent _ _ _ _ H1).
    repeat split; try assumption. congruence.
Qed.
End Gesture.

(** C6.  Split trigger of the gesture.  After a press with the left button
    on the handle of an unsplit pane, the first move whose larger distance
    from the press position exceeds the threshold calls [split] exactly
    once, horizontally when the horizontal distance is the larger one and
    vertically otherwise, and releases the mouse; whatever events follow,
    no other call is made, the widget is no longer dragged and no preview
    line is drawn. *)
Theorem drag_splits_once (self : PaneWidget) (start : QPoint)
    (before : list QPoint) (pos : QPoint) (rest : list MouseEvent) :
  is_split (pane self) = false ->
  contains (get_handle_rect self) start = true ->
  Forall (fun q => (drag_distance start q <= split_threshold self)%Z)
         before ->
  (split_threshold self < drag_distance start pos)%Z ->
  exists self',
    deliver (Press start LeftButton :: map Move before ++ Move pos :: rest)
            self
    = Ok (self', [Call_split (drag_orientation start pos)])
    /\ split (width self) (height self) (drag_orientation start pos)
             (pane self) = Ok (pane self')
    /\ mouse_grabbed self' = false
    /\ dragging_handle self' = false
    /\ preview_line self' = false.
Proof.
  intros Hs Hc Hbefore Hpos.
  destruct (press_on_handle self start Hs Hc) as (self1 & Hpress & Hd1).
  destruct (moves_below_threshold self start before Hs Hbefore self1 Hd1)
    as (self2 & Hd2 & Hmoves).
  destruct Hd2 as (Hdr & Hst & Hg & Hp & Hw & Hh & Ht).
  set (self3 := mkWidget
                  (Splitter (drag_orientation start pos) [new_pane; new_pane]
                     match drag_orientation start pos with
                     | Horizontal => [width self / 2; width self / 2]
                     | Vertical => [height self / 2; height self / 2]
                     end%Z)
                  (width self) (height self) (split_handle_size self2)
                  (split_threshold self) false start pos false None).
  assert (Hmove : handle (Move pos) self2
                  = Ok (self3, [Call_split (drag_orientation start pos)])).
  { cbn [handle]. unfold mouseMoveEvent.
    rewrite Hdr, Hst, Ht, Hp, Hs, (above_threshold _ _ _ Hpos), Hw, Hh.
    cbn [negb andb]. unfold point_sub. cbn [px py].
    fold (drag_orientation start pos).
    destruct (pane self) as [c |] eqn:Hpane; [| discriminate].
    reflexivity. }
  destruct (split_widget_ignores rest self3 eq_refl eq_refl eq_refl)
    as (self' & Hrest & Hp' & Hd' & Hg').
  exists self'. split; [| split; [| split; [| split]]].
  - rewrite (deliver_silent _ _ _ _ Hpress), Hmoves.
    cbn [deliver]. rewrite Hmove, Hrest. reflexivity.
  - rewrite Hp'. destruct (pane self) as [c |]; [| discriminate].
    reflexivity.
  - exact Hg'.
  - exact Hd'.
  - unfold preview_line. rewrite Hd'. reflexivity.
Qed.

Lemma drag_splits_once_witness :
  calls_of (deliver [Press (mkPoint 0 0) LeftButton; Move (mkPoint 5 5);
                     Move (mkPoint 12 3); Move (mkPoint 40 90);
                     Release (mkPoint 40 90)] small_pane)
  = Ok [Call_split Horizontal]
  /\ calls_of (deliver [Press (mkPoint 0 0) LeftButton; Move (mkPoint 3 12);
                        Release (mkPoint 3 12)] small_pane)
     = Ok [Call_split Vertical].
Proof.
  split.
  - destruct (drag_splits_once small_pane (mkPoint 0 0) [mkPoint 5 5]
                (mkPoint 12 3)
                [Move (mkPoint 40 90); Release (mkPoint 40 90)])
      as (self' & H & _).
    + reflexivity.
    + reflexivity.
    + constructor; [vm_compute; discriminate | constructor].
    + vm_compute. reflexivity.
    + cbn [map app] in H. rewrite H. reflexivity.
  - destruct (drag_splits_once small_pane (mkPoint 0 0) []
                (mkPoint 3 12) [Release (mkPoint 3 12)])
      as (self' & H & _).
    + reflexivity.
    + reflexivity.
    + constructor.
    + vm_compute. reflexivity.
    + cbn [map app] in H. rewrite H. reflexivity.
Defined.

(** C7, as the code has it.  When the handle was pressed and no move went
    beyond the threshold, the release ends the drag and releases the
    mouse; it opens the pane options exactly once when the release position
    is nearer to the press position than the threshold in both directions,
    and makes no call when either distance has reached the threshold. *)
Theorem release_is_click_below_threshold (self : PaneWidget)
    (start : QPoint) (moves : list QPoint) (pos : QPoint) :
  is_split (pane self) = false ->
  contains (get_handle_rect self) start = true ->
  Forall (fun q => (drag_distance start q <= split_threshold self)%Z)
         moves ->
  exists self',
    deliver (Press start LeftButton :: map Move moves ++ [Release pos]) self
    = Ok (self',
          if ((Z.abs (px pos - px start) <? split_threshold self)
              && (Z.abs (py pos - py start) <? split_threshold self))%Z
          then [Call_open_pane_options] else [])
    /\ pane self' = pane self
    /\ mouse_grabbed self' = false
    /\ dragging_handle self' = false.
Proof.
  intros Hs Hc Hmoves.
  destruct (press_on_handle self start Hs Hc) as (self1 & Hpress & Hd1).
  destruct (moves_below_threshold self start moves Hs Hmoves self1 Hd1)
    as (self2 & Hd2 & Hdeliver).
  destruct Hd2 as (Hdr & Hst & Hg & Hp & Hw & Hh & Ht).
  rewrite (deliver_silent _ _ _ _ Hpress), Hdeliver.
  cbn [deliver handle]. unfold mouseReleaseEvent.
  rewrite Hdr, Hst, Ht, Hp, Hs. cbn [negb andb].
  unfold point_sub. cbn [px py].
  destruct ((Z.abs (px pos - px start) <? split_threshold self)
            && (Z.abs (py pos - py start) <? split_threshold self))%Z;
    eexists; (split; [reflexivity |]); repeat split.
Qed.

Lemma release_is_click_below_threshold_witness :
  calls_of (deliver [Press (mkPoint 0 0) LeftButton; Move (mkPoint 5 5);
                     Release (mkPoint 5 5)] small_pane)
  = Ok [Call_open_pane_options].
Proof.
  destruct (release_is_click_below_threshold small_pane (mkPoint 0 0)
              [mkPoint 5 5] (mkPoint 5 5))
    as (self' & H & _).
  - reflexivity.
  - reflexivity.
  - constructor; [vm_compute; discriminate | constructor].
  - cbn [map app] in H. rewrite H. reflexivity.
Defined.

(** C7, as stated, fails at the boundary: a drag that ends exactly at the
    threshold never went beyond it, and its release makes no call. *)
Lemma release_at_threshold_makes_no_call :
  (drag_distance (mkPoint 0 0) (mkPoint 10 0)
   <= split_threshold small_pane)%Z
  /\ calls_of (deliver [Press (mkPoint 0 0) LeftButton;
                        Move (mkPoint 10 0); Release (mkPoint 10 0)]
                 small_pane)
     = Ok []
  /\ contains (get_handle_rect (init_widget 800 600)) (mkPoint 790 590)
     = true
  /\ calls_of (deliver [Press (mkPoint 790 590) LeftButton;
                        Move (mkPoint 795 594); Move (mkPoint 790 600);
                        Release (mkPoint 790 600)]
                 (init_widget 800 600))
     = Ok [].
Proof.
  split; [vm_compute; discriminate | repeat split].
Qed.

(** ** The file name of a workspace *)

Section FileName.
Import FileNameSpec.

Lemma kept_char_allowed (c : ascii) : kept_char c = allowed c.
Proof.
  unfold kept_char, allowed. cbn [existsb].
  rewrite orb_false_r, <- !orb_assoc. reflexivity.
Qed.

Lemma list_of_join_if (keep : ascii -> bool) (s : string) :
  list_ascii_of_string (Str.join_if keep s)
  = filter keep (list_ascii_of_string s).
Proof.
  induction s as [| c s IH]; cbn; [reflexivity |].
  destruct (keep c); cbn; rewrite IH; reflexivity.
Qed.

Lemma drop_leading_space_snoc (l : list ascii) (c : ascii) :
  drop_leading_space (l ++ [c])
  = match drop_leading_space l with
    | [] => if Str.isspace c then [] else [c]
    | t => t ++ [c]
    end.
Proof.
  induction l as [| a l IH]; cbn.
  - destruct (Str.isspace c); reflexivity.
  - destruct (Str.isspace a); [exact IH | reflexivity].
Qed.

Lemma list_of_rstrip (s : string) :
  list_ascii_of_string (Str.rstrip s)
  = strip_trailing_space (list_ascii_of_string s).
Proof.
  unfold strip_trailing_space.
  induction s as [| c s IH]; [reflexivity |].
  cbn [Str.rstrip list_ascii_of_string rev].
  rewrite drop_leading_space_snoc.
  destruct (drop_leading_space (rev (list_ascii_of_string s)))
    as [| a t] eqn:E.
  - cbn [rev] in IH. destruct (Str.rstrip s); [| discriminate].
    destruct (Str.isspace c); reflexivity.
  - rewrite rev_app_distr. cbn [rev app].
    destruct (Str.rstrip s) as [| b u] eqn:Er.
    + exfalso. cbn in IH. symmetry in IH.
      apply app_eq_nil in IH as [_ IH]. discriminate.
    + cbn [list_ascii_of_string]. f_equal. exact IH.
Qed.

Lemma list_of_replace (old new : ascii) (s : string) :
  list_ascii_of_string (Str.replace old new s)
  = map (fun c => if Ascii.eqb c old then new else c)
        (list_ascii_of_string s).
Proof.
  induction s as [| c s IH]; cbn; [reflexivity |].
  rewrite IH. reflexivity.
Qed.

Lemma list_of_append (a b : string) :
  list_ascii_of_string (String.append a b)
  = list_ascii_of_string a ++ list_ascii_of_string b.
Proof.
  induction a as [| c a IH]; cbn; [reflexivity |].
  rewrite IH. reflexivity.
Qed.

Lemma workspace_file_name_spec (name : string) :
  workspace_file_name name = file_name name.
Proof.
  rewrite <- (string_of_list_ascii_of_string (workspace_file_name name)).
  unfold file_name. f_equal.
  unfold workspace_file_name. rewrite list_of_append. f_equal.
  set (safe := Str.replace " " "_"
                 (Str.rstrip (Str.join_if kept_char name))).
  assert (Hsafe : list_ascii_of_string safe
                  = underscore_spaces
                      (strip_trailing_space
                         (keep_allowed (list_ascii_of_string name)))).
  { unfold safe, underscore_spaces, keep_allowed.
    rewrite list_of_replace, list_of_rstrip, list_of_join_if.
    rewrite (filter_ext _ _ kept_char_allowed). reflexivity. }
  rewrite <- Hsafe. destruct safe; reflexivity.
Qed.
End FileName.

(** C9.  Derivation of the file name.  For every workspace name the file
    name is obtained by keeping the alphanumeric characters, spaces, [.]
    and [_], stripping the white space at the end, writing [_] for each
    space that is left, taking [untitled_workspace] when nothing is left
    and appending [.json]; the file is looked for under that name in the
    workspace directory.  ["My Workspace!"] gives ["My_Workspace.json"]
    and three spaces give ["untitled_workspace.json"]. *)
Theorem file_name_derivation :
  (forall name, workspace_file_name name = FileNameSpec.file_name name)
  /\ (forall dir name,
        get_workspace_file_path dir name
        = Str.os_path_join dir (FileNameSpec.file_name name))
  /\ workspace_file_name "My Workspace!" = "My_Workspace.json"
  /\ workspace_file_name "   " = "untitled_workspace.json".
Proof.
  split; [exact workspace_file_name_spec |]. split.
  - intros dir name. unfold get_workspace_file_path.
    rewrite workspace_file_name_spec. reflexivity.
  - split; reflexivity.
Qed.

(** * Further properties *)

(** ** Well-formed trees *)

Lemma well_formed_content_cases (c : ContentWidget) :
  well_formed_content c = true ->
  c = default_content
  \/ (c = app_content (app_name c) /\ truthy (app_name c) = true).
Proof.
  destruct c as [ct an]. unfold well_formed_content.
  cbn [content_type app_name]. intros H.
  apply orb_prop in H as [H | H]; apply andb_prop in H as [Hc Hn];
    apply String.eqb_eq in Hc; subst ct.
  - destruct an; try discriminate. left. reflexivity.
  - right. split; [reflexivity | exact Hn].
Qed.

Lemma valid_well_formed (t : SplitPaneWidget) :
  valid_tree t = true -> well_formed t = true.
Proof.
  induction t as [c | o children sizes IH] using tree_ind; intros Hv.
  - cbn in Hv |- *.
    destruct (valid_content_cases c Hv) as [-> | (name & Hn & ->)];
      [reflexivity |].
    apply String.eqb_neq in Hn. unfold well_formed_content. cbn.
    rewrite Hn. reflexivity.
  - cbn [valid_tree] in Hv. cbn [well_formed].
    apply andb_prop in Hv as [Hv Hch]. apply andb_prop in Hv as [Hv _].
    apply andb_prop in Hv as [_ Hlen]. rewrite Hlen. cbn [andb].
    apply forallb_forall. intros x Hin.
    rewrite Forall_forall in IH. rewrite forallb_forall in Hch.
    apply IH; [exact Hin | apply Hch; exact Hin].
Qed.

Lemma create_get_state_well_formed (t : SplitPaneWidget) :
  well_formed t = true ->
  create_from_state (get_state t) = (map Popen (app_names t), Ok (Some t)).
Proof.
  induction t as [c | o children sizes IH] using tree_ind; intros Hw.
  - cbn [well_formed] in Hw.
    destruct (well_formed_content_cases c Hw) as [-> | [Hc Hn]];
      [reflexivity |].
    rewrite Hc. cbn [get_state content_type app_name app_content].
    rewrite (create_from_state_pane _ (JStr "pane")); try reflexivity.
    change (dict_get "content" (JStr "default") _) with (JStr "app").
    change (dict_get "app_name" JNull _) with (app_name c).
    rewrite set_pane_content_app, Hn. reflexivity.
  - cbn [well_formed] in Hw. apply andb_prop in Hw as [Hlen Hch].
    apply Nat.eqb_eq in Hlen.
    assert (Hall : Forall (fun t => create_from_state (get_state t)
                     = (map Popen (app_names t), Ok (Some t))) children).
    { rewrite forallb_forall in Hch. rewrite Forall_forall in IH |- *.
      intros t Hin. apply IH; [exact Hin | apply Hch; exact Hin]. }
    cbn [get_state].
    rewrite (create_from_state_split _ (JStr "split")
               (JStr (orientation_name o)));
      try reflexivity.
    change (dict_get "children" (JArr []) _)
      with (JArr (map get_state children)).
    change (dict_get "sizes" (JArr []) _) with (JArr (map JNum sizes)).
    cbn [load_children]. rewrite (add_children_saved _ Hall).
    rewrite bind_pair. rewrite restore_sizes_saved by exact Hlen.
    cbn. rewrite app_nil_r. destruct o; reflexivity.
Qed.

(** X1.  Saving and loading returns the same tree for every well-formed
    tree: the splits need not have two children and the sizes need not be
    positive, so the trees that closing panes leaves behind are restored as
    they are, and their app panes are started in order. *)
Theorem round_trip_well_formed (t : SplitPaneWidget) :
  well_formed t = true ->
  create_from_state (get_state t) = (map Popen (app_names t), Ok (Some t)).
Proof. exact (create_get_state_well_formed t). Qed.

Lemma round_trip_well_formed_witness :
  create_from_state
    (get_state (Splitter Horizontal
                  [Splitter Vertical [Pane (app_content (JStr "gedit"))]
                     [0%Z];
                   Splitter Vertical [] []]
                  [(-4)%Z; 7%Z]))
  = ([Popen (JStr "gedit")],
     Ok (Some (Splitter Horizontal
                 [Splitter Vertical [Pane (app_content (JStr "gedit"))]
                    [0%Z];
                  Splitter Vertical [] []]
                 [(-4)%Z; 7%Z]))).
Proof.
  apply (round_trip_well_formed
           (Splitter Horizontal
              [Splitter Vertical [Pane (app_content (JStr "gedit"))] [0%Z];
               Splitter Vertical [] []]
              [(-4)%Z; 7%Z])).
  reflexivity.
Defined.

(** X2.  Saving loses nothing: two different well-formed trees never have
    the same saved state. *)
Theorem get_state_injective (t1 t2 : SplitPaneWidget) :
  well_formed t1 = true ->
  well_formed t2 = true ->
  t1 <> t2 ->
  get_state t1 <> get_state t2.
Proof.
  intros H1 H2 Hne Heq. apply Hne.
  pose proof (create_get_state_well_formed t1 H1) as E1.
  pose proof (create_get_state_well_formed t2 H2) as E2.
  rewrite Heq in E1. rewrite E1 in E2. congruence.
Qed.

Lemma get_state_injective_witness :
  get_state two_panes <> get_state sample_tree.
Proof.
  apply (get_state_injective two_panes sample_tree);
    [reflexivity | reflexivity | discriminate].
Defined.

(** ** What loading returns *)

Lemma qt_int_list_length (items : list json) (zs : list Z) :
  qt_int_list items = Ok zs -> List.length zs = List.length items.
Proof.
  revert zs. induction items as [| x items IH]; intros zs H.
  - cbn in H. injection H as <-. reflexivity.
  - cbn in H.
    destruct x; try discriminate;
      destruct (qt_int_list items) as [zs' |]; try discriminate;
      injection H as <-; cbn; rewrite (IH zs' eq_refl); reflexivity.
Qed.

Lemma restore_sizes_length (sizes : json) (count : nat) (zs : list Z) :
  restore_sizes sizes count = Ok zs -> List.length zs = count.
Proof.
  unfold restore_sizes.
  assert (Hf : forall zs,
             (if (0 <? count)%nat then Ok (repeat 1%Z count) else Ok [])
             = Ok zs -> List.length zs = count).
  { intros zs0 H. destruct count; cbn in H; injection H as <-.
    - reflexivity.
    - cbn. rewrite repeat_length. reflexivity. }
  destruct (truthy sizes); [| apply Hf].
  destruct (py_len sizes) as [n |] eqn:Hn; [| discriminate].
  destruct (n =? count)%nat eqn:E; [| apply Hf].
  apply Nat.eqb_eq in E. subst count.
  destruct sizes; try discriminate. cbn in Hn. injection Hn as <-.
  cbn [setSizes]. apply qt_int_list_length.
Qed.

Lemma set_pane_content_well_formed (content_type app_name : json)
    (self : SplitPaneWidget) :
  well_formed self = true ->
  exists started self',
    set_pane_content content_type app_name self = (started, Ok self')
    /\ well_formed self' = true.
Proof.
  intros Hw. destruct self as [c | o ch sz].
  - unfold set_pane_content.
    destruct (is_str content_type "app" && truthy app_name) eqn:E.
    + apply andb_prop in E as [_ Hn].
      unfold launch_app. cbn. rewrite Hn.
      eexists _, _. split; [reflexivity |].
      unfold well_formed_content. cbn. rewrite Hn. reflexivity.
    + eexists _, _. split; reflexivity.
  - eexists _, _. split; [reflexivity | exact Hw].
Qed.

Lemma add_children_well_formed (items : list json) :
  Forall (fun s => forall tr t,
            create_from_state s = (tr, Ok (Some t)) ->
            well_formed t = true) items ->
  forall tr ws,
    add_children create_from_state items = (tr, Ok ws) ->
    forallb well_formed ws = true.
Proof.
  induction 1 as [| s items Hs _ IH]; intros tr ws H.
  - cbn in H. injection H as _ <-. reflexivity.
  - cbn [add_children] in H.
    destruct (create_from_state s) as [t1 [w |]] eqn:E1; [| discriminate].
    destruct (add_children create_from_state items) as [t2 [ws' |]] eqn:E2;
      [| discriminate].
    cbn in H. injection H as _ <-.
    specialize (IH _ _ eq_refl).
    destruct w as [w |]; [| exact IH].
    cbn. rewrite (Hs _ _ eq_refl), IH. reflexivity.
Qed.

Lemma dict_lookup_in (key : string) (d : list (string * json)) (v : json) :
  dict_lookup key d = Some v -> exists k, In (k, v) d.
Proof.
  induction d as [| [k x] d IH]; [discriminate |]. cbn.
  destruct (String.eqb k key).
  - intros H. injection H as ->. exists k. left. reflexivity.
  - intros H. destruct (IH H) as (k' & Hin). exists k'. right. exact Hin.
Qed.

Lemma create_from_state_well_formed (state : json) :
  forall tr t,
    create_from_state state = (tr, Ok (Some t)) -> well_formed t = true.
Proof.
  enough (H : (forall tr t, create_from_state state = (tr, Ok (Some t)) ->
                            well_formed t = true)
              /\ (forall items, state = JArr items ->
                  Forall (fun s => forall tr t,
                            create_from_state s = (tr, Ok (Some t)) ->
                            well_formed t = true) items))
    by exact (proj1 H).
  induction state as [| b | z | s | items IH | d IH] using json_ind';
    try (split; [discriminate | discriminate]).
  - split; [discriminate |].
    intros items' E. injection E as <-.
    eapply Forall_impl; [| exact IH]. intros s Hs. exact (proj1 Hs).
  - split; [| discriminate]. intros tr t H.
    destruct (dict_lookup "type" d) as [type |] eqn:Ht;
      [| rewrite (create_from_state_no_type d Ht) in H; discriminate].
    destruct (is_str type "pane") eqn:Hp.
    { rewrite (create_from_state_pane d type Ht Hp) in H.
      destruct (set_pane_content_well_formed
                  (dict_get "content" (JStr "default") d)
                  (dict_get "app_name" JNull d) new_pane eq_refl)
        as (started & self' & Hset & Hw).
      rewrite Hset in H. cbn in H. injection H as _ <-. exact Hw. }
    destruct (is_str type "split") eqn:Hs;
      [| rewrite (create_from_state_other d type Ht Hp Hs) in H;
         discriminate].
    destruct (dict_lookup "orientation" d) as [o |] eqn:Ho;
      [| rewrite (create_from_state_no_orientation d type Ht Hp Hs Ho) in H;
         discriminate].
    rewrite (create_from_state_split d type o Ht Hp Hs Ho) in H.
    destruct (load_children (dict_get "children" (JArr []) d))
      as [tc [ws |]] eqn:Hc; [| discriminate].
    rewrite bind_pair in H.
    destruct (restore_sizes (dict_get "sizes" (JArr []) d)
                (List.length ws)) as [zs |] eqn:Hz; [| discriminate].
    cbn in H. injection H as _ <-.
    cbn [well_formed]. rewrite (restore_sizes_length _ _ _ Hz).
    rewrite Nat.eqb_refl. cbn [andb].
    unfold dict_get in Hc.
    destruct (dict_lookup "children" d) as [v |] eqn:Hv.
    + destruct v as [| | | | items |];
        try (unfold load_children, add_children_of_other in Hc;
             cbn [py_iter] in Hc;
             match type of Hc with
             | context [match ?l with _ => _ end] =>
                 destruct l; cbn in Hc; try discriminate;
                 injection Hc as _ <-; reflexivity
             | _ => discriminate
             end).
      cbn [load_children] in Hc.
      destruct (dict_lookup_in _ _ _ Hv) as (k & Hin).
      rewrite Forall_forall in IH.
      destruct (IH _ Hin) as [_ Hitems]. cbn [snd] in Hitems.
      exact (add_children_well_formed items (Hitems items eq_refl) _ _ Hc).
    + cbn in Hc. injection Hc as _ <-. reflexivity.
Qed.

(** X3.  Whatever state is loaded, a tree that [create_from_state] returns
    is well-formed, and saving and loading it again gives the same tree. *)
Theorem loaded_tree_round_trips (state : json) (started : list effect)
    (t : SplitPaneWidget) :
  create_from_state state = (started, Ok (Some t)) ->
  well_formed t = true
  /\ create_from_state (get_state t) = (map Popen (app_names t), Ok (Some t)).
Proof.
  intros H.
  pose proof (create_from_state_well_formed state started t H) as Hw.
  split; [exact Hw | exact (create_get_state_well_formed t Hw)].
Qed.

Lemma loaded_tree_round_trips_witness :
  well_formed (Splitter Vertical [new_pane] [1%Z]) = true
  /\ create_from_state (get_state (Splitter Vertical [new_pane] [1%Z]))
     = (map Popen (app_names (Splitter Vertical [new_pane] [1%Z])),
        Ok (Some (Splitter Vertical [new_pane] [1%Z]))).
Proof.
  apply (loaded_tree_round_trips
           (JObj (split_state [7%Z; 8%Z; 9%Z]
                    [default_pane_state; bogus_state]))
           [] (Splitter Vertical [new_pane] [1%Z])).
  reflexivity.
Defined.

Lemma add_children_of_saved (children : list SplitPaneWidget) :
  Forall (fun t => exists tr t',
            create_from_state (get_state t) = (tr, Ok (Some t'))
            /\ count_panes t' = count_panes t) children ->
  exists tr ws,
    add_children create_from_state (map get_state children) = (tr, Ok ws)
    /\ map count_panes ws = map count_panes children.
Proof.
  induction 1 as [| t children (tr1 & t' & Ht & Hc) _ (tr2 & ws & Hws & Hm)].
  - exists [], []. split; reflexivity.
  - cbn [map add_children]. rewrite Ht, Hws.
    eexists _, _. split; [reflexivity |]. cbn. rewrite Hc, Hm. reflexivity.
Qed.

Lemma saved_state_loads (t : SplitPaneWidget) :
  exists tr t',
    create_from_state (get_state t) = (tr, Ok (Some t'))
    /\ count_panes t' = count_panes t.
Proof.
  induction t as [c | o children sizes IH] using tree_ind.
  - cbn [get_state].
    rewrite (create_from_state_pane _ (JStr "pane")); try reflexivity.
    destruct (set_pane_content_well_formed
                (dict_get "content" (JStr "default")
                   [("type", JStr "pane");
                    ("content", JStr (content_type c));
                    ("app_name",
                     if String.eqb (content_type c) "app"
                     then app_name c else JNull)])
                (dict_get "app_name" JNull
                   [("type", JStr "pane");
                    ("content", JStr (content_type c));
                    ("app_name",
                     if String.eqb (content_type c) "app"
                     then app_name c else JNull)])
                new_pane eq_refl)
      as (started & self' & Hset & _).
    rewrite Hset. cbn. eexists _, _. split; [reflexivity |].
    unfold set_pane_content, new_pane in Hset.
    destruct (is_str _ "app" && truthy _) in Hset; cbn in Hset;
      [destruct (launch_app _) as [tl [[] |]]; cbn in Hset |];
      try discriminate; injection Hset as _ <-; reflexivity.
  - cbn [get_state].
    rewrite (create_from_state_split _ (JStr "split")
               (JStr (orientation_name o)));
      try reflexivity.
    change (dict_get "children" (JArr []) _)
      with (JArr (map get_state children)).
    change (dict_get "sizes" (JArr []) _) with (JArr (map JNum sizes)).
    cbn [load_children].
    destruct (add_children_of_saved children IH) as (tr & ws & Hws & Hm).
    rewrite Hws, bind_pair, restore_sizes_ints. cbn.
    eexists _, _. split; [reflexivity |]. cbn [count_panes].
    rewrite Hm. reflexivity.
Qed.

(** X4.  A saved state always loads: for every tree, also one that is not
    well-formed, [create_from_state] of its saved state raises nothing and
    returns a well-formed tree with the same number of panes. *)
Theorem saved_state_always_loads (t : SplitPaneWidget) :
  exists started t',
    create_from_state (get_state t) = (started, Ok (Some t'))
    /\ well_formed t' = true
    /\ count_panes t' = count_panes t.
Proof.
  destruct (saved_state_loads t) as (tr & t' & H & Hc).
  exists tr, t'. split; [exact H |]. split; [| exact Hc].
  exact (create_from_state_well_formed _ _ _ H).
Qed.

(** X5.  An exception of a child ends the load of the whole split, unlike
    a child of unknown type: the exception of the first child that raises
    is the result, the later children are not built, and the apps of the
    children built before it have already been started. *)
Theorem child_exception_propagates (d : list (string * json)) (o : json)
    (before after : list json) (bad : json)
    (started started_bad : list effect) (built : list SplitPaneWidget)
    (e : exn) :
  dict_lookup "type" d = Some (JStr "split") ->
  dict_lookup "orientation" d = Some o ->
  dict_lookup "children" d = Some (JArr (before ++ bad :: after)) ->
  add_children create_from_state before = (started, Ok built) ->
  create_from_state bad = (started_bad, Raise e) ->
  create_from_state (JObj d) = (started ++ started_bad, Raise e).
Proof.
  intros Ht Ho Hc Hb He.
  rewrite (create_from_state_split d (JStr "split") o Ht eq_refl eq_refl Ho).
  unfold dict_get at 1. rewrite Hc. cbn [load_children].
  rewrite add_children_app, Hb. cbn [add_children]. rewrite He.
  reflexivity.
Qed.

Lemma child_exception_propagates_witness :
  create_from_state
    (JObj [("type", JStr "split"); ("orientation", JStr "horizontal");
           ("children", JArr ([JObj app_state_named]
                              ++ JObj [("content", JStr "app")]
                              :: [JObj app_state_named]))])
  = ([Popen (JStr "xterm")] ++ [], Raise (KeyError "type")).
Proof.
  apply (child_exception_propagates _ (JStr "horizontal")
           [JObj app_state_named] [JObj app_state_named]
           (JObj [("content", JStr "app")])
           [Popen (JStr "xterm")] []
           [Pane (app_content (JStr "xterm"))] (KeyError "type"));
    reflexivity.
Defined.

(** ** Edits keep the tree well-formed *)

Lemma forallb_set_nth {A} (f : A -> bool) (l : list A) (i : nat) (a : A) :
  forallb f l = true -> f a = true -> forallb f (set_nth i a l) = true.
Proof.
  revert i. induction l as [| b l IH]; intros i Hl Ha; [destruct i; exact Hl |].
  cbn in Hl. apply andb_prop in Hl as [Hb Hl].
  destruct i as [| i]; cbn.
  - rewrite Ha, Hl. reflexivity.
  - rewrite Hb, (IH i Hl Ha). reflexivity.
Qed.

Lemma forallb_remove_nth {A} (f : A -> bool) (l : list A) (i : nat) :
  forallb f l = true -> forallb f (remove_nth i l) = true.
Proof.
  revert i. induction l as [| b l IH]; intros i Hl; [destruct i; exact Hl |].
  cbn in Hl. apply andb_prop in Hl as [Hb Hl].
  destruct i as [| i]; cbn; [exact Hl |].
  rewrite Hb, (IH i Hl). reflexivity.
Qed.

Lemma length_remove_nth_both {A B} (l : list A) (m : list B) (i : nat) :
  List.length l = List.length m ->
  List.length (remove_nth i l) = List.length (remove_nth i m).
Proof.
  revert m i. induction l as [| a l IH]; intros [| b m] i H;
    try discriminate.
  - destruct i; reflexivity.
  - cbn in H. injection H as H. destruct i as [| i]; cbn; [exact H |].
    rewrite (IH m i H). reflexivity.
Qed.

Lemma nth_error_forallb {A} (f : A -> bool) (l : list A) (i : nat) (a : A) :
  forallb f l = true -> nth_error l i = Some a -> f a = true.
Proof.
  intros Hl Hi. rewrite forallb_forall in Hl.
  apply Hl. eapply nth_error_In. exact Hi.
Qed.

Lemma call_at_well_formed {E}
    (method : SplitPaneWidget -> E * result SplitPaneWidget) (path : Path) :
  (forall node e node',
      method node = (e, Ok node') ->
      well_formed node = true -> well_formed node' = true) ->
  forall root e root',
    well_formed root = true ->
    call_at method path root = Some (e, Ok root') ->
    well_formed root' = true.
Proof.
  intros Hm. induction path as [| i rest IH]; intros root e root' Hw Hc.
  - cbn in Hc. injection Hc as Hc. exact (Hm _ _ _ Hc Hw).
  - cbn [call_at] in Hc. destruct root as [c | o ch sz]; [discriminate |].
    destruct (nth_error ch i) as [child |] eqn:Hi; [| discriminate].
    destruct (call_at method rest child) as [[e' [child' | x]] |] eqn:Hr;
      try discriminate.
    injection Hc as _ <-.
    cbn [well_formed] in Hw |- *. apply andb_prop in Hw as [Hlen Hch].
    rewrite length_set_nth, Hlen. cbn [andb].
    apply forallb_set_nth; [exact Hch |].
    apply (IH child e' child'); [| exact Hr].
    exact (nth_error_forallb _ _ _ _ Hch Hi).
Qed.

Lemma delete_later_deeper (i j : nat) (rest : Path) (o : Orientation)
    (children : list SplitPaneWidget) (sizes : list Z) :
  delete_later (i :: j :: rest) (Splitter o children sizes)
  = match nth_error children i with
    | Some child =>
        match delete_later (j :: rest) child with
        | Some child' => Some (Splitter o (set_nth i child' children) sizes)
        | None => None
        end
    | None => None
    end.
Proof. reflexivity. Qed.

Lemma delete_later_well_formed (path : Path) :
  forall root root',
    well_formed root = true ->
    delete_later path root = Some root' ->
    well_formed root' = true.
Proof.
  induction path as [| i rest IH]; intros root root' Hw Hd;
    [destruct root; cbn in Hd; discriminate |].
  destruct root as [c | o ch sz]; [destruct rest; cbn in Hd; discriminate |].
  cbn [well_formed] in Hw. apply andb_prop in Hw as [Hlen Hch].
  apply Nat.eqb_eq in Hlen.
  destruct rest as [| j rest'].
  - cbn [delete_later] in Hd.
    destruct (i <? List.length ch)%nat; [| discriminate].
    injection Hd as <-. cbn [well_formed].
    rewrite (length_remove_nth_both sz ch i Hlen), Nat.eqb_refl.
    cbn [andb]. apply forallb_remove_nth. exact Hch.
  - rewrite delete_later_deeper in Hd.
    destruct (nth_error ch i) as [child |] eqn:Hi; [| discriminate].
    destruct (delete_later (j :: rest') child) as [child' |] eqn:Hr;
      [| discriminate].
    injection Hd as <-. cbn [well_formed].
    rewrite length_set_nth, Hlen, Nat.eqb_refl. cbn [andb].
    apply forallb_set_nth; [exact Hch |].
    apply (IH child child'); [| exact Hr].
    exact (nth_error_forallb _ _ _ _ Hch Hi).
Qed.

Lemma apply_edit_well_formed (e : edit) (root : SplitPaneWidget) :
  well_formed root = true -> well_formed (fst (apply_edit e root)) = true.
Proof.
  intros Hw. destruct e as [w h o path | name path | path];
    cbn [apply_edit].
  - unfold split_at.
    destruct (call_at (fun self => (tt, split w h o self)) path root)
      as [[u [root' | x]] |] eqn:Hc; cbn [option_map snd fst];
      try exact Hw.
    apply (call_at_well_formed (fun self => (tt, split w h o self)) path)
      with (root := root) (e := u);
      [| exact Hw | exact Hc].
    intros node e node' Hs Hn. destruct node; cbn in Hs.
    + injection Hs as _ <-. destruct o; reflexivity.
    + injection Hs as _ <-. exact Hn.
  - unfold set_pane_content_at.
    destruct (call_at (set_pane_content (JStr "app") name) path root)
      as [[started [root' | x]] |] eqn:Hc; cbn [fst]; try exact Hw.
    apply (call_at_well_formed (set_pane_content (JStr "app") name) path)
      with (root := root) (e := started);
      [| exact Hw | exact Hc].
    intros node e node' Hs Hn.
    destruct (set_pane_content_well_formed (JStr "app") name node Hn)
      as (s' & n' & Hs' & Hw').
    rewrite Hs in Hs'. injection Hs' as _ <-. exact Hw'.
  - unfold close_pane. destruct path as [| i rest]; [exact Hw |].
    destruct (delete_later (i :: rest) root) as [root' |] eqn:Hd;
      cbn [option_map fst]; [| exact Hw].
    exact (delete_later_well_formed _ _ _ Hw Hd).
Qed.

Lemma apply_edits_well_formed (edits : list edit) :
  forall root,
    well_formed root = true ->
    well_formed (fst (apply_edits edits root)) = true.
Proof.
  induction edits as [| e edits IH]; intros root Hw; [exact Hw |].
  cbn [apply_edits].
  pose proof (apply_edit_well_formed e root Hw) as H1.
  destruct (apply_edit e root) as [root1 started1]. cbn [fst] in H1.
  specialize (IH root1 H1).
  destruct (apply_edits edits root1) as [root2 started2]. exact IH.
Qed.

(** X6.  Splitting panes, launching apps in panes and closing panes, in
    any order and number and at any place, keep a well-formed tree
    well-formed; so every tree reached from a new pane or from a loaded
    workspace is saved and loaded back as it is. *)
Theorem edited_tree_round_trips (edits : list edit)
    (root : SplitPaneWidget) :
  well_formed root = true ->
  let root' := fst (apply_edits edits root) in
  well_formed root' = true
  /\ create_from_state (get_state root')
     = (map Popen (app_names root'), Ok (Some root')).
Proof.
  intros Hw root'.
  pose proof (apply_edits_well_formed edits root Hw) as Hw'.
  split; [exact Hw' | exact (create_get_state_well_formed _ Hw')].
Qed.

Lemma edited_tree_round_trips_witness :
  fst (apply_edits
         [Edit_split 800 600 Horizontal [];
          Edit_launch (JStr "xterm") [0%nat];
          Edit_split 400 600 Vertical [1%nat];
          Edit_close [1%nat; 0%nat];
          Edit_close []] new_pane)
  = Splitter Horizontal
      [Pane (app_content (JStr "xterm"));
       Splitter Vertical [new_pane] [300%Z]]
      [400%Z; 400%Z]
  /\ create_from_state
       (get_state (Splitter Horizontal
                     [Pane (app_content (JStr "xterm"));
                      Splitter Vertical [new_pane] [300%Z]]
                     [400%Z; 400%Z]))
     = ([Popen (JStr "xterm")],
        Ok (Some (Splitter Horizontal
                    [Pane (app_content (JStr "xterm"));
                     Splitter Vertical [new_pane] [300%Z]]
                    [400%Z; 400%Z]))).
Proof.
  split; [reflexivity |].
  apply (edited_tree_round_trips
           [Edit_split 800 600 Horizontal [];
            Edit_launch (JStr "xterm") [0%nat];
            Edit_split 400 600 Vertical [1%nat];
            Edit_close [1%nat; 0%nat];
            Edit_close []] new_pane).
  reflexivity.
Defined.

(** ** The number of panes *)

Lemma list_sum_set_nth {A} (f : A -> nat) (l : list A) (i : nat) (a x : A) :
  nth_error l i = Some x ->
  list_sum (map f (set_nth i a l)) + f x = list_sum (map f l) + f a.
Proof.
  revert i. induction l as [| b l IH]; intros [| i] H; try discriminate.
  - cbn in H. injection H as ->. unfold list_sum. cbn. lia.
  - cbn in H. specialize (IH i H). unfold list_sum in *.
    cbn [set_nth map fold_right]. lia.
Qed.

Lemma list_sum_remove_nth {A} (f : A -> nat) (l : list A) (i : nat) (x : A) :
  nth_error l i = Some x ->
  list_sum (map f (remove_nth i l)) + f x = list_sum (map f l).
Proof.
  revert i. induction l as [| b l IH]; intros [| i] H; try discriminate.
  - cbn in H. injection H as ->. unfold list_sum. cbn. lia.
  - cbn in H. specialize (IH i H). unfold list_sum in *.
    cbn [remove_nth map fold_right]. lia.
Qed.

Lemma call_at_count {E}
    (method : SplitPaneWidget -> E * result SplitPaneWidget) (path : Path) :
  forall root node node' e,
    widget_at path root = Some node ->
    method node = (e, Ok node') ->
    exists root',
      call_at method path root = Some (e, Ok root')
      /\ count_panes root' + count_panes node
         = count_panes root + count_panes node'.
Proof.
  induction path as [| i rest IH]; intros root node node' e Hw Hm.
  - cbn in Hw. injection Hw as ->. cbn. rewrite Hm.
    exists node'. split; [reflexivity | lia].
  - cbn [widget_at] in Hw.
    destruct root as [c | o ch sz]; [discriminate |].
    destruct (nth_error ch i) as [child |] eqn:Hi; [| discriminate].
    destruct (IH child node node' e Hw Hm) as (child' & Hc & Hn).
    cbn [call_at]. rewrite Hi, Hc. eexists. split; [reflexivity |].
    cbn [count_panes].
    pose proof (list_sum_set_nth count_panes ch i child' child Hi). lia.
Qed.

Lemma delete_later_count (path : Path) :
  forall root x,
    path <> [] ->
    widget_at path root = Some x ->
    exists root',
      delete_later path root = Some root'
      /\ count_panes root' + count_panes x = count_panes root.
Proof.
  induction path as [| i rest IH]; intros root x Hne Hw; [congruence |].
  cbn [widget_at] in Hw.
  destruct root as [c | o ch sz]; [discriminate |].
  destruct (nth_error ch i) as [child |] eqn:Hi; [| discriminate].
  destruct rest as [| j rest'].
  - cbn in Hw. injection Hw as <-. cbn [delete_later].
    assert (Hlt : (i <? List.length ch)%nat = true).
    { apply Nat.ltb_lt. apply nth_error_Some. congruence. }
    rewrite Hlt. eexists. split; [reflexivity |].
    cbn [count_panes]. exact (list_sum_remove_nth count_panes ch i child Hi).
  - destruct (IH child x ltac:(discriminate) Hw) as (child' & Hd & Hn).
    rewrite delete_later_deeper, Hi, Hd.
    eexists. split; [reflexivity |]. cbn [count_panes].
    pose proof (list_sum_set_nth count_panes ch i child' child Hi). lia.
Qed.

(** X7.  Splitting a pane adds exactly one pane to the whole tree, and
    closing a pane that is not the root takes exactly one pane away;
    nothing else appears or disappears. *)
Theorem pane_count_after_edit (w h : Z) (o : Orientation) (path : Path)
    (root : SplitPaneWidget) (c : ContentWidget) :
  widget_at path root = Some (Pane c) ->
  (exists root',
      split_at w h o path root = Some (Ok root')
      /\ count_panes root' = S (count_panes root))
  /\ (path <> [] ->
      exists root',
        close_pane path root = Some (Ok root')
        /\ S (count_panes root') = count_panes root).
Proof.
  intros Hw. split.
  - destruct (call_at_count (fun self => (tt, split w h o self)) path
                root (Pane c) _ tt Hw eq_refl) as (root' & Hc & Hn).
    exists root'. unfold split_at. rewrite Hc. split; [reflexivity |].
    destruct o; cbn in Hn; lia.
  - intros Hne.
    destruct (delete_later_count path root (Pane c) Hne Hw)
      as (root' & Hd & Hn).
    exists root'. unfold close_pane. destruct path; [congruence |].
    rewrite Hd. split; [reflexivity |]. cbn in Hn. lia.
Qed.

Lemma pane_count_after_edit_witness :
  (exists root',
      split_at 400 300 Vertical [1; 0]%nat sample_tree = Some (Ok root')
      /\ count_panes root' = S (count_panes sample_tree))
  /\ exists root',
       close_pane [1; 0]%nat sample_tree = Some (Ok root')
       /\ S (count_panes root') = count_panes sample_tree.
Proof.
  destruct (pane_count_after_edit 400 300 Vertical [1; 0]%nat sample_tree
              default_content eq_refl) as [Hs Hc].
  split; [exact Hs | apply Hc; discriminate].
Defined.

(** ** Every sequence of mouse events *)

Lemma handle_cases (ev : MouseEvent) (self : PaneWidget) :
  exists self' calls,
    handle ev self = Ok (self', calls)
    /\ get_handle_rect self' = get_handle_rect self
    /\ (gesture_consistent self -> gesture_consistent self')
    /\ ((calls = [] /\ pane self' = pane self)
        \/ (calls = [Call_open_pane_options]
            /\ pane self' = pane self
            /\ is_split (pane self) = false)
        \/ (exists o,
              calls = [Call_split o]
              /\ is_split (pane self) = false
              /\ is_split (pane self') = true)).
Proof.
  unfold gesture_consistent.
  destruct ev as [pos button | pos | pos]; cbn [handle].
  - unfold mousePressEvent.
    destruct (is_split (pane self)) eqn:Hs; cbn [negb andb].
    + exists self, []. split; [reflexivity |]. split; [reflexivity |].
      split; [try rewrite Hs; tauto | left; split; reflexivity].
    + destruct (contains (get_handle_rect self) pos).
      * destruct button.
        -- eexists _, _. split; [reflexivity |]. split; [reflexivity |].
           cbn. split; [intros _; split; [reflexivity | intros _; exact Hs] |].
           left. split; reflexivity.
        -- exists self, []. split; [reflexivity |]. split; [reflexivity |].
           split; [try rewrite Hs; tauto | left; split; reflexivity].
      * exists self, []. split; [reflexivity |]. split; [reflexivity |].
        split; [try rewrite Hs; tauto | left; split; reflexivity].
  - unfold mouseMoveEvent.
    destruct (dragging_handle self) eqn:Hd.
    + destruct (is_split (pane self)) eqn:Hs; cbn [negb andb].
      * eexists _, _. split; [reflexivity |]. split; [reflexivity |].
        cbn. split.
        -- intros [Hg Hn]. specialize (Hn eq_refl). congruence.
        -- left. split; reflexivity.
      * destruct ((Z.abs (px (point_sub pos (drag_start_pos self)))
                   >? split_threshold self)%Z
                  || (Z.abs (py (point_sub pos (drag_start_pos self)))
                      >? split_threshold self)%Z).
        -- destruct (pane self) as [c |] eqn:Hp; [| discriminate].
           cbn [split]. eexists _, _. split; [reflexivity |].
           split; [reflexivity |]. cbn. split.
           ++ intros _. split; [reflexivity | discriminate].
           ++ right. right. eexists. split; [reflexivity |].
              split; reflexivity.
        -- eexists _, _. split; [reflexivity |]. split; [reflexivity |].
           cbn. split.
           ++ intros [Hg _]. split; [exact Hg | intros _; exact Hs].
           ++ left. split; reflexivity.
    + destruct (negb (is_split (pane self))
                && contains (get_handle_rect self) pos);
        (eexists _, _; split; [reflexivity |]; split; [reflexivity |];
         cbn; split;
         [intros [Hg Hn]; split; [exact Hg | exact Hn]
         | left; split; reflexivity]).
  - unfold mouseReleaseEvent.
    destruct (dragging_handle self) eqn:Hd.
    + destruct (is_split (pane self)) eqn:Hs; cbn [negb andb].
      * eexists _, _. split; [reflexivity |]. split; [reflexivity |].
        cbn. split; [intros _; split; [reflexivity | discriminate] |].
        left. split; reflexivity.
      * destruct ((Z.abs (px (point_sub pos (drag_start_pos self)))
                   <? split_threshold self)%Z
                  && (Z.abs (py (point_sub pos (drag_start_pos self)))
                      <? split_threshold self)%Z);
          (eexists _, _; split; [reflexivity |]; split; [reflexivity |];
           cbn; split; [intros _; split; [reflexivity | discriminate] |]).
        -- right. left. split; [reflexivity |]. split; reflexivity.
        -- left. split; reflexivity.
    + exists self, []. split; [reflexivity |]. split; [reflexivity |].
      split; [rewrite Hd; tauto | left; split; reflexivity].
Qed.

Lemma put_at_ok (p : SplitPaneWidget) (path : Path)
    (root node : SplitPaneWidget) :
  widget_at path root = Some node ->
  exists root',
    put_at p path root = Some root' /\ widget_at path root' = Some p.
Proof.
  intros Hw.
  destruct (call_at_ok (fun _ => (tt, Ok p)) path root node p tt Hw eq_refl)
    as (root' & Hc & Hw' & _).
  exists root'. unfold put_at. rewrite Hc. split; [reflexivity | exact Hw'].
Qed.

Lemma delete_later_some (path : Path) :
  forall (j : nat) (root node : SplitPaneWidget),
    widget_at (j :: path) root = Some node ->
    exists root', delete_later (j :: path) root = Some root'.
Proof.
  induction path as [| k rest IH]; intros j root node Hw;
    cbn [widget_at] in Hw;
    (destruct root as [c | o ch sz]; [discriminate |]);
    destruct (nth_error ch j) as [child |] eqn:Hj; try discriminate.
  - cbn [delete_later].
    assert (Hlt : (j < List.length ch)%nat).
    { apply nth_error_Some. rewrite Hj. discriminate. }
    apply Nat.ltb_lt in Hlt. rewrite Hlt. eexists. reflexivity.
  - rewrite delete_later_deeper, Hj.
    destruct (IH k child node Hw) as (child' & ->).
    eexists. reflexivity.
Qed.

Lemma set_pane_content_returns (content_type app_name : json)
    (self : SplitPaneWidget) :
  exists started node,
    set_pane_content content_type app_name self = (started, Ok node).
Proof.
  destruct self as [c | o ch sz]; unfold set_pane_content;
    [| eexists _, _; reflexivity].
  destruct (is_str content_type "app" && truthy app_name);
    [| eexists _, _; reflexivity].
  unfold launch_app, app_content. cbn.
  destruct (truthy app_name); eexists _, _; reflexivity.
Qed.

(** The handler in the tree leaves the fields of the gesture as
    [mouseReleaseEvent] does, and runs the dialog exactly when that one
    calls [open_pane_options]. *)
Lemma release_in_tree_calls (clicks : list click) (pos : QPoint)
    (path : Path) (root : SplitPaneWidget) (self : PaneWidget) :
  exists self1 calls,
    mouseReleaseEvent pos self = Ok (self1, calls)
    /\ ((calls = []
         /\ mouseReleaseEvent_in_tree clicks pos path root self
            = Some ([], Returned self1 root))
        \/ (calls = [Call_open_pane_options]
            /\ mouseReleaseEvent_in_tree clicks pos path root self
               = match open_pane_options clicks path root with
                 | Some (started, Ok root') =>
                     if chooses_close clicks
                     then Some (started, Deleted root')
                     else
                       match widget_at path root' with
                       | Some p =>
                           Some (started, Returned (with_pane p self1) root')
                       | None => None
                       end
                 | Some (started, Raise e) =>
                     Some (started, Raised e self1 root)
                 | None => None
                 end)).
Proof.
  unfold mouseReleaseEvent, mouseReleaseEvent_in_tree.
  destruct (dragging_handle self).
  - cbv zeta.
    destruct (negb (is_split (pane self))
              && (Z.abs (px (point_sub pos (drag_start_pos self)))
                  <? split_threshold self)%Z
              && (Z.abs (py (point_sub pos (drag_start_pos self)))
                  <? split_threshold self)%Z);
      eexists _, _; (split; [reflexivity |]).
    + right. split; reflexivity.
    + left. split; reflexivity.
  - eexists _, _. split; [reflexivity |]. left. split; reflexivity.
Qed.

(** What one event does to a widget in the tree. *)
Lemma handle_in_tree_cases (clicks : list click) (ev : MouseEvent)
    (path : Path) (root : SplitPaneWidget) (self : PaneWidget) :
  gesture_consistent self ->
  widget_at path root = Some (pane self) ->
  exists started after,
    handle_in_tree clicks ev path root self = Some (started, after)
    /\ match after with
       | Returned self' root' =>
           gesture_consistent self'
           /\ widget_at path root' = Some (pane self')
       | Deleted _ =>
           path <> []
           /\ chooses_close clicks = true
           /\ exists pos, ev = Release pos
       | Raised e self' root' =>
           e = TypeError /\ path = []
           /\ gesture_consistent self'
           /\ dragging_handle self' = false
           /\ root' = root
           /\ chooses_close clicks = true
           /\ exists pos, ev = Release pos
       end.
Proof.
  intros Hc Hw.
  assert (Hother :
    forall ev', handle_in_tree clicks ev' path root self
                = match handle ev' self with
                  | Raise e => Some ([], Raised e self root)
                  | Ok (self', _) =>
                      match put_at (pane self') path root with
                      | Some root' => Some ([], Returned self' root')
                      | None => None
                      end
                  end ->
    exists started after,
      handle_in_tree clicks ev' path root self = Some (started, after)
      /\ match after with
         | Returned self' root' =>
             gesture_consistent self'
             /\ widget_at path root' = Some (pane self')
         | Deleted _ =>
             path <> []
             /\ chooses_close clicks = true
             /\ exists pos, ev' = Release pos
         | Raised e self' root' =>
             e = TypeError /\ path = []
             /\ gesture_consistent self'
             /\ dragging_handle self' = false
             /\ root' = root
             /\ chooses_close clicks = true
             /\ exists pos, ev' = Release pos
         end).
  { intros ev' E. rewrite E.
    destruct (handle_cases ev' self) as (self1 & calls1 & H1 & _ & Hc1 & _).
    rewrite H1.
    destruct (put_at_ok (pane self1) path root (pane self) Hw)
      as (root' & Hp & Hw').
    rewrite Hp. eexists _, _. split; [reflexivity |].
    split; [exact (Hc1 Hc) | exact Hw']. }
  destruct ev as [pos button | pos | pos];
    [apply Hother; reflexivity | apply Hother; reflexivity |].
  clear Hother. cbn [handle_in_tree]. unfold mouseReleaseEvent_in_tree.
  destruct (dragging_handle self) eqn:Hd.
  2:{ eexists _, _. split; [reflexivity |]. split; [exact Hc | exact Hw]. }
  cbv zeta.
  destruct (negb (is_split (pane self))
            && (Z.abs (px (point_sub pos (drag_start_pos self)))
                <? split_threshold self)%Z
            && (Z.abs (py (point_sub pos (drag_start_pos self)))
                <? split_threshold self)%Z) eqn:Hclick.
  2:{ eexists _, _. split; [reflexivity |]. cbn.
      split; [split; [reflexivity | discriminate] | exact Hw]. }
  destruct (pane self) as [c | o ch sz] eqn:Hp; [| discriminate].
  unfold open_pane_options, chooses_close. rewrite Hw.
  destruct (exec_ clicks init_dialog) as [[|] dialog].
  2:{ unfold ret. cbn beta iota. rewrite Hw. eexists _, _.
      split; [reflexivity |]. cbn.
      split; [split; [reflexivity | discriminate] | exact Hw]. }
  destruct (dialog_result dialog) as [[name |] |].
  - destruct (negb (String.eqb name "")).
    + unfold set_pane_content_at.
      destruct (set_pane_content_returns (JStr "app") (JStr name) (Pane c))
        as (started & node & Hs).
      destruct (call_at_ok (set_pane_content (JStr "app") (JStr name))
                  path root (Pane c) node started Hw Hs)
        as (root' & Hcall & Hw' & _).
      rewrite Hcall. cbn beta iota. rewrite Hw'. eexists _, _. split; [reflexivity |]. cbn.
      split; [split; [reflexivity | discriminate] | exact Hw'].
    + unfold ret. cbn beta iota. rewrite Hw. eexists _, _.
      split; [reflexivity |]. cbn.
      split; [split; [reflexivity | discriminate] | exact Hw].
  - destruct path as [| j rest].
    + cbn [close_pane option_map lift]. eexists _, _.
      split; [reflexivity |]. cbn.
      repeat split; try reflexivity; try discriminate.
      exists pos. reflexivity.
    + destruct (delete_later_some rest j root (Pane c) Hw) as (root' & Hdel).
      cbn [close_pane]. rewrite Hdel. cbn [option_map lift].
      eexists _, _. split; [reflexivity |].
      split; [discriminate |]. split; [reflexivity |].
      exists pos. reflexivity.
  - unfold ret. cbn beta iota. rewrite Hw. eexists _, _.
      split; [reflexivity |]. cbn.
    split; [split; [reflexivity | discriminate] | exact Hw].
Qed.

(** X8.  The mouse handlers of a widget in the tree, the options dialog
    run where the release handler opens it.  Every sequence of events has
    an outcome, and a handler raises in one case only: a release that
    opens the dialog of the root pane, the dialog being accepted with
    [Close Pane]; the exception is the [TypeError] of [close_pane].  The
    gesture is consistent after every event, also when the handler has
    raised, since the drag was ended and the mouse released before the
    dialog opened; a widget is deleted only below a splitter and only by
    [Close Pane]. *)
Theorem gesture_stays_consistent (events : list (MouseEvent * list click))
    (path : Path) (root : SplitPaneWidget) (self : PaneWidget) :
  gesture_consistent self ->
  widget_at path root = Some (pane self) ->
  exists started after,
    deliver_in_tree events path root self = Some (started, after)
    /\ match after with
       | Returned self' root' =>
           gesture_consistent self'
           /\ widget_at path root' = Some (pane self')
       | Deleted _ =>
           path <> []
           /\ exists pos clicks,
                In (Release pos, clicks) events
                /\ chooses_close clicks = true
       | Raised e self' _ =>
           e = TypeError /\ path = []
           /\ gesture_consistent self'
           /\ dragging_handle self' = false
           /\ exists pos clicks,
                In (Release pos, clicks) events
                /\ chooses_close clicks = true
       end.
Proof.
  revert root self.
  induction events as [| [ev clicks] events IH]; intros root self Hc Hw.
  - eexists _, _. split; [reflexivity |]. split; [exact Hc | exact Hw].
  - destruct (handle_in_tree_cases clicks ev path root self Hc Hw)
      as (started1 & after1 & H1 & Hafter).
    cbn [deliver_in_tree]. rewrite H1.
    destruct after1 as [self1 root1 | root1 | e self1 root1].
    + destruct Hafter as [Hc1 Hw1].
      destruct (IH root1 self1 Hc1 Hw1) as (started' & after & H' & Hlast).
      rewrite H'. eexists _, _. split; [reflexivity |].
      destruct after as [self2 root2 | root2 | e self2 root2].
      * exact Hlast.
      * destruct Hlast as (Hp & pos & cl & Hin & Hcl).
        split; [exact Hp |]. exists pos, cl.
        split; [right; exact Hin | exact Hcl].
      * destruct Hlast as (He & Hp & Hc2 & Hd2 & pos & cl & Hin & Hcl).
        repeat (split; [assumption |]). exists pos, cl.
        split; [right; exact Hin | exact Hcl].
    + destruct Hafter as (Hp & Hcl & pos & ->).
      eexists _, _. split; [reflexivity |]. split; [exact Hp |].
      exists pos, clicks. split; [left; reflexivity | exact Hcl].
    + destruct Hafter as (He & Hp & Hc1 & Hd1 & _ & Hcl & pos & ->).
      eexists _, _. split; [reflexivity |].
      repeat (split; [assumption |]).
      exists pos, clicks. split; [left; reflexivity | exact Hcl].
Qed.

Lemma gesture_stays_consistent_witness :
  exists started after,
    deliver_in_tree
      [(Move (mkPoint 3 3), []);
       (Press (mkPoint 790 590) LeftButton, []);
       (Move (mkPoint 795 585), []);
       (Release (mkPoint 795 585),
        [Click_launch (App_accepted " xterm ")]);
       (Press (mkPoint 790 590) LeftButton, []);
       (Release (mkPoint 790 590), [Click_close]);
       (Press (mkPoint 790 590) LeftButton, []);
       (Move (mkPoint 700 590), [])]
      [1; 0]%nat sample_tree (init_widget 800 600)
    = Some (started, after)
    /\ match after with
       | Returned self' root' =>
           gesture_consistent self'
           /\ widget_at [1; 0]%nat root' = Some (pane self')
       | Deleted _ =>
           [1; 0]%nat <> []
           /\ exists pos clicks,
                In (Release pos, clicks)
                   [(Move (mkPoint 3 3), []);
                    (Press (mkPoint 790 590) LeftButton, []);
                    (Move (mkPoint 795 585), []);
                    (Release (mkPoint 795 585),
                     [Click_launch (App_accepted " xterm ")]);
                    (Press (mkPoint 790 590) LeftButton, []);
                    (Release (mkPoint 790 590), [Click_close]);
                    (Press (mkPoint 790 590) LeftButton, []);
                    (Move (mkPoint 700 590), [])]
                /\ chooses_close clicks = true
       | Raised e self' _ =>
           e = TypeError /\ [1; 0]%nat = []
           /\ gesture_consistent self'
           /\ dragging_handle self' = false
           /\ exists pos clicks,
                In (Release pos, clicks)
                   [(Move (mkPoint 3 3), []);
                    (Press (mkPoint 790 590) LeftButton, []);
                    (Move (mkPoint 795 585), []);
                    (Release (mkPoint 795 585),
                     [Click_launch (App_accepted " xterm ")]);
                    (Press (mkPoint 790 590) LeftButton, []);
                    (Release (mkPoint 790 590), [Click_close]);
                    (Press (mkPoint 790 590) LeftButton, []);
                    (Move (mkPoint 700 590), [])]
                /\ chooses_close clicks = true
       end.
Proof.
  apply (gesture_stays_consistent _ [1; 0]%nat sample_tree
           (init_widget 800 600)).
  - split; [reflexivity | discriminate].
  - reflexivity.
Defined.

(** Two runs.  Clicks on the handle of a pane below a splitter launch the
    application chosen and then close the pane, after which no event
    reaches it; a click on the handle of the root pane with [Close Pane]
    raises, the drag being ended and the mouse released. *)
Lemma release_runs_the_dialog :
  deliver_in_tree
    [(Press (mkPoint 790 590) LeftButton, []);
     (Release (mkPoint 795 585), [Click_launch (App_accepted " xterm ")]);
     (Press (mkPoint 790 590) LeftButton, []);
     (Release (mkPoint 790 590), [Click_close]);
     (Move (mkPoint 700 590), [])]
    [1; 0]%nat sample_tree (init_widget 800 600)
  = Some ([Popen (JStr "xterm")],
          Deleted
            (Splitter Horizontal
               [Pane (app_content (JStr "xterm"));
                Splitter Vertical [Pane (app_content (JStr "gedit"))]
                  [5%Z]]
               [300%Z; 500%Z]))
  /\ deliver_in_tree
       [(Press (mkPoint 790 590) LeftButton, []);
        (Release (mkPoint 790 590), [Click_close]);
        (Move (mkPoint 700 590), [])]
       [] new_pane (init_widget 800 600)
     = Some ([], Raised TypeError
                   (mkWidget new_pane 800 600 15 SPLIT_THRESHOLD false
                      (mkPoint 790 590) (mkPoint 790 590) false None)
                   new_pane).
Proof. split; reflexivity. Qed.

(** X9.  A widget splits at most once and does nothing afterwards: the
    calls that any sequence of mouse events makes are some openings of the
    pane options followed by at most one call of [split], which is the
    last call; a widget that is already split makes no call at all and
    keeps its splitter. *)
Theorem at_most_one_split (events : list MouseEvent) (self : PaneWidget) :
  exists self' n last,
    deliver events self
    = Ok (self', repeat Call_open_pane_options n ++ last)
    /\ (last = []
        \/ exists o, last = [Call_split o]
                     /\ is_split (pane self) = false
                     /\ is_split (pane self') = true)
    /\ (is_split (pane self) = true ->
        n = 0%nat /\ last = [] /\ pane self' = pane self).
Proof.
  revert self. induction events as [| ev events IH]; intros self.
  - exists self, 0%nat, []. split; [reflexivity |].
    split; [left; reflexivity | intros _; repeat split].
  - destruct (handle_cases ev self)
      as (self1 & calls1 & H1 & _ & _ & Hcases).
    destruct (IH self1) as (self' & n & last & H' & Hlast & Hsplit).
    cbn [deliver]. rewrite H1, H'.
    destruct Hcases as [[-> Hp] | [(-> & Hp & Hs) | (o & -> & Hs & Hs1)]].
    + exists self', n, last. split; [reflexivity |]. rewrite <- Hp.
      split; [exact Hlast | exact Hsplit].
    + exists self', (S n), last. split; [reflexivity |]. rewrite <- Hp.
      split; [exact Hlast |]. rewrite Hp, Hs. discriminate.
    + destruct (Hsplit Hs1) as (-> & -> & Hp').
      exists self', 0%nat, [Call_split o]. split; [reflexivity |].
      split; [| rewrite Hs; discriminate].
      right. exists o. split; [reflexivity |]. split; [exact Hs |].
      rewrite Hp'. exact Hs1.
Qed.

(** X10.  Nothing happens without a press on the handle: when the widget
    is not being dragged and no event of a sequence is a press of the left
    button inside the handle rectangle, the sequence makes no call and
    leaves the pane as it is: moves, releases, presses elsewhere and
    presses of other buttons never split a pane or open its options. *)
Theorem no_call_without_press (events : list MouseEvent)
    (self : PaneWidget) :
  dragging_handle self = false ->
  Forall (fun ev => left_press_on_handle self ev = false) events ->
  exists self',
    deliver events self = Ok (self', [])
    /\ pane self' = pane self
    /\ dragging_handle self' = false.
Proof.
  intros Hd Hall. revert self Hd Hall.
  induction events as [| ev events IH]; intros self Hd Hall.
  - exists self. repeat split. exact Hd.
  - inversion Hall as [| ev' events' Hev Hrest]; subst.
    assert (H1 : exists self1,
               handle ev self = Ok (self1, [])
               /\ pane self1 = pane self
               /\ dragging_handle self1 = false
               /\ get_handle_rect self1 = get_handle_rect self).
    { destruct ev as [pos button | pos | pos]; cbn [handle].
      - unfold mousePressEvent. cbn [left_press_on_handle] in Hev.
        destruct button.
        + rewrite Hev, andb_false_r. exists self. repeat split. exact Hd.
        + destruct (negb (is_split (pane self))
                    && contains (get_handle_rect self) pos);
            exists self; repeat split; exact Hd.
      - unfold mouseMoveEvent. rewrite Hd.
        destruct (negb (is_split (pane self))
                  && contains (get_handle_rect self) pos);
          (eexists; split; [reflexivity |]; cbn; repeat split; exact Hd).
      - unfold mouseReleaseEvent. rewrite Hd.
        exists self. repeat split. exact Hd. }
    destruct H1 as (self1 & H1 & Hp1 & Hd1 & Hr1).
    assert (Hall1 : Forall (fun ev => left_press_on_handle self1 ev = false)
                           events).
    { eapply Forall_impl; [| exact Hrest].
      intros [pos [|] | pos | pos] H; cbn in H |- *;
        try reflexivity. rewrite Hr1. exact H. }
    destruct (IH self1 Hd1 Hall1) as (self' & H' & Hp' & Hd').
    exists self'. rewrite (deliver_silent _ _ _ _ H1).
    split; [exact H' |]. split; [congruence | exact Hd'].
Qed.

Lemma no_call_without_press_witness :
  exists self',
    deliver [Move (mkPoint 790 590); Press (mkPoint 790 590) OtherButton;
             Press (mkPoint 100 100) LeftButton; Move (mkPoint 400 100);
             Release (mkPoint 400 100)]
            (init_widget 800 600)
    = Ok (self', [])
    /\ pane self' = pane (init_widget 800 600)
    /\ dragging_handle self' = false.
Proof.
  apply (no_call_without_press _ (init_widget 800 600)).
  - reflexivity.
  - repeat (constructor; [reflexivity |]). constructor.
Defined.

(** X11.  The split follows the direction of travel: when a move makes
    the widget split, the distance travelled along the axis of the split
    is itself beyond the threshold and is the larger of the two distances
    (the horizontal distance strictly larger for a horizontal split, the
    vertical one at least as large for a vertical split). *)
Theorem split_axis_beyond_threshold (pos : QPoint) (self self' : PaneWidget)
    (o : Orientation) :
  mouseMoveEvent pos self = Ok (self', [Call_split o]) ->
  let dx := Z.abs (px pos - px (drag_start_pos self)) in
  let dy := Z.abs (py pos - py (drag_start_pos self)) in
  match o with
  | Horizontal => (split_threshold self < dx /\ dy < dx)%Z
  | Vertical => (split_threshold self < dy /\ dx <= dy)%Z
  end.
Proof.
  intros H dx dy. unfold mouseMoveEvent in H.
  destruct (dragging_handle self).
  - destruct (negb (is_split (pane self))
              && ((Z.abs (px (point_sub pos (drag_start_pos self)))
                   >? split_threshold self)%Z
                  || (Z.abs (py (point_sub pos (drag_start_pos self)))
                      >? split_threshold self)%Z)) eqn:E;
      [| discriminate].
    apply andb_prop in E as [_ E]. apply orb_prop in E.
    unfold point_sub in *. cbn [px py] in *. fold dx dy in E, H.
    rewrite !Z.gtb_ltb, !Z.ltb_lt in E.
    destruct (split (width self) (height self)
                (if (dx >? dy)%Z then Horizontal else Vertical) (pane self));
      [| discriminate].
    injection H as _ Ho.
    destruct (dx >? dy)%Z eqn:G; subst o.
    + rewrite Z.gtb_ltb, Z.ltb_lt in G. lia.
    + rewrite Z.gtb_ltb, Z.ltb_ge in G. lia.
  - destruct (negb (is_split (pane self))
              && contains (get_handle_rect self) pos); discriminate.
Qed.

Lemma split_axis_beyond_threshold_witness :
  (SPLIT_THRESHOLD < Z.abs (601 - 590)
   /\ Z.abs (788 - 790) <= Z.abs (601 - 590))%Z.
Proof.
  exact (split_axis_beyond_threshold (mkPoint 788 601)
           (mkWidget new_pane 800 600 15 SPLIT_THRESHOLD true
              (mkPoint 790 590) (mkPoint 790 590) true (Some CrossCursor))
           _ Vertical eq_refl).
Defined.

(** X12.  The preview shows the split to come.  After a move within the
    threshold while the handle of a pane of non-negative size is dragged,
    [paintEvent] draws the handle and exactly one line: a vertical line
    over the full height when going on would split horizontally, a
    horizontal line over the full width otherwise, at a position inside
    the widget. *)
Theorem preview_follows_drag (pos : QPoint) (self : PaneWidget) :
  dragging_handle self = true ->
  is_split (pane self) = false ->
  (drag_distance (drag_start_pos self) pos <= split_threshold self)%Z ->
  (0 <= width self)%Z ->
  (0 <= height self)%Z ->
  exists self' c,
    mouseMoveEvent pos self = Ok (self', [])
    /\ paintEvent self'
       = [Draw_polygon
            [mkPoint (width self) (height self - split_handle_size self);
             mkPoint (width self) (height self);
             mkPoint (width self - split_handle_size self) (height self)];
          match drag_orientation (drag_start_pos self) pos with
          | Horizontal => Draw_line c 0 c (height self)
          | Vertical => Draw_line 0 c (width self) c
          end]
    /\ (0 <= c
        <= match drag_orientation (drag_start_pos self) pos with
           | Horizontal => width self
           | Vertical => height self
           end)%Z.
Proof.
  intros Hd Hs Hb Hw Hh.
  unfold mouseMoveEvent.
  rewrite Hd, Hs, (below_threshold _ _ _ Hb). cbn [negb andb].
  unfold drag_orientation.
  eexists. 
  destruct (Z.abs (px pos - px (drag_start_pos self))
            >? Z.abs (py pos - py (drag_start_pos self)))%Z eqn:G.
  - eexists. split; [reflexivity |]. unfold paintEvent.
    cbn [pane width height split_handle_size dragging_handle
         drag_start_pos current_drag_pos].
    rewrite Hs. cbn [negb andb app]. unfold point_sub. cbn [px py].
    rewrite G. split; [reflexivity | lia].
  - eexists. split; [reflexivity |]. unfold paintEvent.
    cbn [pane width height split_handle_size dragging_handle
         drag_start_pos current_drag_pos].
    rewrite Hs. cbn [negb andb app]. unfold point_sub. cbn [px py].
    rewrite G. split; [reflexivity | lia].
Qed.

Lemma preview_follows_drag_witness :
  exists self' c,
    mouseMoveEvent (mkPoint 783 592)
      (mkWidget new_pane 800 600 15 SPLIT_THRESHOLD true
         (mkPoint 790 590) (mkPoint 790 590) true (Some CrossCursor))
    = Ok (self', [])
    /\ paintEvent self'
       = [Draw_polygon [mkPoint 800 (600 - 15); mkPoint 800 600;
                        mkPoint (800 - 15) 600];
          Draw_line c 0 c 600]
    /\ (0 <= c <= 800)%Z.
Proof.
  apply (preview_follows_drag (mkPoint 783 592)
           (mkWidget new_pane 800 600 15 SPLIT_THRESHOLD true
              (mkPoint 790 590) (mkPoint 790 590) true
              (Some CrossCursor))).
  - reflexivity.
  - reflexivity.
  - vm_compute. discriminate.
  - vm_compute. discriminate.
  - vm_compute. discriminate.
Defined.

(** ** The options dialog *)

Lemma rstrip_idempotent (s : string) : Str.rstrip (Str.rstrip s) = Str.rstrip s.
Proof.
  induction s as [| c s IH]; [reflexivity |].
  cbn [Str.rstrip]. destruct (Str.rstrip s) as [| a t] eqn:E.
  - destruct (Str.isspace c) eqn:Hc; [reflexivity |].
    cbn [Str.rstrip]. rewrite Hc. reflexivity.
  - change (Str.rstrip (String c (String a t)))
      with (match Str.rstrip (String a t) with
            | EmptyString =>
                if Str.isspace c then EmptyString else String c EmptyString
            | u => String c u
            end).
    rewrite IH. reflexivity.
Qed.

Lemma lstrip_head (s : string) :
  lstrip s = EmptyString
  \/ exists c t, lstrip s = String c t /\ Str.isspace c = false.
Proof.
  induction s as [| c s IH]; [left; reflexivity |].
  cbn [lstrip]. destruct (Str.isspace c) eqn:Hc; [exact IH |].
  right. exists c, s. split; [reflexivity | exact Hc].
Qed.

Lemma rstrip_head (c : ascii) (t : string) :
  Str.isspace c = false -> exists u, Str.rstrip (String c t) = String c u.
Proof.
  intros Hc. cbn [Str.rstrip]. destruct (Str.rstrip t).
  - rewrite Hc. eexists. reflexivity.
  - eexists. reflexivity.
Qed.

Lemma strip_head (s : string) :
  strip s = EmptyString
  \/ exists c t, strip s = String c t /\ Str.isspace c = false.
Proof.
  unfold strip. destruct (lstrip_head s) as [-> | (c & t & -> & Hc)].
  - left. reflexivity.
  - right. destruct (rstrip_head c t Hc) as (u & ->).
    exists c, u. split; [reflexivity | exact Hc].
Qed.

Lemma strip_idempotent (s : string) : strip (strip s) = strip s.
Proof.
  assert (Hl : lstrip (strip s) = strip s).
  { destruct (strip_head s) as [-> | (c & t & -> & Hc)]; [reflexivity |].
    cbn [lstrip]. rewrite Hc. reflexivity. }
  unfold strip at 1. rewrite Hl. unfold strip. apply rstrip_idempotent.
Qed.

Lemma exec_result (clicks : list click) :
  forall self code dialog name,
    (forall n, dialog_result self = Some (Action_launch n) ->
               n <> "" /\ strip n = n) ->
    exec_ clicks self = (code, dialog) ->
    dialog_result dialog = Some (Action_launch name) ->
    name <> "" /\ strip name = name.
Proof.
  induction clicks as [| c clicks IH]; intros self code dialog name Hs He Hr.
  - cbn in He. destruct (dialog_done self); injection He as _ <-;
      exact (Hs _ Hr).
  - cbn [exec_] in He. destruct (dialog_done self).
    + injection He as _ <-. exact (Hs _ Hr).
    + apply (IH (on_click c self) code dialog name); [| exact He | exact Hr].
      intros n Hn. destruct c as [[| text] | |]; cbn in Hn.
      * exact (Hs _ Hn).
      * unfold get_app_name in Hn.
        destruct (String.eqb (strip text) "") eqn:E; cbn in Hn.
        -- exact (Hs _ Hn).
        -- injection Hn as <-. apply String.eqb_neq in E.
           split; [exact E | apply strip_idempotent].
      * discriminate.
      * exact (Hs _ Hn).
Qed.

Lemma call_at_effect {E}
    (method : SplitPaneWidget -> E * result SplitPaneWidget) (path : Path) :
  forall root e r,
    call_at method path root = Some (e, r) ->
    exists node, widget_at path root = Some node /\ fst (method node) = e.
Proof.
  induction path as [| i rest IH]; intros root e r H.
  - cbn in H. injection H as H. exists root. split; [reflexivity |].
    rewrite H. reflexivity.
  - cbn [call_at] in H. destruct root as [c | o ch sz]; [discriminate |].
    destruct (nth_error ch i) as [child |] eqn:Hi; [| discriminate].
    destruct (call_at method rest child) as [[e' r'] |] eqn:Hc;
      [| discriminate].
    destruct (IH child e' r' Hc) as (node & Hw & He).
    exists node. cbn [widget_at]. rewrite Hi. split; [exact Hw |].
    destruct r'; injection H as <- _; exact He.
Qed.

(** X13.  Whatever is clicked in the options dialog, [open_pane_options]
    starts at most one application, and only under a name that is not
    empty and has no white space at either end; a name of white space only
    is never launched. *)
Theorem options_launch_stripped_name (clicks : list click) (path : Path)
    (root : SplitPaneWidget) (started : list effect)
    (r : result SplitPaneWidget) :
  open_pane_options clicks path root = Some (started, r) ->
  started = []
  \/ exists name,
       started = [Popen (JStr name)] /\ name <> "" /\ strip name = name.
Proof.
  unfold open_pane_options. intros H.
  destruct (widget_at path root) as [node |]; [| discriminate].
  destruct (exec_ clicks init_dialog) as [code dialog] eqn:He.
  destruct code.
  - destruct (dialog_result dialog) as [[name |] |] eqn:Hr.
    + destruct (exec_result clicks init_dialog Accepted dialog name
                  ltac:(discriminate) He Hr) as [Hne Hst].
      destruct (negb (String.eqb name "")).
      * unfold set_pane_content_at in H.
        destruct (call_at_effect _ _ _ _ _ H) as (n & _ & Hn).
        destruct n as [c | o ch sz]; cbn in Hn.
        -- apply String.eqb_neq in Hne. unfold launch_app in Hn.
           cbn in Hn. rewrite Hne in Hn. cbn in Hn.
           right. exists name. rewrite <- Hn.
           split; [reflexivity |]. split; [| exact Hst].
           apply String.eqb_neq. exact Hne.
        -- left. symmetry. exact Hn.
      * injection H as <- _. left. reflexivity.
    + destruct (close_pane path root); [| discriminate].
      injection H as <- _. left. reflexivity.
    + injection H as <- _. left. reflexivity.
  - injection H as <- _. left. reflexivity.
Qed.

Lemma options_launch_stripped_name_witness :
  [Popen (JStr "xterm -e top")] = []
  \/ exists name,
       [Popen (JStr "xterm -e top")] = [Popen (JStr name)]
       /\ name <> "" /\ strip name = name.
Proof.
  apply (options_launch_stripped_name
           [Click_launch (App_accepted "   ");
            Click_launch (App_accepted "  xterm -e top ");
            Click_close]
           [0%nat] two_panes [Popen (JStr "xterm -e top")]
           (Ok (Splitter Horizontal
                  [Pane (app_content (JStr "xterm -e top")); new_pane]
                  [1%Z; 1%Z]))).
  reflexivity.
Defined.

Lemma exec_done (clicks : list click) (self : PaneOptionsDialog)
    (code : dialog_code) :
  dialog_done self = Some code -> exec_ clicks self = (code, self).
Proof. intros H. destruct clicks; cbn; rewrite H; reflexivity. Qed.

Lemma exec_undecided (blanks rest : list click) (self : PaneOptionsDialog) :
  dialog_done self = None ->
  forallb undecided blanks = true ->
  exec_ (blanks ++ rest) self = exec_ rest self.
Proof.
  intros Hd. induction blanks as [| c blanks IH]; intros Hb; [reflexivity |].
  cbn [forallb] in Hb. apply andb_prop in Hb as [Hc Hb].
  cbn [app exec_]. rewrite Hd.
  assert (Hsame : on_click c self = self).
  { destruct c as [[| text] | |]; try discriminate; [reflexivity |].
    cbn in Hc |- *. unfold get_app_name. rewrite Hc. reflexivity. }
  rewrite Hsame. exact (IH Hb).
Qed.

(** X14.  Launching from the options dialog: after any number of clicks
    that leave the dialog open (application dialogs cancelled or accepted
    with white space only), accepting a text with a visible character
    starts the application named by the stripped text, once, and the pane
    becomes an app pane under that name; later clicks change nothing. *)
Theorem options_launch_in_pane (blanks rest : list click) (text : string)
    (path : Path) (root : SplitPaneWidget) (c : ContentWidget) :
  widget_at path root = Some (Pane c) ->
  forallb undecided blanks = true ->
  strip text <> "" ->
  exists root',
    open_pane_options (blanks ++ Click_launch (App_accepted text) :: rest)
      path root
    = Some ([Popen (JStr (strip text))], Ok root')
    /\ widget_at path root'
       = Some (Pane (app_content (JStr (strip text)))).
Proof.
  intros Hw Hb Hne. unfold open_pane_options. rewrite Hw.
  rewrite (exec_undecided blanks _ init_dialog eq_refl Hb).
  apply String.eqb_neq in Hne.
  cbn [exec_ init_dialog dialog_done on_click on_launch_clicked].
  unfold get_app_name. rewrite Hne. cbn [negb].
  rewrite (exec_done rest
             {| dialog_result := Some (Action_launch (strip text));
                dialog_done := Some Accepted |} Accepted eq_refl).
  cbn [dialog_result]. rewrite Hne. cbn [negb].
  unfold set_pane_content_at.
  destruct (call_at_ok (set_pane_content (JStr "app") (JStr (strip text)))
              path root (Pane c)
              (Pane (app_content (JStr (strip text))))
              [Popen (JStr (strip text))] Hw)
    as (root' & Hc & Hw' & _).
  { unfold set_pane_content, launch_app. cbn. rewrite Hne. reflexivity. }
  exists root'. split; [exact Hc | exact Hw'].
Qed.

Lemma options_launch_in_pane_witness :
  exists root',
    open_pane_options
      ([Click_launch App_rejected; Click_launch (App_accepted "  ")]
       ++ Click_launch (App_accepted " gedit ") :: [Click_cancel])
      [1; 0]%nat sample_tree
    = Some ([Popen (JStr (strip " gedit "))], Ok root')
    /\ widget_at [1; 0]%nat root'
       = Some (Pane (app_content (JStr (strip " gedit ")))).
Proof.
  apply (options_launch_in_pane
           [Click_launch App_rejected; Click_launch (App_accepted "  ")]
           [Click_cancel] " gedit " [1; 0]%nat sample_tree
           default_content).
  - reflexivity.
  - reflexivity.
  - discriminate.
Defined.

(** X15.  Leaving the options dialog without a choice changes nothing:
    when every click before leaves the dialog open, [Cancel], and also
    closing the dialog with no further click, start no application and
    leave the whole tree as it is. *)
Theorem options_cancel_changes_nothing (blanks rest : list click)
    (path : Path) (root node : SplitPaneWidget) :
  widget_at path root = Some node ->
  forallb undecided blanks = true ->
  open_pane_options (blanks ++ Click_cancel :: rest) path root
  = Some ([], Ok root)
  /\ open_pane_options blanks path root = Some ([], Ok root).
Proof.
  intros Hw Hb. unfold open_pane_options. rewrite Hw. split.
  - rewrite (exec_undecided blanks _ init_dialog eq_refl Hb).
    cbn [exec_ init_dialog dialog_done dialog_result on_click].
    rewrite (exec_done rest
               {| dialog_result := None; dialog_done := Some Rejected |}
               Rejected eq_refl).
    reflexivity.
  - rewrite <- (app_nil_r blanks).
    rewrite (exec_undecided blanks [] init_dialog eq_refl Hb).
    reflexivity.
Qed.

Lemma options_cancel_changes_nothing_witness :
  open_pane_options
    ([Click_launch (App_accepted "   ")]
     ++ Click_cancel :: [Click_close]) [0%nat] two_panes
  = Some ([], Ok two_panes)
  /\ open_pane_options [Click_launch (App_accepted "   ")] [0%nat] two_panes
     = Some ([], Ok two_panes).
Proof.
  apply (options_cancel_changes_nothing
           [Click_launch (App_accepted "   ")] [Click_close]
           [0%nat] two_panes new_pane);
    reflexivity.
Defined.

(** ** The window, its files and their names *)

(** X16.  Whatever is loaded, [load_workspace] leaves the window showing
    its root pane and nothing else: the layout holds exactly the root
    pane, which is a well-formed tree, or is empty when there is none. *)
Theorem load_keeps_window_consistent (file : workspace_file)
    (window : MainWindow) :
  window_consistent window ->
  window_consistent (fst (fst (load_workspace file window))).
Proof.
  intros Hw. unfold load_workspace.
  destruct file as [| [state | e]].
  - exact Hw.
  - destruct (create_from_state state) as [started [[root |] | e]] eqn:Hc;
      cbn [fst].
    + unfold window_consistent. cbn. split; [reflexivity |].
      exact (create_from_state_well_formed _ _ _ Hc).
    + reflexivity.
    + reflexivity.
  - destruct e; exact Hw.
Qed.

Lemma load_keeps_window_consistent_witness :
  window_consistent
    (fst (fst (load_workspace (File (Ok (get_state sample_tree)))
                 init_window))).
Proof.
  apply (load_keeps_window_consistent _ init_window).
  split; reflexivity.
Defined.

(** X17.  Saving and loading through a file.  When the window shows a
    well-formed tree, the name entered is not empty and its file can be
    written, [save_workspace] reports success and changes no other file,
    and [load_workspace] of the file saved puts the same tree into any
    window, starting its app panes. *)
Theorem save_then_load (workspace_path workspace_name : string)
    (fs : FileSystem) (window other : MainWindow)
    (root : SplitPaneWidget) :
  root_pane window = Some root ->
  well_formed root = true ->
  workspace_name <> "" ->
  writable fs (get_workspace_file_path workspace_path workspace_name)
  = true ->
  let file_path := get_workspace_file_path workspace_path workspace_name in
  let saved := save_workspace workspace_path workspace_name true fs window in
  snd saved = [Saved workspace_name file_path]
  /\ (forall p, p <> file_path -> file_at (fst saved) p = file_at fs p)
  /\ load_workspace (file_at (fst saved) file_path) other
     = ({| root_pane := Some root; main_layout := [root] |},
        map Popen (app_names root), []).
Proof.
  intros Hr Hw Hn Hwr file_path saved.
  apply String.eqb_neq in Hn.
  assert (Hs : saved = (write_json file_path (get_state root) fs,
                        [Saved workspace_name file_path])).
  { unfold saved, save_workspace, file_path. rewrite Hn, Hr.
    cbn [negb andb]. rewrite Hwr. reflexivity. }
  rewrite Hs. cbn [fst snd]. split; [reflexivity |]. split.
  - intros p Hp. cbn. apply String.eqb_neq in Hp. rewrite Hp. reflexivity.
  - cbn [write_json file_at]. rewrite String.eqb_refl.
    unfold load_workspace. rewrite (create_get_state_well_formed root Hw).
    reflexivity.
Qed.

Lemma save_then_load_witness :
  load_workspace
    (file_at
       (fst (save_workspace "workspaces" "My Layout" true
               (mkFS (fun _ => NoFile) (fun _ => true))
               (mkWindow (Some sample_tree) [sample_tree])))
       (get_workspace_file_path "workspaces" "My Layout"))
    init_window
  = ({| root_pane := Some sample_tree; main_layout := [sample_tree] |},
     map Popen (app_names sample_tree), []).
Proof.
  apply (save_then_load "workspaces" "My Layout"
           (mkFS (fun _ => NoFile) (fun _ => true))
           (mkWindow (Some sample_tree) [sample_tree]) init_window
           sample_tree);
    try reflexivity.
  discriminate.
Defined.

(** X18.  After a load that failed to build a tree the window has no root
    pane, and from then on nothing can be saved: [save_workspace] reports
    a failure under every name and writes no file. *)
Theorem save_fails_after_failed_load (state : json)
    (window : MainWindow) (workspace_path workspace_name : string)
    (fs : FileSystem) :
  (forall t, outcome (create_from_state state) <> Ok (Some t)) ->
  workspace_name <> "" ->
  save_workspace workspace_path workspace_name true fs
    (fst (fst (load_workspace (File (Ok state)) window)))
  = (fs, [Save_failed workspace_name]).
Proof.
  intros Hf Hn. apply String.eqb_neq in Hn.
  unfold load_workspace.
  destruct (create_from_state state) as [started [[root |] | e]];
    cbn [fst].
  - exfalso. apply (Hf root). reflexivity.
  - unfold save_workspace. rewrite Hn. reflexivity.
  - unfold save_workspace. rewrite Hn. reflexivity.
Qed.

Lemma save_fails_after_failed_load_witness :
  save_workspace "workspaces" "again" true
    (mkFS (fun _ => NoFile) (fun _ => true))
    (fst (fst (load_workspace (File (Ok bogus_state)) init_window)))
  = (mkFS (fun _ => NoFile) (fun _ => true), [Save_failed "again"]).
Proof.
  apply (save_fails_after_failed_load bogus_state init_window
           "workspaces" "again" (mkFS (fun _ => NoFile) (fun _ => true))).
  - intros t. discriminate.
  - discriminate.
Defined.

Lemma all_chars_join_if (keep : ascii -> bool) (s : string) :
  all_chars keep (Str.join_if keep s) = true.
Proof.
  induction s as [| c s IH]; [reflexivity |].
  cbn [Str.join_if]. destruct (keep c) eqn:E; [| exact IH].
  cbn. rewrite E, IH. reflexivity.
Qed.

Lemma all_chars_rstrip (p : ascii -> bool) (s : string) :
  all_chars p s = true -> all_chars p (Str.rstrip s) = true.
Proof.
  induction s as [| c s IH]; [reflexivity |].
  cbn [all_chars Str.rstrip]. intros H. apply andb_prop in H as [Hc Hs].
  specialize (IH Hs). destruct (Str.rstrip s) as [| a t].
  - destruct (Str.isspace c); [reflexivity |]. cbn. rewrite Hc. reflexivity.
  - cbn [all_chars] in IH |- *. rewrite Hc, IH. reflexivity.
Qed.

Lemma all_chars_replace_space (s : string) :
  all_chars kept_char s = true ->
  all_chars file_name_char (Str.replace " " "_" s) = true.
Proof.
  induction s as [| c s IH]; [reflexivity |].
  cbn [all_chars Str.replace]. intros H. apply andb_prop in H as [Hc Hs].
  rewrite (IH Hs), andb_true_r.
  destruct (Ascii.eqb c " ") eqn:E; [reflexivity |].
  unfold kept_char in Hc. rewrite E, orb_false_r in Hc.
  unfold file_name_char. exact Hc.
Qed.

Lemma all_chars_append (p : ascii -> bool) (a b : string) :
  all_chars p a = true -> all_chars p b = true ->
  all_chars p (String.append a b) = true.
Proof.
  induction a as [| c a IH]; intros Ha Hb; [exact Hb |].
  cbn [all_chars String.append] in Ha |- *.
  apply andb_prop in Ha as [Hc Ha]. rewrite Hc, (IH Ha Hb). reflexivity.
Qed.

(** X19.  The file of a workspace never leaves the workspace directory.
    For every name entered, the file name consists of alphanumeric
    characters, [.] and [_] only (so it holds no [/] and no space), it is a
    non-empty stem followed by [.json], and the path is the directory
    joined with that name. *)
Theorem file_name_is_safe (workspace_path workspace_name : string) :
  let f := workspace_file_name workspace_name in
  all_chars file_name_char f = true
  /\ (exists stem, f = String.append stem ".json" /\ stem <> "")
  /\ get_workspace_file_path workspace_path workspace_name
     = if String.eqb workspace_path "" || Str.ends_with_slash workspace_path
       then String.append workspace_path f
       else String.append workspace_path (String "/" f).
Proof.
  intros f.
  set (safe := Str.replace " " "_"
                 (Str.rstrip (Str.join_if kept_char workspace_name))).
  set (stem := if String.eqb safe "" then "untitled_workspace" else safe).
  assert (Hf : f = String.append stem ".json") by reflexivity.
  assert (Hsafe : all_chars file_name_char safe = true).
  { apply all_chars_replace_space, all_chars_rstrip, all_chars_join_if. }
  assert (Hstem : all_chars file_name_char stem = true /\ stem <> "").
  { unfold stem. destruct (String.eqb safe "") eqn:E.
    - split; [reflexivity | discriminate].
    - split; [exact Hsafe | apply String.eqb_neq; exact E]. }
  destruct Hstem as [Hall Hne].
  assert (Hchars : all_chars file_name_char f = true).
  { rewrite Hf. apply all_chars_append; [exact Hall | reflexivity]. }
  split; [exact Hchars |]. split; [exists stem; split; assumption |].
  unfold get_workspace_file_path, Str.os_path_join. fold f.
  destruct f as [| c t] eqn:Ef.
  - destruct stem; [congruence | discriminate].
  - cbn [all_chars] in Hchars. apply andb_prop in Hchars as [Hc _].
    destruct (Ascii.eqb c "/") eqn:Es.
    + apply Ascii.eqb_eq in Es. subst c. discriminate.
    + destruct c as [[] [] [] [] [] [] [] []]; try reflexivity.
      discriminate.
Qed.

(** ** Sorted lists *)

Section SortingFacts.
Context {A : Type} (leb : A -> A -> bool).
Hypothesis leb_total : forall a b, leb a b = true \/ leb b a = true.

Let le (a b : A) : Prop := leb a b = true.

Lemma insert_in_order_perm (x : A) (l : list A) :
  Permutation (insert_in_order leb x l) (x :: l).
Proof.
  induction l as [| y l IH]; cbn; [apply Permutation_refl |].
  destruct (leb x y); [apply Permutation_refl |].
  eapply Permutation_trans; [apply perm_skip, IH | apply perm_swap].
Qed.

Lemma py_sorted_perm (l : list A) : Permutation (py_sorted leb l) l.
Proof.
  induction l as [| x l IH]; cbn; [apply perm_nil |].
  eapply Permutation_trans; [apply insert_in_order_perm |].
  apply perm_skip, IH.
Qed.

Lemma insert_in_order_head (x y : A) (l : list A) :
  le y x -> HdRel le y l -> HdRel le y (insert_in_order leb x l).
Proof.
  intros Hyx Hl. destruct l as [| z l]; cbn; [constructor; exact Hyx |].
  destruct (leb x z); constructor; [exact Hyx |].
  inversion Hl; assumption.
Qed.

Lemma insert_in_order_sorted (x : A) (l : list A) :
  Sorted le l -> Sorted le (insert_in_order leb x l).
Proof.
  induction 1 as [| y l Hs IH Hh]; cbn; [repeat constructor |].
  destruct (leb x y) eqn:E.
  - constructor; [constructor; assumption | constructor; exact E].
  - constructor; [exact IH |].
    apply insert_in_order_head; [| exact Hh].
    destruct (leb_total x y) as [H | H]; [congruence | exact H].
Qed.

Lemma py_sorted_sorted (l : list A) : Sorted le (py_sorted leb l).
Proof.
  induction l as [| x l IH]; cbn; [constructor |].
  apply insert_in_order_sorted, IH.
Qed.
End SortingFacts.

Lemma pair_leb_total (a b : string * string) :
  pair_leb a b = true \/ pair_leb b a = true.
Proof.
  unfold pair_leb. rewrite (String.compare_antisym (fst b) (fst a)).
  destruct (String.compare (fst a) (fst b)); cbn.
  - apply String.leb_total.
  - left. reflexivity.
  - right. reflexivity.
Qed.

Lemma load_menu_entries (workspace_path : string)
    (filenames : list string) :
  filter (ends_with ".json") filenames <> [] ->
  exists workspaces,
    update_load_menu workspace_path (Some (Ok filenames))
    = map (fun w => Load_action (fst w) (snd w)) workspaces
    /\ Permutation workspaces
         (map (fun filename =>
                 (display_name filename,
                  Str.os_path_join workspace_path filename))
              (filter (ends_with ".json") filenames)).
Proof.
  intros Hne. unfold update_load_menu.
  set (ws := map _ (filter (ends_with ".json") filenames)).
  exists (py_sorted pair_leb ws). split; [| apply py_sorted_perm].
  destruct ws eqn:E; [| reflexivity].
  exfalso. apply Hne. unfold ws in E.
  destruct (filter (ends_with ".json") filenames); [reflexivity |].
  discriminate.
Qed.

(** X20.  The load menu lists the workspaces in order.  When the
    directory can be listed and holds a [.json] file, the menu has one
    load action for each file name ending in [.json] and no other action,
    and the actions are in ascending order of display name, then of
    path. *)
Theorem load_menu_sorted (workspace_path : string)
    (filenames : list string) :
  filter (ends_with ".json") filenames <> [] ->
  exists workspaces,
    update_load_menu workspace_path (Some (Ok filenames))
    = map (fun w => Load_action (fst w) (snd w)) workspaces
    /\ Sorted (fun a b => pair_leb a b = true) workspaces
    /\ Permutation workspaces
         (map (fun filename =>
                 (display_name filename,
                  Str.os_path_join workspace_path filename))
              (filter (ends_with ".json") filenames)).
Proof.
  intros Hne. unfold update_load_menu.
  set (ws := map _ (filter (ends_with ".json") filenames)).
  exists (py_sorted pair_leb ws). split; [| split].
  - destruct ws eqn:E; [| reflexivity].
    exfalso. apply Hne. unfold ws in E.
    destruct (filter (ends_with ".json") filenames); [reflexivity |].
    discriminate.
  - apply py_sorted_sorted. exact pair_leb_total.
  - apply py_sorted_perm.
Qed.

Lemma load_menu_sorted_witness :
  exists workspaces,
    update_load_menu "workspaces"
      (Some (Ok ["notes.txt"; "b_two.json"; "a.json"; "B.json"]))
    = map (fun w => Load_action (fst w) (snd w)) workspaces
    /\ Sorted (fun a b => pair_leb a b = true) workspaces
    /\ Permutation workspaces
         (map (fun filename =>
                 (display_name filename,
                  Str.os_path_join "workspaces" filename))
              (filter (ends_with ".json")
                 ["notes.txt"; "b_two.json"; "a.json"; "B.json"])).
Proof.
  apply (load_menu_sorted "workspaces"
           ["notes.txt"; "b_two.json"; "a.json"; "B.json"]).
  discriminate.
Defined.

(** ** The name shown for a saved workspace *)

Lemma append_assoc (a b c : string) :
  String.append (String.append a b) c = String.append a (String.append b c).
Proof.
  induction a as [| x a IH]; cbn; [reflexivity |]. rewrite IH. reflexivity.
Qed.

Lemma join_if_all (keep : ascii -> bool) (s : string) :
  all_chars keep s = true -> Str.join_if keep s = s.
Proof.
  induction s as [| c s IH]; [reflexivity |].
  cbn [all_chars Str.join_if]. intros H. apply andb_prop in H as [Hc Hs].
  rewrite Hc, (IH Hs). reflexivity.
Qed.

Lemma all_chars_impl (p q : ascii -> bool) (s : string) :
  (forall c, p c = true -> q c = true) ->
  all_chars p s = true -> all_chars q s = true.
Proof.
  intros Hpq. induction s as [| c s IH]; [reflexivity |].
  cbn [all_chars]. intros H. apply andb_prop in H as [Hc Hs].
  rewrite (Hpq c Hc), (IH Hs). reflexivity.
Qed.

Lemma rfind_append (c : ascii) (a b : string) :
  rfind c (String.append a b)
  = match rfind c b with
    | Some i => Some (String.length a + i)
    | None => rfind c a
    end.
Proof.
  induction a as [| x a IH]; cbn [String.append rfind String.length].
  - destruct (rfind c b); reflexivity.
  - rewrite IH. destruct (rfind c b); [reflexivity |].
    destruct (rfind c a); reflexivity.
Qed.

Lemma rfind_absent (c : ascii) (s : string) :
  all_chars (fun x => negb (Ascii.eqb x c)) s = true -> rfind c s = None.
Proof.
  induction s as [| x s IH]; [reflexivity |].
  cbn [all_chars rfind]. intros H. apply andb_prop in H as [Hx Hs].
  rewrite (IH Hs). apply negb_true_iff in Hx. rewrite Hx. reflexivity.
Qed.

Lemma take_append (a b : string) :
  take (String.length a) (String.append a b) = a.
Proof.
  induction a as [| x a IH]; cbn; [destruct b; reflexivity |].
  rewrite IH. reflexivity.
Qed.

Lemma drop_append (a b : string) :
  drop (String.length a) (String.append a b) = b.
Proof.
  induction a as [| x a IH]; cbn; [destruct b; reflexivity | exact IH].
Qed.

Lemma get_after (pre : string) (c : ascii) (t : string) :
  String.get (String.length pre) (String.append pre (String c t)) = Some c.
Proof.
  induction pre as [| x pre IH]; cbn; [reflexivity | exact IH].
Qed.

Lemma length_snoc (pre : string) (c : ascii) :
  String.length (String.append pre (String c EmptyString))
  = S (String.length pre).
Proof.
  induction pre as [| x pre IH]; cbn; [reflexivity |].
  rewrite IH. reflexivity.
Qed.

Lemma finds_non_dot_spec (a : string) :
  forall pre b,
    finds_non_dot (String.append pre (String.append a b))
      (String.length pre) (String.length a)
    = negb (all_chars is_dot a).
Proof.
  induction a as [| c a IH]; intros pre b; [reflexivity |].
  cbn [String.length finds_non_dot String.append all_chars].
  rewrite get_after. unfold is_dot at 1.
  destruct (Ascii.eqb c ".") eqn:E; cbn [negb andb]; [| reflexivity].
  rewrite <- (length_snoc pre c), <- (IH (String.append pre (String c "")) b).
  rewrite append_assoc. reflexivity.
Qed.

Lemma ends_with_append (a suffix : string) :
  ends_with suffix (String.append a suffix) = true.
Proof.
  induction a as [| c a IH].
  - destruct suffix; cbn [String.append ends_with];
      rewrite String.eqb_refl; reflexivity.
  - cbn [String.append ends_with]. rewrite IH. apply orb_true_r.
Qed.

Lemma replace_back (s : string) :
  all_chars plain_char s = true ->
  Str.replace "_" " " (Str.replace " " "_" s) = s.
Proof.
  induction s as [| c s IH]; [reflexivity |].
  cbn [all_chars Str.replace]. intros H. apply andb_prop in H as [Hc Hs].
  rewrite (IH Hs). f_equal.
  destruct (Ascii.eqb c " ") eqn:E.
  - apply Ascii.eqb_eq in E. subst c. reflexivity.
  - destruct (Ascii.eqb c "_") eqn:U; [| reflexivity].
    apply Ascii.eqb_eq in U. subst c. discriminate.
Qed.

Lemma replace_keeps_non_dot (s : string) :
  all_chars is_dot (Str.replace " " "_" s) = all_chars is_dot s.
Proof.
  induction s as [| c s IH]; [reflexivity |].
  cbn [all_chars Str.replace]. rewrite IH. f_equal.
  destruct (Ascii.eqb c " ") eqn:E; [| reflexivity].
  apply Ascii.eqb_eq in E. subst c. reflexivity.
Qed.

Lemma replace_no_slash (s : string) :
  all_chars plain_char s = true ->
  all_chars (fun x => negb (Ascii.eqb x "/")) (Str.replace " " "_" s) = true.
Proof.
  induction s as [| c s IH]; [reflexivity |].
  cbn [all_chars Str.replace]. intros H. apply andb_prop in H as [Hc Hs].
  rewrite (IH Hs), andb_true_r.
  destruct (Ascii.eqb c " "); [reflexivity |].
  destruct (Ascii.eqb c "/") eqn:E; [| reflexivity].
  apply Ascii.eqb_eq in E. subst c. discriminate.
Qed.

Lemma saved_file_name (name : string) :
  all_chars plain_char name = true ->
  Str.rstrip name = name ->
  all_chars is_dot name = false ->
  workspace_file_name name
  = String.append (Str.replace " " "_" name) ".json".
Proof.
  intros Hp Hr Hd. unfold workspace_file_name.
  rewrite (join_if_all kept_char name), Hr.
  - destruct (Str.replace " " "_" name) eqn:E; [| reflexivity].
    destruct name; [discriminate | discriminate].
  - apply (all_chars_impl plain_char kept_char); [| exact Hp].
    intros c Hc. unfold plain_char in Hc. unfold kept_char.
    apply orb_prop in Hc as [Hc | Hc];
      [rewrite Hc; reflexivity | rewrite Hc; apply orb_true_r ||
       (rewrite orb_true_r; reflexivity)].
Qed.

Lemma splitext_json (stem : string) :
  all_chars (fun x => negb (Ascii.eqb x "/")) stem = true ->
  all_chars is_dot stem = false ->
  splitext (String.append stem ".json") = (stem, ".json").
Proof.
  intros Hs Hd. unfold splitext.
  rewrite !rfind_append.
  change (rfind "/" ".json") with (@None nat).
  change (rfind "." ".json") with (Some 0%nat).
  rewrite (rfind_absent "/" stem Hs), Nat.add_0_r.
  cbn [Nat.leb andb]. rewrite Nat.sub_0_r.
  pose proof (finds_non_dot_spec stem EmptyString ".json") as H.
  cbn [String.append String.length] in H. rewrite H, Hd. cbn [negb].
  rewrite take_append, drop_append. reflexivity.
Qed.

(** X21.  A workspace saved under a plain name is offered under that very
    name.  When the name entered consists of alphanumeric characters,
    spaces and dots, does not end in white space and is not made of dots
    only, the load menu shows the file written for it under the name as it
    was entered, with the path the workspace was saved to. *)
Theorem saved_workspace_in_menu (workspace_path workspace_name : string)
    (filenames : list string) :
  all_chars plain_char workspace_name = true ->
  Str.rstrip workspace_name = workspace_name ->
  all_chars is_dot workspace_name = false ->
  In (workspace_file_name workspace_name) filenames ->
  display_name (workspace_file_name workspace_name) = workspace_name
  /\ In (Load_action workspace_name
           (get_workspace_file_path workspace_path workspace_name))
        (update_load_menu workspace_path (Some (Ok filenames))).
Proof.
  intros Hp Hr Hd Hin.
  pose proof (saved_file_name workspace_name Hp Hr Hd) as Hf.
  assert (Hdisplay : display_name (workspace_file_name workspace_name)
                     = workspace_name).
  { unfold display_name. rewrite Hf, splitext_json.
    - cbn [fst]. apply replace_back. exact Hp.
    - apply replace_no_slash. exact Hp.
    - rewrite replace_keeps_non_dot. exact Hd. }
  split; [exact Hdisplay |].
  assert (Hjson : In (workspace_file_name workspace_name)
                     (filter (ends_with ".json") filenames)).
  { apply filter_In. split; [exact Hin |].
    rewrite Hf. apply ends_with_append. }
  destruct (load_menu_entries workspace_path filenames) as (ws & Hm & Hperm).
  { intros E. rewrite E in Hjson. exact Hjson. }
  rewrite Hm. apply in_map_iff.
  exists (workspace_name,
          get_workspace_file_path workspace_path workspace_name).
  split; [reflexivity |].
  eapply Permutation_in; [apply Permutation_sym; exact Hperm |].
  apply in_map_iff. exists (workspace_file_name workspace_name).
  rewrite Hdisplay. split; [reflexivity | exact Hjson].
Qed.

Lemma saved_workspace_in_menu_witness :
  display_name (workspace_file_name "My Layout v1.2") = "My Layout v1.2"
  /\ In (Load_action "My Layout v1.2"
           (get_workspace_file_path "workspaces" "My Layout v1.2"))
        (update_load_menu "workspaces"
           (Some (Ok ["a.json"; "My_Layout_v1.2.json"; "readme.md"]))).
Proof.
  apply (saved_workspace_in_menu "workspaces" "My Layout v1.2"
           ["a.json"; "My_Layout_v1.2.json"; "readme.md"]);
    try reflexivity.
  right. left. reflexivity.
Defined.

(** ** The list of executables *)

(** X22.  The list that [get_executable_list] returns is in ascending
    order, holds no name twice, and holds exactly the common GUI
    applications and the names of the executable files of the readable
    directories among [EXEC_PATHS]; a path that is no directory or cannot
    be listed adds nothing and raises nothing. *)
Theorem executable_list_sorted_distinct (view : string -> dir_view) :
  Sorted (fun a b => String.leb a b = true) (get_executable_list view)
  /\ NoDup (get_executable_list view)
  /\ forall name,
       In name (get_executable_list view)
       <-> In name common_gui_apps
           \/ exists path entries,
                In path EXEC_PATHS
                /\ view path = Entries entries
                /\ In (name, true) entries.
Proof.
  unfold get_executable_list.
  set (executables := flat_map _ EXEC_PATHS).
  split; [apply py_sorted_sorted, String.leb_total |].
  split.
  - eapply Permutation_NoDup.
    + apply Permutation_sym, py_sorted_perm.
    + apply NoDup_nodup.
  - intros name. split.
    + intros Hin.
      apply (Permutation_in _ (py_sorted_perm String.leb _)) in Hin.
      apply nodup_In, in_app_iff in Hin. destruct Hin as [Hin | Hin].
      * right. apply in_flat_map in Hin. destruct Hin as (path & Hp & Hin).
        destruct (view path) as [| | entries] eqn:E;
          [contradiction | contradiction |].
        apply in_map_iff in Hin. destruct Hin as ([n b] & Hn & Hin).
        apply filter_In in Hin. destruct Hin as [Hin Hb].
        cbn in Hn, Hb. subst n b.
        exists path, entries. repeat split; assumption.
      * left. exact Hin.
    + intros H.
      apply (Permutation_in _
               (Permutation_sym (py_sorted_perm String.leb _))).
      apply nodup_In, in_app_iff. destruct H as [H | H].
      * right. exact H.
      * left. destruct H as (path & entries & Hp & E & Hin).
        apply in_flat_map. exists path. split; [exact Hp |].
        rewrite E. apply in_map_iff. exists (name, true).
        split; [reflexivity |]. apply filter_In. split; [exact Hin |].
        reflexivity.
Qed.
